(** * SHS Z2M Presence Zones: the interactive spatial editor

    A shallow embedding of [src/drawingManager.js] (class [DrawingManager])
    and of the coordinate part of [shs_z2m_presence_zones/src/radarCanvas.js]
    (class [RadarCanvas]).

    Conventions of the embedding:
    - a JavaScript number is a real number ([R]); rounding error of the
      double format is not modelled, so [Math.cos], [Math.sin] are the real
      cosine and sine and [Math.round r] is [floor (r + 1/2)];
    - [mapRotation] is an integer number of degrees ([Z]), the [switch] of
      [transformSensorToRoom] is a match on it;
    - an array is a [list], [a[i]] is [nth_error a i] and [undefined] is
      [None]; reading a property of [undefined] is the outcome [TypeError];
    - the callbacks object is an event log: every callback invocation appends
      one [Event] (all callbacks are taken to be registered and to be pure
      observers);
    - [Date.now()] is an explicit argument of the two placement handlers. *)

From Stdlib Require Import Reals Lra Lia ZArith List String Bool DecimalString.
Import ListNotations.
Open Scope R_scope.

(** ** Numbers *)

Module JsMath.

(** [Math.round]: the nearest integer, ties towards plus infinity. *)
Definition round (r : R) : Z := Int_part (r + / 2).

(** [Math.round(v / grid) * grid], the grid snap written inline all over
    the source. *)
Definition snap (grid v : R) : R := IZR (round (v / grid)) * grid.

Definition leb (a b : R) : bool := if Rle_dec a b then true else false.
Definition ltb (a b : R) : bool := if Rlt_dec a b then true else false.

(** [Math.trunc]-like rounding towards zero, as the remainder operator
    uses it. *)
Definition trunc (r : R) : Z :=
  if Rle_dec 0 r then Int_part r else (- Int_part (- r))%Z.

(** [a % b] on numbers: the remainder has the sign of the dividend. *)
Definition rem (a b : R) : R := a - b * IZR (trunc (a / b)).

End JsMath.

(** ** Geometry shared by both classes *)

Record Point : Type := mkPoint { pt_x : R; pt_y : R }.

(** ** RadarCanvas: the coordinate transform *)

Module RadarCanvas.

(** [this.SENSOR_RANGE] *)
Definition X_MIN : R := -3000.
Definition X_MAX : R := 3000.
Definition Y_MIN : R := 0.
Definition Y_MAX : R := 6000.

Record t : Type := mkCanvas {
  width : R;
  height : R;
  centerX : R;
  centerY : R;
  scaleX : R;
  scaleY : R;
  mapRotation : Z
}.

(** [resize()]: the canvas is a square of [size] pixels; [size] is what the
    DOM reports, so it is an argument here. *)
Definition resize (size : R) (rotation : Z) : t :=
  {| width := size;
     height := size;
     centerX := size / 2;
     centerY := size;
     scaleX := size / (X_MAX - X_MIN);
     scaleY := size / (Y_MAX - Y_MIN);
     mapRotation := rotation |}.

Definition toCanvasX (rc : t) (x : R) : R := centerX rc + x * scaleX rc.
Definition toCanvasY (rc : t) (y : R) : R := centerY rc - y * scaleY rc.
Definition toSensorX (rc : t) (canvasX : R) : R := (canvasX - centerX rc) / scaleX rc.
Definition toSensorY (rc : t) (canvasY : R) : R := (centerY rc - canvasY) / scaleY rc.

(** [setMapRotation(degrees)]: [degrees % 360]; the remainder of
    JavaScript takes the sign of the dividend, as [Z.rem] does. *)
Definition setMapRotation (rc : t) (degrees : Z) : t :=
  {| width := width rc; height := height rc;
     centerX := centerX rc; centerY := centerY rc;
     scaleX := scaleX rc; scaleY := scaleY rc;
     mapRotation := Z.rem degrees 360 |}.

(** [transformSensorToRoom(sensorX, sensorY)]: the per-case remap used for
    live target markers. *)
Definition transformSensorToRoom (rc : t) (sensorX sensorY : R) : Point :=
  match mapRotation rc with
  | 0%Z => mkPoint sensorX sensorY
  | 90%Z => mkPoint (sensorY - 3000) (sensorX + 3000)
  | 180%Z => mkPoint sensorX (Y_MAX - sensorY)
  | 270%Z => mkPoint (- (sensorY - 3000)) (- sensorX + 3000)
  | _ => mkPoint sensorX sensorY
  end.

(** [transformRoomToSensor(roomX, roomY)] *)
Definition transformRoomToSensor (rc : t) (roomX roomY : R) : Point :=
  match mapRotation rc with
  | 0%Z => mkPoint roomX roomY
  | 90%Z => mkPoint (roomY - 3000) (roomX + 3000)
  | 180%Z => mkPoint roomX (Y_MAX - roomY)
  | 270%Z => mkPoint (3000 - roomY) (3000 - roomX)
  | _ => mkPoint roomX roomY
  end.

(** The pixel at which [drawTarget(target, index)] paints a target: the
    remap followed by the unrotated scale; targets are drawn outside the
    rotated drawing context. *)
Definition drawTarget_position (rc : t) (targetX targetY : R) : Point :=
  let transformed := transformSensorToRoom rc targetX targetY in
  mkPoint (toCanvasX rc (pt_x transformed)) (toCanvasY rc (pt_y transformed)).

End RadarCanvas.

(** ** DrawingManager: pointer coordinates *)

Module Coords.
Import RadarCanvas.

(** [toSensorCoords(canvasX, canvasY)] *)
Definition toSensorCoords (rc : RadarCanvas.t) (canvasX canvasY : R) : Point :=
  let cx := width rc / 2 in
  let cy := height rc / 2 in
  let rotation := IZR (mapRotation rc) in
  let angle := - rotation * PI / 180 in
  let dx := canvasX - cx in
  let dy := canvasY - cy in
  let cos := cos angle in
  let sin := sin angle in
  let unrotatedX := cx + dx * cos - dy * sin in
  let unrotatedY := cy + dx * sin + dy * cos in
  mkPoint (toSensorX rc unrotatedX) (toSensorY rc unrotatedY).

(** [toCanvasCoords(sensorX, sensorY)] *)
Definition toCanvasCoords (rc : RadarCanvas.t) (sensorX sensorY : R) : Point :=
  let unrotatedX := toCanvasX rc sensorX in
  let unrotatedY := toCanvasY rc sensorY in
  let cx := width rc / 2 in
  let cy := height rc / 2 in
  let rotation := IZR (mapRotation rc) in
  let angle := rotation * PI / 180 in
  let cos := cos angle in
  let sin := sin angle in
  let dx := unrotatedX - cx in
  let dy := unrotatedY - cy in
  mkPoint (cx + dx * cos - dy * sin) (cy + dx * sin + dy * cos).

End Coords.

(** ** The shape registry *)

Inductive ShapeType : Type := rectangle | polygon.

Inductive ZoneType : Type := detection | interference.

(** A zone slot.  [zoneType] is [None] when the property is unset (the
    source tests it with [!zone.zoneType]). *)
Module Zone.
Record t : Type := mk {
  enabled : bool;
  shapeType : ShapeType;
  x1 : R; y1 : R; x2 : R; y2 : R;
  vertices : option (list Point);
  zoneType : option ZoneType
}.
End Zone.

(** The identifier [`prefix_${Date.now()}`]. *)
Record Id : Type := mkId { id_prefix : string; id_stamp : Z }.

Module Furniture.
Record t : Type := mk {
  id : Id;
  type : string;
  x : R; y : R;
  rotation : R;
  width : R; height : R
}.
End Furniture.

Module Entrance.
Record t : Type := mk {
  id : Id;
  x : R; y : R;
  direction : R;
  label : string
}.
End Entrance.

Module Edge.
Record t : Type := mk {
  id : Id;
  x1 : R; y1 : R; x2 : R; y2 : R
}.
End Edge.

(** A bare rectangle: the result of [getZoneCorners] and the preview. *)
Record Rect : Type := mkRect { r_x1 : R; r_y1 : R; r_x2 : R; r_y2 : R }.

(** [state.zones.zones], [state.annotations.*], [state.canvas.placingFurniture] *)
Record State : Type := mkState {
  zones : list Zone.t;
  furniture : list Furniture.t;
  entrances : list Entrance.t;
  edges : list Edge.t;
  placingFurniture : option string
}.

(** ** Editor state *)

Inductive Mode : Type :=
  | select | draw_rectangle | draw_polygon | draw_edge
  | place_furniture | place_entrance | moving.

Inductive ItemType : Type := item_zone | item_furniture | item_entrance | item_edge.

Inductive HandleType : Type := h_nw | h_ne | h_sw | h_se | h_n | h_s | h_w | h_e.

(** The bounding-box property named by a handle's [updateX] / [updateY]. *)
Inductive XField : Type := X1 | X2.
Inductive YField : Type := Y1 | Y2.

(** A resize handle as stored in [selectedHandle].  Zone and edge handles
    carry [updateX]/[updateY]; a furniture handle has neither property, so
    both read as [None] (undefined is falsy). *)
Record Handle : Type := mkHandle {
  h_type : HandleType;
  h_x : R; h_y : R;
  updateX : option XField;
  updateY : option YField;
  h_itemType : option ItemType;
  h_index : option nat
}.

Inductive Preview : Type :=
  | PreviewRectangle (rect : Rect)
  | PreviewPolygon (vertices : list Point)
  | PreviewEdge (rect : Rect).

(** The properties that [resetDrawingState] clears. *)
Record Gesture : Type := mkGesture {
  isDrawing : bool;
  isDragging : bool;
  isMoving : bool;
  movingItemType : option ItemType;
  movingItemIndex : option nat;
  startPoint : option Point;
  currentPoint : option Point;
  polygonVertices : list Point;
  previewRect : option Rect;
  previewPolygon : list Point;
  selectedHandle : option Handle
}.

Record Selection : Type := mkSelection {
  selectedZoneIndex : option nat;
  selectedFurnitureIndex : option nat;
  selectedEntranceIndex : option nat;
  selectedEdgeIndex : option nat
}.

(** The instance properties of [DrawingManager]. *)
Record Manager : Type := mkManager {
  mode : Mode;
  gesture : Gesture;
  selection : Selection;
  dragOffset : Point;
  moveOrigin : option Point;
  isRightClickDragging : bool;
  drawingEdge : bool;
  cursor : string
}.

(** Callback invocations, in order.  An item argument that the source may
    pass as [undefined] is an [option]. *)
Inductive Event : Type :=
  | OnModeChange (m : Mode)
  | OnZoneSelect (index : option nat)
  | OnFurnitureSelect (index : option nat) (item : option Furniture.t)
  | OnEntranceSelect (index : option nat) (item : option Entrance.t)
  | OnEdgeSelect (index : option nat) (item : option Edge.t)
  | OnZoneCreated (index : nat) (item : Zone.t)
  | OnZoneUpdate (index : option nat) (item : option Zone.t)
  | OnZoneDeleted (index : nat)
  | OnFurniturePlaced (item : Furniture.t)
  | OnFurnitureUpdate (index : option nat) (item : option Furniture.t)
  | OnFurnitureDeleted (index : nat)
  | OnEntrancePlaced (item : Entrance.t)
  | OnEntranceUpdate (index : option nat) (item : option Entrance.t)
  | OnEntranceDeleted (index : nat)
  | OnEdgePlaced (item : Edge.t)
  | OnEdgeUpdate (index : option nat) (item : option Edge.t)
  | OnEdgeDeleted (index : nat)
  | OnPreviewUpdate (preview : option Preview)
  | OnError (message : string)
  | DrawFrame.

(** Everything a handler can read or write. *)
Record World : Type := mkWorld {
  this : Manager;
  state : State;
  radarCanvas : RadarCanvas.t;
  events : list Event
}.

(** The result of running a handler: it returns, or it throws the
    [TypeError] of a property access on [undefined]. *)
Inductive outcome (A : Type) : Type :=
  | Ok (a : A)
  | TypeError.
Arguments Ok {A} a.
Arguments TypeError {A}.

Definition bind {A B : Type} (m : outcome A) (k : A -> outcome B) : outcome B :=
  match m with
  | Ok a => k a
  | TypeError => TypeError
  end.

Notation "x <- m ;; k" := (bind m (fun x => k))
  (at level 61, m at next level, right associativity).

(** [o.property] for an [o] that may be [undefined]. *)
Definition deref {A : Type} (o : option A) : outcome A :=
  match o with
  | Some a => Ok a
  | None => TypeError
  end.

(** ** Assignments

    One function per assigned property: [set_p v x] is [x.p = v]. *)

Module Assign.

Definition with_gesture (f : Gesture -> Gesture) (m : Manager) : Manager :=
  mkManager (mode m) (f (gesture m)) (selection m) (dragOffset m) (moveOrigin m)
            (isRightClickDragging m) (drawingEdge m) (cursor m).

Definition with_selection (f : Selection -> Selection) (m : Manager) : Manager :=
  mkManager (mode m) (gesture m) (f (selection m)) (dragOffset m) (moveOrigin m)
            (isRightClickDragging m) (drawingEdge m) (cursor m).

Definition with_this (f : Manager -> Manager) (w : World) : World :=
  mkWorld (f (this w)) (state w) (radarCanvas w) (events w).

Definition with_state (f : State -> State) (w : World) : World :=
  mkWorld (this w) (f (state w)) (radarCanvas w) (events w).

(** Invoke a callback. *)
Definition emit (ev : Event) (w : World) : World :=
  mkWorld (this w) (state w) (radarCanvas w) (events w ++ [ev]).

Definition set_mode (v : Mode) : World -> World :=
  with_this (fun m => mkManager v (gesture m) (selection m) (dragOffset m) (moveOrigin m)
                                (isRightClickDragging m) (drawingEdge m) (cursor m)).

Definition set_dragOffset (v : Point) : World -> World :=
  with_this (fun m => mkManager (mode m) (gesture m) (selection m) v (moveOrigin m)
                                (isRightClickDragging m) (drawingEdge m) (cursor m)).

Definition set_moveOrigin (v : option Point) : World -> World :=
  with_this (fun m => mkManager (mode m) (gesture m) (selection m) (dragOffset m) v
                                (isRightClickDragging m) (drawingEdge m) (cursor m)).

Definition set_isRightClickDragging (v : bool) : World -> World :=
  with_this (fun m => mkManager (mode m) (gesture m) (selection m) (dragOffset m) (moveOrigin m)
                                v (drawingEdge m) (cursor m)).

Definition set_drawingEdge (v : bool) : World -> World :=
  with_this (fun m => mkManager (mode m) (gesture m) (selection m) (dragOffset m) (moveOrigin m)
                                (isRightClickDragging m) v (cursor m)).

(** [this.canvas.style.cursor = v] *)
Definition set_cursor (v : string) : World -> World :=
  with_this (fun m => mkManager (mode m) (gesture m) (selection m) (dragOffset m) (moveOrigin m)
                                (isRightClickDragging m) (drawingEdge m) v).

Definition set_isDrawing (v : bool) : World -> World :=
  with_this (with_gesture (fun g =>
    mkGesture v (isDragging g) (isMoving g) (movingItemType g) (movingItemIndex g)
              (startPoint g) (currentPoint g) (polygonVertices g) (previewRect g)
              (previewPolygon g) (selectedHandle g))).

Definition set_isDragging (v : bool) : World -> World :=
  with_this (with_gesture (fun g =>
    mkGesture (isDrawing g) v (isMoving g) (movingItemType g) (movingItemIndex g)
              (startPoint g) (currentPoint g) (polygonVertices g) (previewRect g)
              (previewPolygon g) (selectedHandle g))).

Definition set_isMoving (v : bool) : World -> World :=
  with_this (with_gesture (fun g =>
    mkGesture (isDrawing g) (isDragging g) v (movingItemType g) (movingItemIndex g)
              (startPoint g) (currentPoint g) (polygonVertices g) (previewRect g)
              (previewPolygon g) (selectedHandle g))).

Definition set_movingItemType (v : option ItemType) : World -> World :=
  with_this (with_gesture (fun g =>
    mkGesture (isDrawing g) (isDragging g) (isMoving g) v (movingItemIndex g)
              (startPoint g) (currentPoint g) (polygonVertices g) (previewRect g)
              (previewPolygon g) (selectedHandle g))).

Definition set_movingItemIndex (v : option nat) : World -> World :=
  with_this (with_gesture (fun g =>
    mkGesture (isDrawing g) (isDragging g) (isMoving g) (movingItemType g) v
              (startPoint g) (currentPoint g) (polygonVertices g) (previewRect g)
              (previewPolygon g) (selectedHandle g))).

Definition set_startPoint (v : option Point) : World -> World :=
  with_this (with_gesture (fun g =>
    mkGesture (isDrawing g) (isDragging g) (isMoving g) (movingItemType g) (movingItemIndex g)
              v (currentPoint g) (polygonVertices g) (previewRect g)
              (previewPolygon g) (selectedHandle g))).

Definition set_currentPoint (v : option Point) : World -> World :=
  with_this (with_gesture (fun g =>
    mkGesture (isDrawing g) (isDragging g) (isMoving g) (movingItemType g) (movingItemIndex g)
              (startPoint g) v (polygonVertices g) (previewRect g)
              (previewPolygon g) (selectedHandle g))).

Definition set_polygonVertices (v : list Point) : World -> World :=
  with_this (with_gesture (fun g =>
    mkGesture (isDrawing g) (isDragging g) (isMoving g) (movingItemType g) (movingItemIndex g)
              (startPoint g) (currentPoint g) v (previewRect g)
              (previewPolygon g) (selectedHandle g))).

Definition set_previewRect (v : option Rect) : World -> World :=
  with_this (with_gesture (fun g =>
    mkGesture (isDrawing g) (isDragging g) (isMoving g) (movingItemType g) (movingItemIndex g)
              (startPoint g) (currentPoint g) (polygonVertices g) v
              (previewPolygon g) (selectedHandle g))).

Definition set_previewPolygon (v : list Point) : World -> World :=
  with_this (with_gesture (fun g =>
    mkGesture (isDrawing g) (isDragging g) (isMoving g) (movingItemType g) (movingItemIndex g)
              (startPoint g) (currentPoint g) (polygonVertices g) (previewRect g)
              v (selectedHandle g))).

Definition set_selectedHandle (v : option Handle) : World -> World :=
  with_this (with_gesture (fun g =>
    mkGesture (isDrawing g) (isDragging g) (isMoving g) (movingItemType g) (movingItemIndex g)
              (startPoint g) (currentPoint g) (polygonVertices g) (previewRect g)
              (previewPolygon g) v)).

Definition set_selectedZoneIndex (v : option nat) : World -> World :=
  with_this (with_selection (fun sel =>
    mkSelection v (selectedFurnitureIndex sel) (selectedEntranceIndex sel) (selectedEdgeIndex sel))).

Definition set_selectedFurnitureIndex (v : option nat) : World -> World :=
  with_this (with_selection (fun sel =>
    mkSelection (selectedZoneIndex sel) v (selectedEntranceIndex sel) (selectedEdgeIndex sel))).

Definition set_selectedEntranceIndex (v : option nat) : World -> World :=
  with_this (with_selection (fun sel =>
    mkSelection (selectedZoneIndex sel) (selectedFurnitureIndex sel) v (selectedEdgeIndex sel))).

Definition set_selectedEdgeIndex (v : option nat) : World -> World :=
  with_this (with_selection (fun sel =>
    mkSelection (selectedZoneIndex sel) (selectedFurnitureIndex sel) (selectedEntranceIndex sel) v)).

Definition set_zones (v : list Zone.t) : World -> World :=
  with_state (fun st => mkState v (furniture st) (entrances st) (edges st) (placingFurniture st)).

Definition set_furniture (v : list Furniture.t) : World -> World :=
  with_state (fun st => mkState (zones st) v (entrances st) (edges st) (placingFurniture st)).

Definition set_entrances (v : list Entrance.t) : World -> World :=
  with_state (fun st => mkState (zones st) (furniture st) v (edges st) (placingFurniture st)).

Definition set_edges (v : list Edge.t) : World -> World :=
  with_state (fun st => mkState (zones st) (furniture st) (entrances st) v (placingFurniture st)).

(** [a[i] = v] for an index inside the array (the source only writes
    through an object it has just read from the array). *)
Fixpoint store {A : Type} (i : nat) (v : A) (a : list A) : list A :=
  match a, i with
  | [], _ => []
  | _ :: rest, O => v :: rest
  | a0 :: rest, S i' => a0 :: store i' v rest
  end.

(** [a.splice(i, 1)] *)
Fixpoint splice1 {A : Type} (i : nat) (a : list A) : list A :=
  match a, i with
  | [], _ => []
  | _ :: rest, O => rest
  | a0 :: rest, S i' => a0 :: splice1 i' rest
  end.

End Assign.

(** ** DrawingManager *)

Module DrawingManager.
Import Assign.
Import Coords.

Local Open Scope string_scope.

(** [this.handleSize], [this.furnitureHandleSize] *)
Definition handleSize : R := 10.
Definition furnitureHandleSize : R := 9.

Definition sel (w : World) : Selection := selection (this w).
Definition ges (w : World) : Gesture := gesture (this w).

(** [updateCursor()] *)
Definition updateCursor (w : World) : World :=
  match mode (this w) with
  | select => set_cursor "default" w
  | draw_rectangle | draw_polygon | draw_edge => set_cursor "crosshair" w
  | place_furniture | place_entrance => set_cursor "copy" w
  | moving => set_cursor "default" w
  end.

(** [resetDrawingState()]: the selection indices are kept on purpose. *)
Definition resetDrawingState (w : World) : World :=
  emit (OnPreviewUpdate None)
    (with_this (with_gesture (fun _ =>
       mkGesture false false false None None None None [] None [] None)) w).

(** [setMode(mode)] *)
Definition setMode (m : Mode) (w : World) : World :=
  emit (OnModeChange m) (updateCursor (resetDrawingState (set_mode m w))).

(** [clearSelection()] *)
Definition clearSelection (w : World) : World :=
  emit (OnFurnitureSelect None None)
    (emit (OnZoneSelect None)
      (set_selectedHandle None
        (set_selectedFurnitureIndex None
          (set_selectedZoneIndex None w)))).

(** The loop of [getNextAvailableZoneSlot]: [n] iterations left, at
    index [i]. *)
Fixpoint scanSlots (zs : list Zone.t) (i n : nat) : outcome (option nat) :=
  match n with
  | O => Ok None
  | S n' =>
      z <- deref (nth_error zs i) ;;
      if Zone.enabled z then scanSlots zs (S i) n' else Ok (Some i)
  end.

(** [getNextAvailableZoneSlot()]: [for (let i = 0; i < 3; i++)]; the
    result [-1] is [None]. *)
Definition getNextAvailableZoneSlot (w : World) : outcome (option nat) :=
  scanSlots (zones (state w)) 0 3.

(** The body of the loop of [isPointInPolygon], [vj] being the vertex
    before [vi]. *)
Definition crosses (x y : R) (vi vj : Point) : bool :=
  let xi := pt_x vi in let yi := pt_y vi in
  let xj := pt_x vj in let yj := pt_y vj in
  negb (Bool.eqb (JsMath.ltb y yi) (JsMath.ltb y yj))
  && JsMath.ltb x ((xj - xi) * (y - yi) / (yj - yi) + xi).

Fixpoint rayCast (x y : R) (vj : Point) (rest : list Point) (inside : bool) : bool :=
  match rest with
  | [] => inside
  | vi :: rest' =>
      rayCast x y vi rest' (if crosses x y vi vj then negb inside else inside)
  end.

(** [isPointInPolygon(x, y, vertices)]: [j] starts at the last vertex. *)
Definition isPointInPolygon (x y : R) (vertices : list Point) : bool :=
  rayCast x y (last vertices (mkPoint 0 0)) vertices false.

(** [isPointInZone(sensorX, sensorY, zone)] *)
Definition isPointInZone (sensorX sensorY : R) (zone : option Zone.t) : outcome bool :=
  z <- deref zone ;;
  if negb (Zone.enabled z) then Ok false
  else
    match Zone.shapeType z, Zone.vertices z with
    | polygon, Some vs => Ok (isPointInPolygon sensorX sensorY vs)
    | _, _ =>
        let minX := Rmin (Zone.x1 z) (Zone.x2 z) in
        let maxX := Rmax (Zone.x1 z) (Zone.x2 z) in
        let minY := Rmin (Zone.y1 z) (Zone.y2 z) in
        let maxY := Rmax (Zone.y1 z) (Zone.y2 z) in
        Ok (JsMath.leb minX sensorX && JsMath.leb sensorX maxX
            && JsMath.leb minY sensorY && JsMath.leb sensorY maxY)
    end.

(** [getZoneCorners(zone)] *)
Definition getZoneCorners (zone : option Zone.t) : outcome Rect :=
  z <- deref zone ;;
  Ok (mkRect (Rmin (Zone.x1 z) (Zone.x2 z)) (Rmin (Zone.y1 z) (Zone.y2 z))
             (Rmax (Zone.x1 z) (Zone.x2 z)) (Rmax (Zone.y1 z) (Zone.y2 z))).

(** The [handles] array of [getHandleAtPoint] and [getEdgeHandleAtPoint]. *)
Definition boxHandles (corners : Rect) : list Handle :=
  [ mkHandle h_nw (r_x1 corners) (r_y2 corners) (Some X1) (Some Y2) None None;
    mkHandle h_ne (r_x2 corners) (r_y2 corners) (Some X2) (Some Y2) None None;
    mkHandle h_sw (r_x1 corners) (r_y1 corners) (Some X1) (Some Y1) None None;
    mkHandle h_se (r_x2 corners) (r_y1 corners) (Some X2) (Some Y1) None None;
    mkHandle h_n ((r_x1 corners + r_x2 corners) / 2) (r_y2 corners) None (Some Y2) None None;
    mkHandle h_s ((r_x1 corners + r_x2 corners) / 2) (r_y1 corners) None (Some Y1) None None;
    mkHandle h_w (r_x1 corners) ((r_y1 corners + r_y2 corners) / 2) (Some X1) None None None;
    mkHandle h_e (r_x2 corners) ((r_y1 corners + r_y2 corners) / 2) (Some X2) None None None ].

(** The test of the [for (const handle of handles)] loops. *)
Definition handleHit (rc : RadarCanvas.t) (canvasX canvasY : R) (h : Handle) : bool :=
  let canvasHandle := toCanvasCoords rc (h_x h) (h_y h) in
  let dx := canvasX - pt_x canvasHandle in
  let dy := canvasY - pt_y canvasHandle in
  JsMath.leb (sqrt (dx * dx + dy * dy)) handleSize.

Definition with_index (i : option nat) (h : Handle) : Handle :=
  mkHandle (h_type h) (h_x h) (h_y h) (updateX h) (updateY h) (h_itemType h) i.

Definition with_itemType (ty : ItemType) (h : Handle) : Handle :=
  mkHandle (h_type h) (h_x h) (h_y h) (updateX h) (updateY h) (Some ty) (h_index h).

(** [getHandleAtPoint(canvasX, canvasY, zone, zoneIndex)] *)
Definition getHandleAtPoint (w : World) (canvasX canvasY : R)
    (zone : option Zone.t) (zoneIndex : option nat) : outcome (option Handle) :=
  z <- deref zone ;;
  match Zone.enabled z, Zone.shapeType z with
  | false, _ | _, polygon => Ok None
  | true, rectangle =>
      corners <- getZoneCorners zone ;;
      Ok (option_map (with_index zoneIndex)
            (find (handleHit (radarCanvas w) canvasX canvasY) (boxHandles corners)))
  end.

(** [getEdgeHandleAtPoint(canvasX, canvasY, edge)] *)
Definition getEdgeHandleAtPoint (w : World) (canvasX canvasY : R)
    (edge : option Edge.t) : option Handle :=
  match edge with
  | None => None
  | Some ed =>
      let corners :=
        mkRect (Rmin (Edge.x1 ed) (Edge.x2 ed)) (Rmin (Edge.y1 ed) (Edge.y2 ed))
               (Rmax (Edge.x1 ed) (Edge.x2 ed)) (Rmax (Edge.y1 ed) (Edge.y2 ed)) in
      find (handleHit (radarCanvas w) canvasX canvasY) (boxHandles corners)
  end.

(** [isPointInEntrance(sensorX, sensorY, entrance)] *)
Definition isPointInEntrance (sensorX sensorY : R) (entrance : option Entrance.t) : outcome bool :=
  en <- deref entrance ;;
  let dx := sensorX - Entrance.x en in
  let dy := sensorY - Entrance.y en in
  let distance := sqrt (dx * dx + dy * dy) in
  Ok (JsMath.leb distance 300).

(** [isPointInFurniture(sensorX, sensorY, furniture)] *)
Definition isPointInFurniture (sensorX sensorY : R) (furniture : option Furniture.t) : outcome bool :=
  f <- deref furniture ;;
  let halfW := Furniture.width f / 2 in
  let halfH := Furniture.height f / 2 in
  let rotation := Furniture.rotation f * PI / 180 in
  let dx := sensorX - Furniture.x f in
  let dy := sensorY - Furniture.y f in
  let cos := cos (- rotation) in
  let sin := sin (- rotation) in
  let localX := dx * cos - dy * sin in
  let localY := dx * sin + dy * cos in
  Ok (JsMath.leb (Rabs localX) halfW && JsMath.leb (Rabs localY) halfH).

(** [isPointInEdge(sensorX, sensorY, edge)] *)
Definition isPointInEdge (sensorX sensorY : R) (edge : option Edge.t) : outcome bool :=
  ed <- deref edge ;;
  let minX := Rmin (Edge.x1 ed) (Edge.x2 ed) in
  let maxX := Rmax (Edge.x1 ed) (Edge.x2 ed) in
  let minY := Rmin (Edge.y1 ed) (Edge.y2 ed) in
  let maxY := Rmax (Edge.y1 ed) (Edge.y2 ed) in
  Ok (JsMath.leb minX sensorX && JsMath.leb sensorX maxX
      && JsMath.leb minY sensorY && JsMath.leb sensorY maxY).

(** The test of the loop of [getFurnitureHandleAtPoint] for the local
    handle [(lx, ly)]; the result carries [handleX], [handleY]. *)
Definition furnitureHandle (cx cy cos sin canvasX canvasY : R)
    (ty : HandleType) (lx ly : R) : option Handle :=
  let rx := lx * cos - ly * sin in
  let ry := lx * sin + ly * cos in
  let handleX := cx + rx in
  let handleY := cy + ry in
  let dx := canvasX - handleX in
  let dy := canvasY - handleY in
  if JsMath.leb (sqrt (dx * dx + dy * dy)) (furnitureHandleSize + 4)
  then Some (mkHandle ty handleX handleY None None None None)
  else None.

Definition first_some {A : Type} (a b : option A) : option A :=
  match a with
  | Some _ => a
  | None => b
  end.

(** [getFurnitureHandleAtPoint(canvasX, canvasY, furniture)] *)
Definition getFurnitureHandleAtPoint (w : World) (canvasX canvasY : R)
    (furniture : option Furniture.t) : option Handle :=
  match furniture with
  | None => None
  | Some f =>
      let rc := radarCanvas w in
      let centerCanvas := toCanvasCoords rc (Furniture.x f) (Furniture.y f) in
      let cx := pt_x centerCanvas in
      let cy := pt_y centerCanvas in
      let halfW := (Furniture.width f * RadarCanvas.scaleX rc) / 2 in
      let halfH := (Furniture.height f * RadarCanvas.scaleY rc) / 2 in
      let mapRotation := IZR (RadarCanvas.mapRotation rc) * PI / 180 in
      let furnitureRotation := Furniture.rotation f * PI / 180 in
      let totalRotation := mapRotation + furnitureRotation in
      let cos := cos totalRotation in
      let sin := sin totalRotation in
      let try := furnitureHandle cx cy cos sin canvasX canvasY in
      first_some (try h_nw (- halfW) (- halfH))
        (first_some (try h_ne halfW (- halfH))
          (first_some (try h_sw (- halfW) halfH)
            (try h_se halfW halfH)))
  end.

(** [clearOtherSelections(keepType)]; [keepType] is [None] for [null]. *)
Definition clearOtherSelections (keepType : option ItemType) (w : World) : World :=
  let w1 :=
    match keepType, selectedZoneIndex (sel w) with
    | Some item_zone, _ | _, None => w
    | _, Some _ => emit (OnZoneSelect None) (set_selectedZoneIndex None w)
    end in
  let w2 :=
    match keepType, selectedFurnitureIndex (sel w1) with
    | Some item_furniture, _ | _, None => w1
    | _, Some _ => emit (OnFurnitureSelect None None) (set_selectedFurnitureIndex None w1)
    end in
  let w3 :=
    match keepType, selectedEntranceIndex (sel w2) with
    | Some item_entrance, _ | _, None => w2
    | _, Some _ => emit (OnEntranceSelect None None) (set_selectedEntranceIndex None w2)
    end in
  match keepType, selectedEdgeIndex (sel w3) with
  | Some item_edge, _ | _, None => w3
  | _, Some _ => emit (OnEdgeSelect None None) (set_selectedEdgeIndex None w3)
  end.

(** [a[i]] for an index property that may hold [null]. *)
Definition item_at {A : Type} (a : list A) (i : option nat) : option A :=
  match i with
  | Some k => nth_error a k
  | None => None
  end.

(** Write the object read by [item_at a i] back to its place. *)
Definition put_at {A : Type} (a : list A) (i : option nat) (v : A) : list A :=
  match i with
  | Some k => store k v a
  | None => a
  end.

(** [o && k] for an object [o]. *)
Definition and_then {A : Type} (o : option A) (k : outcome bool) : outcome bool :=
  match o with
  | Some _ => k
  | None => Ok false
  end.

(** A block of a handler that may [return]: [Some w] is the world at the
    [return], [None] falls through to the next block. *)
Definition or_else (block : outcome (option World)) (next : outcome World) : outcome World :=
  r <- block ;;
  match r with
  | Some w' => Ok w'
  | None => next
  end.

Definition startDrag (offset : Point) (w : World) : World :=
  set_cursor "move" (set_dragOffset offset (set_isDragging true w)).

Definition startRightDrag (offset : Point) (w : World) : World :=
  set_cursor "move" (set_dragOffset offset
    (set_isDragging true (set_isRightClickDragging true w))).

(** [handleRightClickDrag(canvasCoords, sensorCoords)] *)
Definition handleRightClickDrag (canvasCoords sensorCoords : Point) (w : World) : outcome World :=
  let sx := pt_x sensorCoords in
  let sy := pt_y sensorCoords in
  or_else
    (match selectedZoneIndex (sel w) with
     | None => Ok None
     | Some _ =>
         let zone := item_at (zones (state w)) (selectedZoneIndex (sel w)) in
         hit <- and_then zone
                  (z <- deref zone ;;
                   if Zone.enabled z then isPointInZone sx sy zone else Ok false) ;;
         if hit then
           corners <- getZoneCorners zone ;;
           Ok (Some (startRightDrag
                       (mkPoint (sx - (r_x1 corners + r_x2 corners) / 2)
                                (sy - (r_y1 corners + r_y2 corners) / 2)) w))
         else Ok None
     end)
  (or_else
    (match selectedFurnitureIndex (sel w) with
     | None => Ok None
     | Some _ =>
         let furniture := item_at (furniture (state w)) (selectedFurnitureIndex (sel w)) in
         hit <- and_then furniture (isPointInFurniture sx sy furniture) ;;
         if hit then
           f <- deref furniture ;;
           Ok (Some (startRightDrag
                       (mkPoint (sx - Furniture.x f) (sy - Furniture.y f)) w))
         else Ok None
     end)
  (or_else
    (match selectedEntranceIndex (sel w) with
     | None => Ok None
     | Some _ =>
         let entrance := item_at (entrances (state w)) (selectedEntranceIndex (sel w)) in
         hit <- and_then entrance (isPointInEntrance sx sy entrance) ;;
         if hit then
           en <- deref entrance ;;
           Ok (Some (startRightDrag
                       (mkPoint (sx - Entrance.x en) (sy - Entrance.y en)) w))
         else Ok None
     end)
  (or_else
    (match selectedEdgeIndex (sel w) with
     | None => Ok None
     | Some _ =>
         let edge := item_at (edges (state w)) (selectedEdgeIndex (sel w)) in
         hit <- and_then edge (isPointInEdge sx sy edge) ;;
         if hit then
           ed <- deref edge ;;
           Ok (Some (startRightDrag
                       (mkPoint (sx - (Edge.x1 ed + Edge.x2 ed) / 2)
                                (sy - (Edge.y1 ed + Edge.y2 ed) / 2)) w))
         else Ok None
     end)
  (Ok w)))).

(** A descending loop [for (i = a.length - 1; i >= 0; i--)] that returns
    at the first hit: the hit with the largest index.  [i] is the index of
    the head of [a]. *)
Fixpoint findLast {A : Type} (p : A -> outcome bool) (a : list A) (i : nat)
    : outcome (option (nat * A)) :=
  match a with
  | [] => Ok None
  | a0 :: rest =>
      r <- findLast p rest (S i) ;;
      match r with
      | Some hit => Ok (Some hit)
      | None => b <- p a0 ;; Ok (if b then Some (i, a0) else None)
      end
  end.

(** An ascending loop that returns at the first hit. *)
Fixpoint findFirst {A : Type} (p : A -> outcome bool) (a : list A) (i : nat)
    : outcome (option (nat * A)) :=
  match a with
  | [] => Ok None
  | a0 :: rest =>
      b <- p a0 ;;
      if b then Ok (Some (i, a0)) else findFirst p rest (S i)
  end.

(** The four blocks of [handleSelectMouseDown] that act on the current
    selection. *)
Definition selectDown_furniture (canvasCoords sensorCoords : Point) (w : World)
    : outcome (option World) :=
  match selectedFurnitureIndex (sel w) with
  | None => Ok None
  | Some _ =>
      let furniture := item_at (furniture (state w)) (selectedFurnitureIndex (sel w)) in
      match getFurnitureHandleAtPoint w (pt_x canvasCoords) (pt_y canvasCoords) furniture with
      | Some handle =>
          Ok (Some (set_startPoint (Some sensorCoords)
                     (set_isDragging true
                       (set_selectedHandle
                          (Some (with_index (selectedFurnitureIndex (sel w))
                                   (with_itemType item_furniture handle))) w))))
      | None =>
          hit <- isPointInFurniture (pt_x sensorCoords) (pt_y sensorCoords) furniture ;;
          if hit then
            f <- deref furniture ;;
            Ok (Some (startDrag (mkPoint (pt_x sensorCoords - Furniture.x f)
                                         (pt_y sensorCoords - Furniture.y f)) w))
          else Ok None
      end
  end.

Definition selectDown_zone (canvasCoords sensorCoords : Point) (w : World)
    : outcome (option World) :=
  match selectedZoneIndex (sel w) with
  | None => Ok None
  | Some _ =>
      let zone := item_at (zones (state w)) (selectedZoneIndex (sel w)) in
      handle <- getHandleAtPoint w (pt_x canvasCoords) (pt_y canvasCoords) zone
                  (selectedZoneIndex (sel w)) ;;
      match handle with
      | Some h =>
          Ok (Some (set_startPoint (Some sensorCoords)
                     (set_isDragging true
                       (set_selectedHandle (Some (with_itemType item_zone h)) w))))
      | None =>
          z <- deref zone ;;
          hit <- (if Zone.enabled z
                  then isPointInZone (pt_x sensorCoords) (pt_y sensorCoords) zone
                  else Ok false) ;;
          if hit then
            corners <- getZoneCorners zone ;;
            Ok (Some (startDrag
                        (mkPoint (pt_x sensorCoords - (r_x1 corners + r_x2 corners) / 2)
                                 (pt_y sensorCoords - (r_y1 corners + r_y2 corners) / 2)) w))
          else Ok None
      end
  end.

Definition selectDown_entrance (sensorCoords : Point) (w : World) : outcome (option World) :=
  match selectedEntranceIndex (sel w) with
  | None => Ok None
  | Some _ =>
      let entrance := item_at (entrances (state w)) (selectedEntranceIndex (sel w)) in
      hit <- and_then entrance
               (isPointInEntrance (pt_x sensorCoords) (pt_y sensorCoords) entrance) ;;
      if hit then
        en <- deref entrance ;;
        Ok (Some (startDrag (mkPoint (pt_x sensorCoords - Entrance.x en)
                                     (pt_y sensorCoords - Entrance.y en)) w))
      else Ok None
  end.

Definition selectDown_edge (canvasCoords sensorCoords : Point) (w : World)
    : outcome (option World) :=
  match selectedEdgeIndex (sel w) with
  | None => Ok None
  | Some _ =>
      let edge := item_at (edges (state w)) (selectedEdgeIndex (sel w)) in
      match getEdgeHandleAtPoint w (pt_x canvasCoords) (pt_y canvasCoords) edge with
      | Some handle =>
          Ok (Some (set_startPoint (Some sensorCoords)
                     (set_isDragging true
                       (set_selectedHandle
                          (Some (with_index (selectedEdgeIndex (sel w))
                                   (with_itemType item_edge handle))) w))))
      | None =>
          hit <- and_then edge (isPointInEdge (pt_x sensorCoords) (pt_y sensorCoords) edge) ;;
          if hit then
            ed <- deref edge ;;
            Ok (Some (startDrag
                        (mkPoint (pt_x sensorCoords - (Edge.x1 ed + Edge.x2 ed) / 2)
                                 (pt_y sensorCoords - (Edge.y1 ed + Edge.y2 ed) / 2)) w))
          else Ok None
      end
  end.

(** The four search loops of [handleSelectMouseDown] and its last line. *)
Definition selectDown_pick (sensorCoords : Point) (w : World) : outcome World :=
  let sx := pt_x sensorCoords in
  let sy := pt_y sensorCoords in
  en <- findLast (fun it => isPointInEntrance sx sy (Some it)) (entrances (state w)) 0 ;;
  match en with
  | Some (i, entrance) =>
      Ok (emit (OnEntranceSelect (Some i) (Some entrance))
            (set_selectedEntranceIndex (Some i)
              (clearOtherSelections (Some item_entrance) w)))
  | None =>
  fu <- findLast (fun it => isPointInFurniture sx sy (Some it)) (furniture (state w)) 0 ;;
  match fu with
  | Some (i, furniture) =>
      Ok (emit (OnFurnitureSelect (Some i) (Some furniture))
            (set_selectedFurnitureIndex (Some i)
              (clearOtherSelections (Some item_furniture) w)))
  | None =>
  zo <- findFirst (fun it => isPointInZone sx sy (Some it)) (zones (state w)) 0 ;;
  match zo with
  | Some (i, _) =>
      Ok (emit (OnZoneSelect (Some i))
            (set_selectedZoneIndex (Some i)
              (clearOtherSelections (Some item_zone) w)))
  | None =>
  ed <- findLast (fun it => isPointInEdge sx sy (Some it)) (edges (state w)) 0 ;;
  match ed with
  | Some (i, edge) =>
      Ok (emit (OnEdgeSelect (Some i) (Some edge))
            (set_selectedEdgeIndex (Some i)
              (clearOtherSelections (Some item_edge) w)))
  | None => Ok (clearOtherSelections None w)
  end end end end.

(** [handleSelectMouseDown(canvasCoords, sensorCoords)] *)
Definition handleSelectMouseDown (canvasCoords sensorCoords : Point) (w : World) : outcome World :=
  or_else (selectDown_furniture canvasCoords sensorCoords w)
  (or_else (selectDown_zone canvasCoords sensorCoords w)
  (or_else (selectDown_entrance sensorCoords w)
  (or_else (selectDown_edge canvasCoords sensorCoords w)
  (selectDown_pick sensorCoords w)))).

(** [startMoveMode(itemType, itemIndex)] *)
Definition startMoveMode (itemType : ItemType) (itemIndex : option nat) (w : World)
    : outcome World :=
  let w0 := set_movingItemIndex itemIndex
              (set_movingItemType (Some itemType) (set_isMoving true w)) in
  w1 <- match itemType with
        | item_zone =>
            corners <- getZoneCorners (item_at (zones (state w)) itemIndex) ;;
            Ok (set_moveOrigin
                  (Some (mkPoint ((r_x1 corners + r_x2 corners) / 2)
                                 ((r_y1 corners + r_y2 corners) / 2)))
                  (set_dragOffset (mkPoint 0 0) w0))
        | item_furniture =>
            f <- deref (item_at (furniture (state w)) itemIndex) ;;
            Ok (set_moveOrigin (Some (mkPoint (Furniture.x f) (Furniture.y f)))
                  (set_dragOffset (mkPoint 0 0) w0))
        | item_entrance =>
            en <- deref (item_at (entrances (state w)) itemIndex) ;;
            Ok (set_moveOrigin (Some (mkPoint (Entrance.x en) (Entrance.y en)))
                  (set_dragOffset (mkPoint 0 0) w0))
        | item_edge => Ok w0
        end ;;
  Ok (emit (OnModeChange moving) (set_cursor "move" w1)).

(** [finishMoveMode()] *)
Definition finishMoveMode (w : World) : World :=
  if negb (isMoving (ges w)) then w
  else
    let itemType := movingItemType (ges w) in
    let itemIndex := movingItemIndex (ges w) in
    let w0 := set_cursor "default"
                (set_moveOrigin None
                  (set_movingItemIndex None
                    (set_movingItemType None (set_isMoving false w)))) in
    let w1 :=
      match itemType with
      | Some item_zone =>
          emit (OnZoneUpdate itemIndex (item_at (zones (state w0)) itemIndex)) w0
      | Some item_furniture =>
          emit (OnFurnitureUpdate itemIndex (item_at (furniture (state w0)) itemIndex)) w0
      | Some item_entrance =>
          emit (OnEntranceUpdate itemIndex (item_at (entrances (state w0)) itemIndex)) w0
      | _ => w0
      end in
    emit (OnModeChange select) w1.

(** [handleRectangleMouseDown(sensorCoords)] *)
Definition handleRectangleMouseDown (sensorCoords : Point) (w : World) : outcome World :=
  slot <- getNextAvailableZoneSlot w ;;
  match slot with
  | None => Ok (emit (OnError "Maximum 3 zones. Delete one to add another.") w)
  | Some _ =>
      Ok (set_currentPoint (Some sensorCoords)
           (set_startPoint (Some sensorCoords) (set_isDrawing true w)))
  end.

(** [updateEdgePreview(sensorCoords)]; the preview object carries
    [isEdge: true]. *)
Definition updateEdgePreview (sensorCoords : Point) (w : World) : outcome World :=
  start <- deref (startPoint (ges w)) ;;
  let rect := mkRect (JsMath.snap 100 (pt_x start)) (JsMath.snap 100 (pt_y start))
                     (JsMath.snap 100 (pt_x sensorCoords))
                     (JsMath.snap 100 (pt_y sensorCoords)) in
  Ok (emit (OnPreviewUpdate (Some (PreviewEdge rect))) (set_previewRect (Some rect) w)).

(** [updateRectanglePreview(sensorCoords)] *)
Definition updateRectanglePreview (sensorCoords : Point) (w : World) : outcome World :=
  start <- deref (startPoint (ges w)) ;;
  let rect := mkRect (pt_x start) (pt_y start) (pt_x sensorCoords) (pt_y sensorCoords) in
  Ok (emit (OnPreviewUpdate (Some (PreviewRectangle rect))) (set_previewRect (Some rect) w)).

(** [updatePolygonPreview(sensorCoords)] *)
Definition updatePolygonPreview (sensorCoords : Point) (w : World) : World :=
  let poly := (polygonVertices (ges w) ++ [sensorCoords])%list in
  emit (OnPreviewUpdate (Some (PreviewPolygon poly))) (set_previewPolygon poly w).

(** [moveEdge(sensorCoords)] *)
Definition moveEdge (sensorCoords : Point) (w : World) : outcome World :=
  let index := selectedEdgeIndex (sel w) in
  match item_at (edges (state w)) index with
  | None => Ok w
  | Some edge =>
      let width := Rabs (Edge.x2 edge - Edge.x1 edge) in
      let height := Rabs (Edge.y2 edge - Edge.y1 edge) in
      let newCenterX := pt_x sensorCoords - pt_x (dragOffset (this w)) in
      let newCenterY := pt_y sensorCoords - pt_y (dragOffset (this w)) in
      let halfW := width / 2 in
      let halfH := height / 2 in
      let newX1 := Rmax (-3000) (Rmin (3000 - width) (JsMath.snap 100 (newCenterX - halfW))) in
      let newY1 := Rmax 0 (Rmin (6000 - height) (JsMath.snap 100 (newCenterY - halfH))) in
      let edge' := Edge.mk (Edge.id edge) newX1 newY1 (newX1 + width) (newY1 + height) in
      Ok (emit (OnEdgeUpdate index (Some edge'))
           (emit DrawFrame (set_edges (put_at (edges (state w)) index edge') w)))
  end.

(** [moveFurniture(sensorCoords)] *)
Definition moveFurniture (sensorCoords : Point) (w : World) : outcome World :=
  let index := selectedFurnitureIndex (sel w) in
  let all := furniture (state w) in
  let furniture := item_at all index in
  let newX := pt_x sensorCoords - pt_x (dragOffset (this w)) in
  let newY := pt_y sensorCoords - pt_y (dragOffset (this w)) in
  f <- deref furniture ;;
  let halfW := Furniture.width f / 2 in
  let halfH := Furniture.height f / 2 in
  let f' := Furniture.mk (Furniture.id f) (Furniture.type f)
              (Rmax (-3000 + halfW) (Rmin (3000 - halfW) (JsMath.snap 50 newX)))
              (Rmax halfH (Rmin (6000 - halfH) (JsMath.snap 50 newY)))
              (Furniture.rotation f) (Furniture.width f) (Furniture.height f) in
  Ok (emit (OnFurnitureUpdate index (Some f'))
       (set_furniture (put_at all index f') w)).

(** [moveFurnitureToPosition(sensorCoords)] *)
Definition moveFurnitureToPosition (sensorCoords : Point) (w : World) : World :=
  let index := movingItemIndex (ges w) in
  match item_at (furniture (state w)) index with
  | None => w
  | Some f =>
      let halfW := Furniture.width f / 2 in
      let halfH := Furniture.height f / 2 in
      let f' := Furniture.mk (Furniture.id f) (Furniture.type f)
                  (Rmax (-3000 + halfW) (Rmin (3000 - halfW) (JsMath.snap 50 (pt_x sensorCoords))))
                  (Rmax halfH (Rmin (6000 - halfH) (JsMath.snap 50 (pt_y sensorCoords))))
                  (Furniture.rotation f) (Furniture.width f) (Furniture.height f) in
      emit DrawFrame (set_furniture (put_at (furniture (state w)) index f') w)
  end.

(** [zone.x1 = a; zone.y1 = b; zone.x2 = c; zone.y2 = d] *)
Definition zone_with_box (a b c d : R) (z : Zone.t) : Zone.t :=
  Zone.mk (Zone.enabled z) (Zone.shapeType z) a b c d (Zone.vertices z) (Zone.zoneType z).

(** [moveZoneToPosition(sensorCoords)] *)
Definition moveZoneToPosition (sensorCoords : Point) (w : World) : World :=
  let index := movingItemIndex (ges w) in
  match item_at (zones (state w)) index with
  | None => w
  | Some zone =>
      if negb (Zone.enabled zone) then w
      else
        let width := Rabs (Zone.x2 zone - Zone.x1 zone) in
        let height := Rabs (Zone.y2 zone - Zone.y1 zone) in
        let centerX := JsMath.snap 100 (pt_x sensorCoords) in
        let centerY := JsMath.snap 100 (pt_y sensorCoords) in
        let halfW := width / 2 in
        let halfH := height / 2 in
        let newX1 := Rmax (-3000) (Rmin (3000 - width) (centerX - halfW)) in
        let newY1 := Rmax 0 (Rmin (6000 - height) (centerY - halfH)) in
        let zone' := zone_with_box newX1 newY1 (newX1 + width) (newY1 + height) zone in
        emit DrawFrame (set_zones (put_at (zones (state w)) index zone') w)
  end.

(** [moveEntranceToPosition(sensorCoords)] *)
Definition moveEntranceToPosition (sensorCoords : Point) (w : World) : World :=
  let index := movingItemIndex (ges w) in
  match item_at (entrances (state w)) index with
  | None => w
  | Some en =>
      let en' := Entrance.mk (Entrance.id en)
                   (Rmax (-3000) (Rmin 3000 (JsMath.snap 50 (pt_x sensorCoords))))
                   (Rmax 0 (Rmin 6000 (JsMath.snap 50 (pt_y sensorCoords))))
                   (Entrance.direction en) (Entrance.label en) in
      emit DrawFrame (set_entrances (put_at (entrances (state w)) index en') w)
  end.

(** [resizeFurniture(sensorCoords)]: the four cases of the [switch] have
    the same body; another handle type leaves the size as it is. *)
Definition resizeFurniture (sensorCoords : Point) (w : World) : outcome World :=
  let index := selectedFurnitureIndex (sel w) in
  let all := furniture (state w) in
  let handle := selectedHandle (ges w) in
  f <- deref (item_at all index) ;;
  let dx := pt_x sensorCoords - Furniture.x f in
  let dy := pt_y sensorCoords - Furniture.y f in
  let rotation := Furniture.rotation f * PI / 180 in
  let cos := cos (- rotation) in
  let sin := sin (- rotation) in
  let localX := dx * cos - dy * sin in
  let localY := dx * sin + dy * cos in
  let minSize := 200 in
  h <- deref handle ;;
  let '(width1, height1) :=
    match h_type h with
    | h_se | h_nw | h_ne | h_sw =>
        (Rmax minSize (Rabs localX * 2), Rmax minSize (Rabs localY * 2))
    | _ => (Furniture.width f, Furniture.height f)
    end in
  let f' := Furniture.mk (Furniture.id f) (Furniture.type f) (Furniture.x f) (Furniture.y f)
              (Furniture.rotation f) (JsMath.snap 50 width1) (JsMath.snap 50 height1) in
  Ok (emit (OnFurnitureUpdate index (Some f')) (set_furniture (put_at all index f') w)).

(** [getHandleCursor(handleType)] *)
Definition getHandleCursor (handleType : HandleType) : string :=
  match handleType with
  | h_nw | h_se => "nwse-resize"
  | h_ne | h_sw => "nesw-resize"
  | h_n | h_s => "ns-resize"
  | h_e | h_w => "ew-resize"
  end.

(** [zone[field] = v] *)
Definition zone_setX (field : XField) (v : R) (z : Zone.t) : Zone.t :=
  match field with
  | X1 => zone_with_box v (Zone.y1 z) (Zone.x2 z) (Zone.y2 z) z
  | X2 => zone_with_box (Zone.x1 z) (Zone.y1 z) v (Zone.y2 z) z
  end.

Definition zone_setY (field : YField) (v : R) (z : Zone.t) : Zone.t :=
  match field with
  | Y1 => zone_with_box (Zone.x1 z) v (Zone.x2 z) (Zone.y2 z) z
  | Y2 => zone_with_box (Zone.x1 z) (Zone.y1 z) (Zone.x2 z) v z
  end.

(** [edge[field] = v] *)
Definition edge_setX (field : XField) (v : R) (ed : Edge.t) : Edge.t :=
  match field with
  | X1 => Edge.mk (Edge.id ed) v (Edge.y1 ed) (Edge.x2 ed) (Edge.y2 ed)
  | X2 => Edge.mk (Edge.id ed) (Edge.x1 ed) (Edge.y1 ed) v (Edge.y2 ed)
  end.

Definition edge_setY (field : YField) (v : R) (ed : Edge.t) : Edge.t :=
  match field with
  | Y1 => Edge.mk (Edge.id ed) (Edge.x1 ed) v (Edge.x2 ed) (Edge.y2 ed)
  | Y2 => Edge.mk (Edge.id ed) (Edge.x1 ed) (Edge.y1 ed) (Edge.x2 ed) v
  end.

(** [if (handle.updateX) { item[handle.updateX] = x; }]: the write throws
    when the item is [undefined]. *)
Definition write_through {A F : Type} (set : F -> R -> A -> A)
    (field : option F) (v : R) (item : option A) : outcome (option A) :=
  match field with
  | Some fld => it <- deref item ;; Ok (Some (set fld v it))
  | None => Ok item
  end.

(** [resizeZone(sensorCoords)] *)
Definition resizeZone (sensorCoords : Point) (w : World) : outcome World :=
  let index := selectedZoneIndex (sel w) in
  let zone := item_at (zones (state w)) index in
  let handle := selectedHandle (ges w) in
  let x := Rmax (-3000) (Rmin 3000 (JsMath.snap 100 (pt_x sensorCoords))) in
  let y := Rmax 0 (Rmin 6000 (JsMath.snap 100 (pt_y sensorCoords))) in
  h <- deref handle ;;
  zone1 <- write_through zone_setX (updateX h) x zone ;;
  zone2 <- write_through zone_setY (updateY h) y zone1 ;;
  let w' := match zone2 with
            | Some z => set_zones (put_at (zones (state w)) index z) w
            | None => w
            end in
  Ok (emit (OnZoneUpdate index zone2) w').

(** [resizeEdge(sensorCoords)] *)
Definition resizeEdge (sensorCoords : Point) (w : World) : outcome World :=
  let index := selectedEdgeIndex (sel w) in
  match item_at (edges (state w)) index with
  | None => Ok w
  | Some edge =>
      let handle := selectedHandle (ges w) in
      let x := Rmax (-3000) (Rmin 3000 (JsMath.snap 100 (pt_x sensorCoords))) in
      let y := Rmax 0 (Rmin 6000 (JsMath.snap 100 (pt_y sensorCoords))) in
      h <- deref handle ;;
      let edge1 := match updateX h with Some fld => edge_setX fld x edge | None => edge end in
      let edge2 := match updateY h with Some fld => edge_setY fld y edge1 | None => edge1 end in
      Ok (emit (OnEdgeUpdate index (Some edge2))
           (emit DrawFrame (set_edges (put_at (edges (state w)) index edge2) w)))
  end.

(** [moveZone(sensorCoords)] *)
Definition moveZone (sensorCoords : Point) (w : World) : outcome World :=
  let index := selectedZoneIndex (sel w) in
  let zone := item_at (zones (state w)) index in
  corners <- getZoneCorners zone ;;
  z <- deref zone ;;
  let centerX := pt_x sensorCoords - pt_x (dragOffset (this w)) in
  let centerY := pt_y sensorCoords - pt_y (dragOffset (this w)) in
  let halfWidth := (r_x2 corners - r_x1 corners) / 2 in
  let halfHeight := (r_y2 corners - r_y1 corners) / 2 in
  let newX1 := centerX - halfWidth in
  let newX2 := centerX + halfWidth in
  let newY1 := centerY - halfHeight in
  let newY2 := centerY + halfHeight in
  let '(newX1, newX2) :=
    if JsMath.ltb newX1 (-3000)
    then (-3000, -3000 + (r_x2 corners - r_x1 corners)) else (newX1, newX2) in
  let '(newX1, newX2) :=
    if JsMath.ltb 3000 newX2
    then (3000 - (r_x2 corners - r_x1 corners), 3000) else (newX1, newX2) in
  let '(newY1, newY2) :=
    if JsMath.ltb newY1 0
    then (0, 0 + (r_y2 corners - r_y1 corners)) else (newY1, newY2) in
  let '(newY1, newY2) :=
    if JsMath.ltb 6000 newY2
    then (6000 - (r_y2 corners - r_y1 corners), 6000) else (newY1, newY2) in
  let z' := zone_with_box (JsMath.snap 100 newX1) (JsMath.snap 100 newY1)
                          (JsMath.snap 100 newX2) (JsMath.snap 100 newY2) z in
  Ok (emit (OnZoneUpdate index (Some z')) (set_zones (put_at (zones (state w)) index z') w)).

(** [moveEntrance(sensorCoords)] *)
Definition moveEntrance (sensorCoords : Point) (w : World) : outcome World :=
  let index := selectedEntranceIndex (sel w) in
  let newX := pt_x sensorCoords - pt_x (dragOffset (this w)) in
  let newY := pt_y sensorCoords - pt_y (dragOffset (this w)) in
  en <- deref (item_at (entrances (state w)) index) ;;
  let en' := Entrance.mk (Entrance.id en)
               (Rmax (-3000) (Rmin 3000 (JsMath.snap 50 newX)))
               (Rmax 0 (Rmin 6000 (JsMath.snap 50 newY)))
               (Entrance.direction en) (Entrance.label en) in
  Ok (emit (OnEntranceUpdate index (Some en'))
       (set_entrances (put_at (entrances (state w)) index en') w)).

(** The three hover blocks of [handleSelectMouseMove] that act on the
    current selection (they only set the cursor). *)
Definition hover_furniture (canvasCoords sensorCoords : Point) (w : World)
    : outcome (option World) :=
  match selectedFurnitureIndex (sel w) with
  | None => Ok None
  | Some _ =>
      let furniture := item_at (furniture (state w)) (selectedFurnitureIndex (sel w)) in
      match getFurnitureHandleAtPoint w (pt_x canvasCoords) (pt_y canvasCoords) furniture with
      | Some handle => Ok (Some (set_cursor (getHandleCursor (h_type handle)) w))
      | None =>
          hit <- isPointInFurniture (pt_x sensorCoords) (pt_y sensorCoords) furniture ;;
          Ok (if hit then Some (set_cursor "move" w) else None)
      end
  end.

Definition hover_zone (canvasCoords sensorCoords : Point) (w : World)
    : outcome (option World) :=
  match selectedZoneIndex (sel w) with
  | None => Ok None
  | Some _ =>
      let zone := item_at (zones (state w)) (selectedZoneIndex (sel w)) in
      handle <- getHandleAtPoint w (pt_x canvasCoords) (pt_y canvasCoords) zone
                  (selectedZoneIndex (sel w)) ;;
      match handle with
      | Some h => Ok (Some (set_cursor (getHandleCursor (h_type h)) w))
      | None =>
          hit <- isPointInZone (pt_x sensorCoords) (pt_y sensorCoords) zone ;;
          Ok (if hit then Some (set_cursor "move" w) else None)
      end
  end.

Definition hover_edge (canvasCoords sensorCoords : Point) (w : World)
    : outcome (option World) :=
  match selectedEdgeIndex (sel w) with
  | None => Ok None
  | Some _ =>
      let edge := item_at (edges (state w)) (selectedEdgeIndex (sel w)) in
      match getEdgeHandleAtPoint w (pt_x canvasCoords) (pt_y canvasCoords) edge with
      | Some handle => Ok (Some (set_cursor (getHandleCursor (h_type handle)) w))
      | None =>
          hit <- isPointInEdge (pt_x sensorCoords) (pt_y sensorCoords) edge ;;
          Ok (if hit then Some (set_cursor "move" w) else None)
      end
  end.

(** The two hover loops and the default cursor. *)
Definition hover_any (sensorCoords : Point) (w : World) : outcome World :=
  let sx := pt_x sensorCoords in
  let sy := pt_y sensorCoords in
  fu <- findLast (fun it => isPointInFurniture sx sy (Some it)) (furniture (state w)) 0 ;;
  match fu with
  | Some _ => Ok (set_cursor "pointer" w)
  | None =>
      zo <- findFirst (fun it => isPointInZone sx sy (Some it)) (zones (state w)) 0 ;;
      match zo with
      | Some _ => Ok (set_cursor "pointer" w)
      | None => Ok (set_cursor "default" w)
      end
  end.

(** [handleSelectMouseMove(canvasCoords, sensorCoords)] *)
Definition handleSelectMouseMove (canvasCoords sensorCoords : Point) (w : World)
    : outcome World :=
  if isMoving (ges w) then
    match movingItemType (ges w) with
    | Some item_zone => Ok (moveZoneToPosition sensorCoords w)
    | Some item_furniture => Ok (moveFurnitureToPosition sensorCoords w)
    | Some item_entrance => Ok (moveEntranceToPosition sensorCoords w)
    | _ => Ok w
    end
  else if negb (isDragging (ges w)) then
    or_else (hover_furniture canvasCoords sensorCoords w)
    (or_else (hover_zone canvasCoords sensorCoords w)
    (or_else (hover_edge canvasCoords sensorCoords w)
    (hover_any sensorCoords w)))
  else
    match selectedHandle (ges w) with
    | Some h =>
        match h_itemType h with
        | Some item_furniture => resizeFurniture sensorCoords w
        | Some item_edge => resizeEdge sensorCoords w
        | _ => resizeZone sensorCoords w
        end
    | None =>
        match sel w with
        | mkSelection _ _ (Some _) _ => moveEntrance sensorCoords w
        | mkSelection _ (Some _) None _ => moveFurniture sensorCoords w
        | mkSelection (Some _) None None _ => moveZone sensorCoords w
        | mkSelection None None None (Some _) => moveEdge sensorCoords w
        | mkSelection None None None None => Ok w
        end
    end.

(** [deleteSelectedFurniture()] *)
Definition deleteSelectedFurniture (w : World) : World :=
  match selectedFurnitureIndex (sel w) with
  | None => w
  | Some i =>
      set_selectedFurnitureIndex None
        (set_furniture (splice1 i (furniture (state w)))
          (emit (OnFurnitureDeleted i) w))
  end.

(** [deleteSelectedEntrance()] *)
Definition deleteSelectedEntrance (w : World) : World :=
  match selectedEntranceIndex (sel w) with
  | None => w
  | Some i =>
      set_selectedEntranceIndex None
        (set_entrances (splice1 i (entrances (state w)))
          (emit (OnEntranceDeleted i) w))
  end.

(** [deleteSelectedZone()] *)
Definition deleteSelectedZone (w : World) : outcome World :=
  match selectedZoneIndex (sel w) with
  | None => Ok w
  | Some i =>
      zone <- deref (nth_error (zones (state w)) i) ;;
      let zone' := Zone.mk false rectangle (Zone.x1 zone) (Zone.y1 zone)
                     (Zone.x2 zone) (Zone.y2 zone) None (Zone.zoneType zone) in
      Ok (set_selectedZoneIndex None
           (emit (OnZoneDeleted i)
             (set_zones (store i zone' (zones (state w))) w)))
  end.

(** [deleteSelectedEdge()] *)
Definition deleteSelectedEdge (w : World) : World :=
  match selectedEdgeIndex (sel w) with
  | None => w
  | Some i =>
      set_selectedEdgeIndex None
        (set_edges (splice1 i (edges (state w)))
          (emit (OnEdgeDeleted i) w))
  end.

(** [finishRectangle(sensorCoords)] *)
Definition finishRectangle (sensorCoords : Point) (w : World) : outcome World :=
  slot <- getNextAvailableZoneSlot w ;;
  match slot with
  | None => Ok w
  | Some slot =>
      start <- deref (startPoint (ges w)) ;;
      let x1 := JsMath.snap 100 (pt_x start) in
      let y1 := JsMath.snap 100 (pt_y start) in
      let x2 := JsMath.snap 100 (pt_x sensorCoords) in
      let y2 := JsMath.snap 100 (pt_y sensorCoords) in
      if JsMath.ltb (Rabs (x2 - x1)) 200 || JsMath.ltb (Rabs (y2 - y1)) 200 then
        Ok (resetDrawingState
              (emit (OnError "Zone too small. Minimum size is 200mm x 200mm.") w))
      else
        zone <- deref (nth_error (zones (state w)) slot) ;;
        let zone' :=
          Zone.mk true rectangle (Rmin x1 x2) (Rmin y1 y2) (Rmax x1 x2) (Rmax y1 y2) None
                  (match Zone.zoneType zone with
                   | Some ty => Some ty
                   | None => Some detection
                   end) in
        Ok (emit (OnZoneCreated slot zone')
             (setMode select
               (set_selectedZoneIndex (Some slot)
                 (resetDrawingState
                   (set_zones (store slot zone' (zones (state w))) w)))))
  end.

(** [Math.min(...vs)] and [Math.max(...vs)] of a non-empty array; the
    empty case is unreachable behind the three-vertex test and is given the
    value 0 here. *)
Definition minOf (vs : list R) : R :=
  match vs with
  | [] => 0
  | v :: rest => fold_left Rmin rest v
  end.

Definition maxOf (vs : list R) : R :=
  match vs with
  | [] => 0
  | v :: rest => fold_left Rmax rest v
  end.

(** [finishPolygon()] *)
Definition finishPolygon (w : World) : outcome World :=
  slot <- getNextAvailableZoneSlot w ;;
  match slot with
  | None => Ok w
  | Some slot =>
      if (List.length (polygonVertices (ges w)) <? 3)%nat then
        Ok (resetDrawingState (emit (OnError "Polygon needs at least 3 vertices.") w))
      else
        let xs := map pt_x (polygonVertices (ges w)) in
        let ys := map pt_y (polygonVertices (ges w)) in
        zone <- deref (nth_error (zones (state w)) slot) ;;
        let zone' :=
          Zone.mk true polygon (minOf xs) (minOf ys) (maxOf xs) (maxOf ys)
                  (Some (polygonVertices (ges w)))
                  (match Zone.zoneType zone with
                   | Some ty => Some ty
                   | None => Some detection
                   end) in
        Ok (emit (OnZoneCreated slot zone')
             (setMode select
               (set_selectedZoneIndex (Some slot)
                 (resetDrawingState
                   (set_zones (store slot zone' (zones (state w))) w)))))
  end.

(** [handleDoubleClick(event)] *)
Definition handleDoubleClick (w : World) : outcome World :=
  match mode (this w) with
  | draw_polygon =>
      if (3 <=? List.length (polygonVertices (ges w)))%nat then finishPolygon w else Ok w
  | _ => Ok w
  end.

(** [handlePolygonClick(sensorCoords)] *)
Definition handlePolygonClick (sensorCoords : Point) (w : World) : outcome World :=
  slot <- getNextAvailableZoneSlot w ;;
  match slot with
  | None => Ok (emit (OnError "Maximum 3 zones. Delete one to add another.") w)
  | Some _ =>
      let point := mkPoint (JsMath.snap 100 (pt_x sensorCoords))
                           (JsMath.snap 100 (pt_y sensorCoords)) in
      let close :=
        if (3 <=? List.length (polygonVertices (ges w)))%nat then
          match polygonVertices (ges w) with
          | first :: _ =>
              let dist := sqrt ((pt_x point - pt_x first) ^ 2 + (pt_y point - pt_y first) ^ 2) in
              JsMath.ltb dist 300
          | [] => false
          end
        else false in
      if close then finishPolygon w
      else
        let vs := (polygonVertices (ges w) ++ [point])%list in
        Ok (emit (OnPreviewUpdate (Some (PreviewPolygon vs))) (set_polygonVertices vs w))
  end.

(** [getFurnitureDefaultSize(type)]: (width, height) *)
Definition getFurnitureDefaultSize (type : string) : R * R :=
  if String.eqb type "chair" then (700, 700)
  else if String.eqb type "dining-chair" then (450, 450)
  else if String.eqb type "sofa" then (1800, 800)
  else if String.eqb type "bed" then (2000, 1500)
  else if String.eqb type "table" then (1200, 800)
  else if String.eqb type "desk" then (1400, 700)
  else if String.eqb type "bedside-table" then (500, 500)
  else if String.eqb type "cabinet" then (800, 500)
  else if String.eqb type "drawers" then (800, 500)
  else if String.eqb type "wardrobe" then (1200, 600)
  else if String.eqb type "tv" then (1400, 200)
  else if String.eqb type "speaker" then (400, 600)
  else if String.eqb type "fridge" then (700, 700)
  else if String.eqb type "radiator" then (1000, 200)
  else if String.eqb type "fan" then (500, 500)
  else if String.eqb type "window" then (1200, 200)
  else if String.eqb type "lamp" then (350, 350)
  else if String.eqb type "plant" then (400, 400)
  else (500, 500).

(** [!s] for a string-or-null property. *)
Definition falsy (s : option string) : bool :=
  match s with
  | None => true
  | Some str => String.eqb str ""
  end.

(** [handleFurniturePlacement(sensorCoords)]; [now] is [Date.now()]. *)
Definition handleFurniturePlacement (now : Z) (sensorCoords : Point) (w : World) : World :=
  match placingFurniture (state w) with
  | None => w
  | Some type =>
      if falsy (Some type) then w
      else
        let mapRotation := IZR (RadarCanvas.mapRotation (radarCanvas w)) in
        let all := furniture (state w) in
        let furniture :=
          Furniture.mk (mkId "furniture" now) type
            (JsMath.snap 100 (pt_x sensorCoords))
            (JsMath.snap 100 (pt_y sensorCoords))
            mapRotation
            (fst (getFurnitureDefaultSize type))
            (snd (getFurnitureDefaultSize type)) in
        emit (OnFurniturePlaced furniture)
          (set_furniture (all ++ [furniture])%list w)
  end.

(** The decimal text of a length, as a template literal prints it. *)
Definition decimal (k : nat) : string := DecimalString.NilZero.string_of_uint (Nat.to_uint k).

(** [handleEntrancePlacement(sensorCoords)]; [now] is [Date.now()]. *)
Definition handleEntrancePlacement (now : Z) (sensorCoords : Point) (w : World) : World :=
  let entrance :=
    Entrance.mk (mkId "entrance" now)
      (JsMath.snap 100 (pt_x sensorCoords))
      (JsMath.snap 100 (pt_y sensorCoords))
      0
      ("Entry " ++ decimal (List.length (entrances (state w)) + 1)) in
  emit (OnEntrancePlaced entrance)
    (setMode select
      (set_entrances (entrances (state w) ++ [entrance])%list w)).

(** [handleKeyDown(event)]; [key] is [event.key]. *)
Definition handleKeyDown (key : string) (w : World) : outcome World :=
  let w1 := if String.eqb key "Escape" then setMode select (resetDrawingState w) else w in
  if String.eqb key "Delete" || String.eqb key "Backspace" then
    match mode (this w1) with
    | select =>
        match sel w1 with
        | mkSelection _ _ (Some _) _ => Ok (deleteSelectedEntrance w1)
        | mkSelection _ (Some _) None _ => Ok (deleteSelectedFurniture w1)
        | mkSelection (Some _) None None _ => deleteSelectedZone w1
        | mkSelection None None None _ => Ok w1
        end
    | _ => Ok w1
    end
  else Ok w1.

(** [handleEdgeMouseDown(sensorCoords)] *)
Definition handleEdgeMouseDown (sensorCoords : Point) (w : World) : World :=
  set_drawingEdge true
    (set_currentPoint (Some sensorCoords)
      (set_startPoint (Some sensorCoords) (set_isDrawing true w))).

(** [completeEdgeDrawing()]; [now] is [Date.now()]. *)
Definition completeEdgeDrawing (now : Z) (w : World) : World :=
  match startPoint (ges w), currentPoint (ges w) with
  | Some start, Some current =>
      let x1 := JsMath.snap 100 (pt_x start) in
      let y1 := JsMath.snap 100 (pt_y start) in
      let x2 := JsMath.snap 100 (pt_x current) in
      let y2 := JsMath.snap 100 (pt_y current) in
      if JsMath.ltb (Rabs (x2 - x1)) 100 || JsMath.ltb (Rabs (y2 - y1)) 100 then
        set_drawingEdge false (resetDrawingState w)
      else
        let edge := Edge.mk (mkId "edge" now) (Rmin x1 x2) (Rmin y1 y2) (Rmax x1 x2) (Rmax y1 y2) in
        emit (OnEdgePlaced edge)
          (setMode select
            (set_drawingEdge false
              (resetDrawingState
                (set_edges (edges (state w) ++ [edge])%list w))))
  | _, _ => w
  end.

(** A pointer event after [getCanvasCoords]: the button and the position
    in canvas pixels. *)
Record MouseEvent : Type := mkMouseEvent { button : Z; canvasCoords : Point }.

(** [handleMouseDown(event)]; [now] is [Date.now()]. *)
Definition handleMouseDown (now : Z) (event : MouseEvent) (w : World) : outcome World :=
  let canvasCoords := canvasCoords event in
  let sensorCoords := toSensorCoords (radarCanvas w) (pt_x canvasCoords) (pt_y canvasCoords) in
  if (button event =? 2)%Z then handleRightClickDrag canvasCoords sensorCoords w
  else
    match mode (this w) with
    | select | moving =>
        if isMoving (ges w) then Ok (finishMoveMode w)
        else handleSelectMouseDown canvasCoords sensorCoords w
    | draw_rectangle => handleRectangleMouseDown sensorCoords w
    | draw_polygon => handlePolygonClick sensorCoords w
    | place_furniture => Ok (handleFurniturePlacement now sensorCoords w)
    | place_entrance => Ok (handleEntrancePlacement now sensorCoords w)
    | draw_edge => Ok (handleEdgeMouseDown sensorCoords w)
    end.

(** [handleMouseMove(event)] *)
Definition handleMouseMove (event : MouseEvent) (w : World) : outcome World :=
  let canvasCoords := canvasCoords event in
  let sensorCoords := toSensorCoords (radarCanvas w) (pt_x canvasCoords) (pt_y canvasCoords) in
  let w0 := set_currentPoint (Some sensorCoords) w in
  match mode (this w0) with
  | select | moving => handleSelectMouseMove canvasCoords sensorCoords w0
  | draw_rectangle =>
      if isDrawing (ges w0) then updateRectanglePreview sensorCoords w0 else Ok w0
  | draw_polygon =>
      if (0 <? List.length (polygonVertices (ges w0)))%nat
      then Ok (updatePolygonPreview sensorCoords w0) else Ok w0
  | draw_edge =>
      if isDrawing (ges w0) then updateEdgePreview sensorCoords w0 else Ok w0
  | _ => Ok w0
  end.

(** [handleMouseUp(event)]; [now] is [Date.now()]. *)
Definition handleMouseUp (now : Z) (event : MouseEvent) (w : World) : outcome World :=
  let canvasCoords := canvasCoords event in
  let sensorCoords := toSensorCoords (radarCanvas w) (pt_x canvasCoords) (pt_y canvasCoords) in
  if (button event =? 2)%Z && isRightClickDragging (this w) then
    let w0 := set_cursor "default" (set_isDragging false (set_isRightClickDragging false w)) in
    match selectedEdgeIndex (sel w0) with
    | Some _ =>
        Ok (emit (OnEdgeUpdate (selectedEdgeIndex (sel w0))
                    (item_at (edges (state w0)) (selectedEdgeIndex (sel w0)))) w0)
    | None => Ok w0
    end
  else
    match mode (this w) with
    | select =>
        Ok (set_selectedHandle None (set_isRightClickDragging false (set_isDragging false w)))
    | draw_rectangle =>
        if isDrawing (ges w) then finishRectangle sensorCoords w else Ok w
    | draw_edge =>
        if isDrawing (ges w) then Ok (completeEdgeDrawing now w) else Ok w
    | _ => Ok w
    end.

(** [rotateSelectedEntrance()] *)
Definition rotateSelectedEntrance (w : World) : outcome World :=
  match selectedEntranceIndex (sel w) with
  | None => Ok w
  | Some i =>
      en <- deref (nth_error (entrances (state w)) i) ;;
      let en' := Entrance.mk (Entrance.id en) (Entrance.x en) (Entrance.y en)
                   (JsMath.rem (Entrance.direction en + 45) 360) (Entrance.label en) in
      Ok (emit (OnEntranceUpdate (Some i) (Some en'))
           (set_entrances (store i en' (entrances (state w))) w))
  end.

End DrawingManager.

(** ** The host page: callers of the drawing manager in [src/main.js] *)

Module Host.
Import Assign.

(** [rotateMap()]: the new [state.ui.mapRotation] and the canvas after
    [setMapRotation]. *)
Definition rotateMap (uiMapRotation : Z) (rc : RadarCanvas.t) : Z * RadarCanvas.t :=
  let rotation := Z.rem (uiMapRotation + 90) 360 in
  (rotation, RadarCanvas.setMapRotation rc rotation).

(** The furniture branch of [rotateSelectedShape()]: the write to the
    furniture object. *)
Definition rotateFurniture (f : Furniture.t) : Furniture.t :=
  Furniture.mk (Furniture.id f) (Furniture.type f) (Furniture.x f) (Furniture.y f)
               (JsMath.rem (Furniture.rotation f + 45) 360)
               (Furniture.width f) (Furniture.height f).

Definition MIN_SIZE : R := 200.
Definition MAX_SIZE : R := 4000.

(** The furniture branch of [resizeSelectedShape(scaleFactor)]: the writes
    to the furniture object. *)
Definition resizeFurnitureBy (scaleFactor : R) (f : Furniture.t) : Furniture.t :=
  let newWidth := IZR (JsMath.round (Furniture.width f * scaleFactor)) in
  let newHeight := IZR (JsMath.round (Furniture.height f * scaleFactor)) in
  Furniture.mk (Furniture.id f) (Furniture.type f) (Furniture.x f) (Furniture.y f)
               (Furniture.rotation f)
               (Rmax MIN_SIZE (Rmin MAX_SIZE newWidth))
               (Rmax MIN_SIZE (Rmin MAX_SIZE newHeight)).

(** The edge branch of [resizeSelectedShape(scaleFactor)]: the writes to the
    edge object. *)
Definition resizeEdgeBy (scaleFactor : R) (ed : Edge.t) : Edge.t :=
  let centerX := (Edge.x1 ed + Edge.x2 ed) / 2 in
  let centerY := (Edge.y1 ed + Edge.y2 ed) / 2 in
  let halfWidth := Rabs (Edge.x2 ed - Edge.x1 ed) / 2 * scaleFactor in
  let halfHeight := Rabs (Edge.y2 ed - Edge.y1 ed) / 2 * scaleFactor in
  let x1 := IZR (JsMath.round (centerX - halfWidth)) in
  let x2 := IZR (JsMath.round (centerX + halfWidth)) in
  let y1 := IZR (JsMath.round (centerY - halfHeight)) in
  let y2 := IZR (JsMath.round (centerY + halfHeight)) in
  Edge.mk (Edge.id ed)
          (Rmax (-3000) (Rmin 3000 x1)) (Rmax 0 (Rmin 6000 y1))
          (Rmax (-3000) (Rmin 3000 x2)) (Rmax 0 (Rmin 6000 y2)).

(** [deleteSelectedShape()], with the host's [selectedItemType] and
    [selectedItemIndex]; its own [deleteSelectedEdge()] tests the same two
    variables again before it calls the manager. *)
Definition deleteSelectedShape (selectedItemType : option ItemType)
    (selectedItemIndex : option nat) (w : World) : outcome World :=
  match selectedItemType, selectedItemIndex with
  | Some item_zone, Some _ => DrawingManager.deleteSelectedZone w
  | Some item_furniture, Some _ => Ok (DrawingManager.deleteSelectedFurniture w)
  | Some item_entrance, Some _ => Ok (DrawingManager.deleteSelectedEntrance w)
  | Some item_edge, Some _ => Ok (DrawingManager.deleteSelectedEdge w)
  | _, _ => Ok w
  end.

End Host.

(** ** Observations: predicates on editor states *)

Module Observe.

(** The spec's words for the slot search: the first slot among 0..4 whose
    [enabled] is false. *)
Fixpoint firstDisabled (zs : list Zone.t) (i : nat) : option nat :=
  match zs with
  | [] => None
  | z :: rest => if Zone.enabled z then firstDisabled rest (S i) else Some i
  end.

Definition spec_free_slot (zs : list Zone.t) : option nat := firstDisabled (firstn 5 zs) 0.

Definition capacity_message : string := "Maximum 3 zones. Delete one to add another.".

(** The handler returned, reported the capacity error, and changed
    nothing but the event log. *)
Definition capacity_reported (w : World) (r : outcome World) : Prop :=
  exists w', r = Ok w'
             /\ state w' = state w /\ this w' = this w
             /\ events w' = (events w ++ [OnError capacity_message])%list.

Definition too_small_message : string := "Zone too small. Minimum size is 200mm x 200mm.".

(** The zone object after the writes of [finishRectangle], for a gesture
    from [start] to [p] into a slot that held [zone]. *)
Definition committed_rectangle (start p : Point) (zone : Zone.t) : Zone.t :=
  let x1 := JsMath.snap 100 (pt_x start) in
  let y1 := JsMath.snap 100 (pt_y start) in
  let x2 := JsMath.snap 100 (pt_x p) in
  let y2 := JsMath.snap 100 (pt_y p) in
  Zone.mk true rectangle (Rmin x1 x2) (Rmin y1 y2) (Rmax x1 x2) (Rmax y1 y2) None
          (match Zone.zoneType zone with
           | Some ty => Some ty
           | None => Some detection
           end).

Definition held (i : option nat) : nat :=
  match i with
  | Some _ => 1
  | None => 0
  end.

(** How many of the four selection indices are non-null. *)
Definition selected_count (s : Selection) : nat :=
  held (selectedZoneIndex s) + held (selectedFurnitureIndex s)
  + held (selectedEntranceIndex s) + held (selectedEdgeIndex s).

Definition at_most_one_selected (s : Selection) : Prop := (selected_count s <= 1)%nat.

Definition zone_normalized (z : Zone.t) : Prop :=
  Zone.x1 z <= Zone.x2 z /\ Zone.y1 z <= Zone.y2 z.

Definition edge_normalized (ed : Edge.t) : Prop :=
  Edge.x1 ed <= Edge.x2 ed /\ Edge.y1 ed <= Edge.y2 ed.

(** Every enabled zone and every edge has [x1 <= x2] and [y1 <= y2]. *)
Definition registry_normalized (st : State) : Prop :=
  Forall (fun z => Zone.enabled z = true -> zone_normalized z) (zones st)
  /\ Forall edge_normalized (edges st).




(** The pointer coordinate as [resizeZone] and [resizeEdge] store it:
    snapped to 100mm, then clamped to the sensor range. *)
Definition storedX (p : Point) : R := Rmax (-3000) (Rmin 3000 (JsMath.snap 100 (pt_x p))).
Definition storedY (p : Point) : R := Rmax 0 (Rmin 6000 (JsMath.snap 100 (pt_y p))).

(** The operations that write a bounding box without a resize handle:
    the three creations and the three moves. *)
Inductive BoxWrite : Type :=
  | CreateRectangle (sensorCoords : Point)
  | CreatePolygon
  | CreateEdge (now : Z)
  | MoveZone (sensorCoords : Point)
  | MoveZoneToPosition (sensorCoords : Point)
  | MoveEdge (sensorCoords : Point).

Definition run (op : BoxWrite) (w : World) : outcome World :=
  match op with
  | CreateRectangle p => DrawingManager.finishRectangle p w
  | CreatePolygon => DrawingManager.finishPolygon w
  | CreateEdge now => Ok (DrawingManager.completeEdgeDrawing now w)
  | MoveZone p => DrawingManager.moveZone p w
  | MoveZoneToPosition p => Ok (DrawingManager.moveZoneToPosition p w)
  | MoveEdge p => DrawingManager.moveEdge p w
  end.

End Observe.

(** ** Sample editor states *)

Module Sample.

Definition canvas : RadarCanvas.t := RadarCanvas.resize 600 0.

(** The zone slot of the initial application state. *)
Definition emptySlot : Zone.t :=
  Zone.mk false rectangle (-1500) 0 1500 3000 None (Some detection).

Definition usedSlot : Zone.t :=
  Zone.mk true rectangle (-1500) 0 1500 3000 None (Some detection).

Definition idle : Gesture :=
  mkGesture false false false None None None None [] None [] None.

Definition noSelection : Selection := mkSelection None None None None.

Definition manager (m : Mode) (g : Gesture) (s : Selection) : Manager :=
  mkManager m g s (mkPoint 0 0) None false false "default".

Definition world (m : Mode) (g : Gesture) (s : Selection) (st : State) : World :=
  mkWorld (manager m g s) st canvas [].

(** A rectangle gesture that started at sensor point (0, 0). *)
Definition drawingFromOrigin : Gesture :=
  mkGesture true false false None None (Some (mkPoint 0 0)) (Some (mkPoint 0 0)) [] None [] None.

Definition fiveFree : State :=
  mkState [emptySlot; emptySlot; emptySlot; emptySlot; emptySlot] [] [] [] None.

Definition fiveUsed : State :=
  mkState [usedSlot; usedSlot; usedSlot; usedSlot; usedSlot] [] [] [] None.

(** Slots 0..2 enabled, slots 3 and 4 free. *)
Definition threeUsed : State :=
  mkState [usedSlot; usedSlot; usedSlot; emptySlot; emptySlot] [] [] [] None.

Definition sofa : Furniture.t :=
  Furniture.mk (mkId "furniture" 1) "sofa" 0 2000 0 1800 800.

Definition wall : Edge.t := Edge.mk (mkId "edge" 1) (-3000) 0 (-2000) 6000.

(** One enabled rectangle zone in slot 0, being resized by the handle on
    its west side. *)
Definition square : Zone.t := Zone.mk true rectangle 0 0 1000 1000 None (Some detection).

Definition oneZone : State :=
  mkState [square; emptySlot; emptySlot; emptySlot; emptySlot] [] [] [] None.

Definition zoneSelected : Selection := mkSelection (Some 0%nat) None None None.

Definition westHandle : Handle :=
  mkHandle h_w 0 500 (Some X1) None (Some item_zone) (Some 0%nat).

Definition eastHandle : Handle :=
  mkHandle h_e 1000 500 (Some X2) None (Some item_zone) (Some 0%nat).

Definition resizing (h : Handle) : Gesture :=
  mkGesture false true false None None (Some (mkPoint (h_x h) (h_y h))) None [] None []
            (Some h).

(** Three polygon vertices already clicked, 100mm apart. *)
Definition smallTriangle : list Point := [mkPoint 0 0; mkPoint 100 0; mkPoint 0 100].

Definition drawingTriangle : Gesture :=
  mkGesture false false false None None None None smallTriangle None [] None.

Definition oneSofa : State :=
  mkState [emptySlot; emptySlot; emptySlot; emptySlot; emptySlot] [sofa] [] [] None.

Definition furnitureSelected : Selection := mkSelection None (Some 0%nat) None None.

Definition oneWall : State :=
  mkState [emptySlot; emptySlot; emptySlot; emptySlot; emptySlot] [] [] [wall] None.

Definition edgeSelected : Selection := mkSelection None None None (Some 0%nat).

Definition placingSofa : State :=
  mkState [emptySlot; emptySlot; emptySlot; emptySlot; emptySlot] [] [] [] (Some "sofa"%string).

End Sample.

(** ** Object literals used as tables *)

Module JsObject.

(** The member names that every object literal inherits from
    [Object.prototype].  A lookup [table[name]] with one of these names
    finds the inherited member instead of [undefined]; none of them is a
    furniture type, and the table functions below are read for the other
    names. *)
Definition prototype_keys : list string :=
  ["constructor"; "hasOwnProperty"; "isPrototypeOf"; "propertyIsEnumerable";
   "toLocaleString"; "toString"; "valueOf"; "__proto__"; "__defineGetter__";
   "__defineSetter__"; "__lookupGetter__"; "__lookupSetter__"]%string.

End JsObject.

(** ** More predicates and helpers for statements *)

Module Geometry.

(** The same zone with its two x fields exchanged and its two y fields
    exchanged. *)
Definition swap_corners (z : Zone.t) : Zone.t :=
  Zone.mk (Zone.enabled z) (Zone.shapeType z) (Zone.x2 z) (Zone.y2 z) (Zone.x1 z) (Zone.y1 z)
          (Zone.vertices z) (Zone.zoneType z).

(** A pixel lies strictly inside the square canvas of the given size. *)
Definition inside_canvas (size : R) (p : Point) : Prop :=
  0 < pt_x p < size /\ 0 < pt_y p < size.

(** A zone lies on the 100mm grid, is normalized and inside the sensor
    range. *)
Definition zone_well_placed (z : Zone.t) : Prop :=
  Observe.zone_normalized z
  /\ -3000 <= Zone.x1 z /\ Zone.x2 z <= 3000 /\ 0 <= Zone.y1 z /\ Zone.y2 z <= 6000
  /\ exists a b c d : Z, Zone.x1 z = IZR a * 100 /\ Zone.y1 z = IZR b * 100
                        /\ Zone.x2 z = IZR c * 100 /\ Zone.y2 z = IZR d * 100.

(** The entrance with another direction. *)
Definition turned (d : R) (en : Entrance.t) : Entrance.t :=
  Entrance.mk (Entrance.id en) (Entrance.x en) (Entrance.y en) d (Entrance.label en).

End Geometry.

(** ** More sample editor states *)

Module Fixture.

Definition door : Entrance.t := Entrance.mk (mkId "entrance" 1) 1000 0 0 "Entry 1".

Definition oneDoor : State :=
  mkState [Sample.emptySlot; Sample.emptySlot; Sample.emptySlot; Sample.emptySlot;
           Sample.emptySlot] [] [door] [] None.

Definition entranceSelected : Selection := mkSelection None None (Some 0%nat) None.

(** A drag of the body of the selected shape, with the pointer offset
    captured at pointer-down. *)
Definition dragging : Gesture :=
  mkGesture false true false None None None None [] None [] None.

(** Move mode for the item of the given type and index. *)
Definition movingItem (ty : ItemType) (i : nat) : Gesture :=
  mkGesture false false true (Some ty) (Some i) None None [] None [] None.

(** The south-east handle of the sofa, as [handleSelectMouseDown] stores
    it. *)
Definition sofaHandle : Handle :=
  mkHandle h_se 90 40 None None (Some item_furniture) (Some 0%nat).

(** The west handle of the wall, as [handleSelectMouseDown] stores it. *)
Definition wallHandle : Handle :=
  mkHandle h_w (-3000) 3000 (Some X1) None (Some item_edge) (Some 0%nat).

End Fixture.

(** ** Running a handler several times *)

Module Repeat.

(** [n] invocations of a handler in a row; a throw ends the run. *)
Fixpoint times (n : nat) (handler : World -> outcome World) (w : World) : outcome World :=
  match n with
  | O => Ok w
  | S n' => bind (handler w) (times n' handler)
  end.

End Repeat.

(** * Properties *)

(** ** Facts about the number model *)

Module JsMathFacts.
Import JsMath.

Lemma leb_true a b : a <= b -> leb a b = true.
Proof. intros H; unfold leb; destruct (Rle_dec a b); [reflexivity | contradiction]. Qed.

Lemma leb_false a b : b < a -> leb a b = false.
Proof. intros H; unfold leb; destruct (Rle_dec a b); [lra | reflexivity]. Qed.

Lemma ltb_true a b : a < b -> ltb a b = true.
Proof. intros H; unfold ltb; destruct (Rlt_dec a b); [reflexivity | contradiction]. Qed.

Lemma ltb_false a b : b <= a -> ltb a b = false.
Proof. intros H; unfold ltb; destruct (Rlt_dec a b); [lra | reflexivity]. Qed.

Lemma leb_spec a b : leb a b = true <-> a <= b.
Proof. unfold leb; destruct (Rle_dec a b); split; intros; (assumption || reflexivity || discriminate || contradiction). Qed.

Lemma ltb_spec a b : ltb a b = true <-> a < b.
Proof. unfold ltb; destruct (Rlt_dec a b); split; intros; (assumption || reflexivity || discriminate || contradiction). Qed.

Lemma round_bounds r : IZR (round r) - / 2 <= r < IZR (round r) + / 2.
Proof. unfold round; destruct (base_Int_part (r + / 2)); lra. Qed.

Lemma round_unique r z : IZR z - / 2 <= r < IZR z + / 2 -> round r = z.
Proof. intros H; unfold round; symmetry; apply Int_part_spec; lra. Qed.

Lemma round_IZR z : round (IZR z) = z.
Proof. apply round_unique; lra. Qed.

Lemma round_mono a b : a <= b -> (round a <= round b)%Z.
Proof.
  intros H. destruct (round_bounds a) as [Ha _], (round_bounds b) as [_ Hb].
  apply Z.lt_succ_r, lt_IZR. rewrite succ_IZR. lra.
Qed.

Lemma snap_mono g a b : 0 < g -> a <= b -> snap g a <= snap g b.
Proof.
  intros Hg H. unfold snap. apply Rmult_le_compat_r; [lra |].
  apply IZR_le, round_mono. unfold Rdiv.
  apply Rmult_le_compat_r; [| assumption].
  left; apply Rinv_0_lt_compat; assumption.
Qed.

(** A value that sits on the grid is its own snap. *)
Lemma snap_on_grid g z : g <> 0 -> snap g (IZR z * g) = IZR z * g.
Proof.
  intros Hg. unfold snap. replace (IZR z * g / g) with (IZR z) by (field; assumption).
  rewrite round_IZR. reflexivity.
Qed.

(** The snap is a nearest grid point. *)
Lemma snap_nearest g v : 0 < g -> Rabs (snap g v - v) <= g / 2.
Proof.
  intros Hg. unfold snap. destruct (round_bounds (v / g)) as [Hlo Hhi].
  assert (Hv : v = v / g * g) by (field; lra).
  apply Rabs_le. split.
  - apply Rmult_le_reg_r with (/ g); [apply Rinv_0_lt_compat; lra |].
    replace ((IZR (round (v / g)) * g - v) * / g) with (IZR (round (v / g)) - v / g) by (field; lra).
    replace (- (g / 2) * / g) with (- / 2) by (field; lra). lra.
  - apply Rmult_le_reg_r with (/ g); [apply Rinv_0_lt_compat; lra |].
    replace ((IZR (round (v / g)) * g - v) * / g) with (IZR (round (v / g)) - v / g) by (field; lra).
    replace (g / 2 * / g) with (/ 2) by (field; lra). lra.
Qed.

(** How a snap is computed on a given number. *)
Lemma snap_eq g v z :
  0 < g -> IZR z * g - g / 2 <= v < IZR z * g + g / 2 -> snap g v = IZR z * g.
Proof.
  intros Hg [Hlo Hhi]. unfold snap. f_equal. f_equal. apply round_unique.
  assert (Hi : 0 < / g) by (apply Rinv_0_lt_compat; assumption).
  split.
  - apply Rmult_le_reg_r with g; [assumption |].
    replace (v / g * g) with v by (field; lra). lra.
  - apply Rmult_lt_reg_r with g; [assumption |].
    replace (v / g * g) with v by (field; lra). lra.
Qed.

End JsMathFacts.

(** ** The coordinate transform *)

Module CoordsFacts.
Import RadarCanvas Coords.

(** Undoing a rotation about a centre: the algebra behind the round
    trip, for any angle. *)
Lemma unrotate_rotate (c s cx cy ux uy : R) :
  s * s + c * c = 1 ->
  let dx := ux - cx in
  let dy := uy - cy in
  let rx := cx + dx * c - dy * s in
  let ry := cy + dx * s + dy * c in
  cx + (rx - cx) * c - (ry - cy) * (- s) = ux /\
  cy + (rx - cx) * (- s) + (ry - cy) * c = uy.
Proof.
  intros H dx dy rx ry. subst rx ry dx dy. split.
  - replace (cx + (cx + (ux - cx) * c - (uy - cy) * s - cx) * c
             - (cy + (ux - cx) * s + (uy - cy) * c - cy) * - s)
      with (cx + (ux - cx) * (s * s + c * c)) by ring.
    rewrite H. ring.
  - replace (cy + (cx + (ux - cx) * c - (uy - cy) * s - cx) * - s
             + (cy + (ux - cx) * s + (uy - cy) * c - cy) * c)
      with (cy + (uy - cy) * (s * s + c * c)) by ring.
    rewrite H. ring.
Qed.

Lemma toSensorX_toCanvasX rc x : scaleX rc <> 0 -> toSensorX rc (toCanvasX rc x) = x.
Proof. intros H. unfold toSensorX, toCanvasX. field. assumption. Qed.

Lemma toSensorY_toCanvasY rc y : scaleY rc <> 0 -> toSensorY rc (toCanvasY rc y) = y.
Proof. intros H. unfold toSensorY, toCanvasY. field. assumption. Qed.

(** The round trip holds for every rotation angle, not only the four
    quarter turns. *)
Lemma round_trip_any_rotation rc x y :
  scaleX rc <> 0 -> scaleY rc <> 0 ->
  let p := toCanvasCoords rc x y in
  toSensorCoords rc (pt_x p) (pt_y p) = mkPoint x y.
Proof.
  intros Hx Hy p. subst p. unfold toSensorCoords, toCanvasCoords. cbn [pt_x pt_y].
  set (a := IZR (mapRotation rc) * PI / 180).
  replace (- IZR (mapRotation rc) * PI / 180) with (- a) by (unfold a; field).
  rewrite cos_neg, sin_neg.
  assert (H : sin a * sin a + cos a * cos a = 1).
  { pose proof (sin2_cos2 a) as H. unfold Rsqr in H. exact H. }
  destruct (unrotate_rotate (cos a) (sin a) (width rc / 2) (height rc / 2)
              (toCanvasX rc x) (toCanvasY rc y) H) as [Ex Ey].
  cbv zeta in Ex, Ey. rewrite Ex, Ey.
  rewrite toSensorX_toCanvasX, toSensorY_toCanvasY by assumption.
  reflexivity.
Qed.

(** C2. For every sensor-space point and every [mapRotation] among 0, 90,
    180 and 270, converting the point to canvas pixels with
    [toCanvasCoords] and back with [toSensorCoords] returns the point: the
    pointer-to-sensor conversion undoes the rotation about the canvas
    centre that the sensor-to-canvas conversion applies.  (The scale of a
    canvas of non-zero size is non-zero.) *)
Theorem toSensorCoords_toCanvasCoords (rc : RadarCanvas.t) (x y : R) :
  scaleX rc <> 0 -> scaleY rc <> 0 ->
  In (mapRotation rc) [0; 90; 180; 270]%Z ->
  toSensorCoords rc (pt_x (toCanvasCoords rc x y)) (pt_y (toCanvasCoords rc x y))
  = mkPoint x y.
Proof.
  intros Hx Hy _. exact (round_trip_any_rotation rc x y Hx Hy).
Qed.

Lemma resize_scale size rotation :
  size <> 0 -> scaleX (resize size rotation) <> 0 /\ scaleY (resize size rotation) <> 0.
Proof.
  intros H. unfold resize, X_MAX, X_MIN, Y_MAX, Y_MIN. cbn.
  split; intros E; apply H;
    [ replace size with (size / (3000 - -3000) * 6000) by field
    | replace size with (size / (6000 - 0) * 6000) by field ];
    rewrite E; ring.
Qed.

Lemma toSensorCoords_toCanvasCoords_witness :
  scaleX (resize 600 90) <> 0 /\ scaleY (resize 600 90) <> 0
  /\ In (mapRotation (resize 600 90)) [0; 90; 180; 270]%Z
  /\ toSensorCoords (resize 600 90) (pt_x (toCanvasCoords (resize 600 90) 1000 2000))
                    (pt_y (toCanvasCoords (resize 600 90) 1000 2000))
     = mkPoint 1000 2000.
Proof.
  assert (Hx : scaleX (resize 600 90) <> 0) by (apply (resize_scale 600 90); lra).
  assert (Hy : scaleY (resize 600 90) <> 0) by (apply (resize_scale 600 90); lra).
  assert (Hr : In (mapRotation (resize 600 90)) [0; 90; 180; 270]%Z)
    by (cbn; right; left; reflexivity).
  split; [exact Hx | split; [exact Hy | split; [exact Hr |]]].
  exact (toSensorCoords_toCanvasCoords (resize 600 90) 1000 2000 Hx Hy Hr).
Defined.

(** The quarter-turn angles. *)
Lemma angle_180 : IZR 180 * PI / 180 = PI.
Proof. field. Qed.

Lemma angle_90 : IZR 90 * PI / 180 = PI / 2.
Proof. field. Qed.

Lemma angle_270 : IZR 270 * PI / 180 = 3 * (PI / 2).
Proof. field. Qed.

Lemma angle_0 : IZR 0 * PI / 180 = 0.
Proof. field. Qed.

(** What each of the two conventions computes at 180 degrees. *)
Lemma toCanvasCoords_180 size x y :
  toCanvasCoords (resize size 180) x y
  = mkPoint (size / 2 - x * (size / 6000)) (y * (size / 6000)).
Proof.
  unfold toCanvasCoords, toCanvasX, toCanvasY, resize, X_MAX, X_MIN, Y_MAX, Y_MIN.
  cbn [width height centerX centerY scaleX scaleY mapRotation].
  rewrite angle_180, cos_PI, sin_PI. f_equal; field.
Qed.

Lemma drawTarget_position_180 size x y :
  drawTarget_position (resize size 180) x y
  = mkPoint (size / 2 + x * (size / 6000)) (y * (size / 6000)).
Proof.
  unfold drawTarget_position, transformSensorToRoom, toCanvasX, toCanvasY, resize,
    X_MAX, X_MIN, Y_MAX, Y_MIN.
  cbn [width height centerX centerY scaleX scaleY mapRotation pt_x pt_y].
  f_equal; field.
Qed.

Lemma toCanvasCoords_0 size x y :
  toCanvasCoords (resize size 0) x y
  = mkPoint (toCanvasX (resize size 0) x) (toCanvasY (resize size 0) y).
Proof.
  unfold toCanvasCoords.
  cbn [mapRotation resize].
  rewrite angle_0, cos_0, sin_0. f_equal; ring.
Qed.

(** The same comparison at the two odd quarter turns: the remap paints the
    target at the mirror image, about the horizontal centre line, of the
    rotated pixel. *)
Lemma drawTarget_position_90 size x y :
  let t := drawTarget_position (resize size 90) x y in
  let c := toCanvasCoords (resize size 90) x y in
  pt_x t = pt_x c /\ pt_y t = size - pt_y c.
Proof.
  unfold drawTarget_position, transformSensorToRoom, toCanvasCoords, toCanvasX, toCanvasY,
    resize, X_MAX, X_MIN, Y_MAX, Y_MIN.
  cbn [width height centerX centerY scaleX scaleY mapRotation pt_x pt_y].
  rewrite angle_90, cos_PI2, sin_PI2. split; field.
Qed.

Lemma drawTarget_position_270 size x y :
  let t := drawTarget_position (resize size 270) x y in
  let c := toCanvasCoords (resize size 270) x y in
  pt_x t = pt_x c /\ pt_y t = size - pt_y c.
Proof.
  unfold drawTarget_position, transformSensorToRoom, toCanvasCoords, toCanvasX, toCanvasY,
    resize, X_MAX, X_MIN, Y_MAX, Y_MIN.
  cbn [width height centerX centerY scaleX scaleY mapRotation pt_x pt_y].
  rewrite angle_270, cos_3PI2, sin_3PI2. split; field.
Qed.

(** C3. The two rotation conventions do not coincide: on a 600 pixel canvas
    turned by 180 degrees the target remap paints sensor point (1000, 1000)
    at pixel (400, 100), while the rotation transform used for zones,
    furniture and hit testing puts it at pixel (200, 100).  The remap
    returns [x: sensorX] where its own description says that X is flipped
    at 180 degrees. *)
Lemma remap_differs_from_rotation :
  drawTarget_position (resize 600 180) 1000 1000
  <> toCanvasCoords (resize 600 180) 1000 1000.
Proof.
  rewrite drawTarget_position_180, toCanvasCoords_180. intros E.
  apply (f_equal pt_x) in E. cbn in E. lra.
Qed.

(** Where the two conventions stand for every point: they agree at
    [mapRotation] 0; at [mapRotation] 180 the target pixel has the y of the
    pixel of [toCanvasCoords] and its x mirrored about the vertical centre
    line of the canvas. *)
Lemma remap_versus_rotation (size x y : R) :
  drawTarget_position (resize size 0) x y = toCanvasCoords (resize size 0) x y
  /\ pt_x (drawTarget_position (resize size 180) x y)
     = size - pt_x (toCanvasCoords (resize size 180) x y)
  /\ pt_y (drawTarget_position (resize size 180) x y)
     = pt_y (toCanvasCoords (resize size 180) x y).
Proof.
  split; [| split].
  - rewrite toCanvasCoords_0. reflexivity.
  - rewrite drawTarget_position_180, toCanvasCoords_180. cbn. field.
  - rewrite drawTarget_position_180, toCanvasCoords_180. reflexivity.
Qed.

End CoordsFacts.

(** ** The zone registry *)

Module RegistryFacts.
Import Assign DrawingManager Observe JsMath JsMathFacts.

Lemma scan_three z0 z1 z2 rest :
  scanSlots (z0 :: z1 :: z2 :: rest) 0 3 = Ok (firstDisabled [z0; z1; z2] 0).
Proof. cbn. destruct (Zone.enabled z0), (Zone.enabled z1), (Zone.enabled z2); reflexivity. Qed.

(** A slot that the scan returns was read from the array and is free. *)
Lemma scanSlots_found zs n : forall i k,
  scanSlots zs i n = Ok (Some k) ->
  exists z, nth_error zs k = Some z /\ Zone.enabled z = false.
Proof.
  induction n as [| n IH]; intros i k H; cbn in H; [discriminate |].
  destruct (nth_error zs i) as [z |] eqn:E; cbn in H; [| discriminate].
  destruct (Zone.enabled z) eqn:En.
  - apply (IH (S i)). exact H.
  - injection H as <-. exists z. split; assumption.
Qed.

Lemma nth_error_store_same {A} (a : list A) : forall i v,
  (i < List.length a)%nat -> nth_error (store i v a) i = Some v.
Proof.
  induction a as [| a0 a IH]; intros [| i] v H; cbn in *; try lia; [reflexivity |].
  apply IH. lia.
Qed.

Lemma nth_error_store_other {A} (a : list A) : forall i j v,
  i <> j -> nth_error (store i v a) j = nth_error a j.
Proof.
  induction a as [| a0 a IH]; intros [| i] [| j] v H; cbn; try reflexivity; try congruence.
  apply IH. congruence.
Qed.

Lemma Forall_store {A} (P : A -> Prop) (a : list A) : forall i v,
  Forall P a -> P v -> Forall P (store i v a).
Proof.
  induction a as [| a0 a IH]; intros [| i] v H Hv; cbn; inversion H; subst;
    constructor; auto.
Qed.

(** C1, as stated, fails: with slots 0..2 enabled and slots 3 and 4 free,
    the scan of slots 0..4 finds the free slot 3, yet the source finds no
    slot and starting a rectangle reports the capacity error. *)
Lemma capacity_error_with_free_slot :
  let w := Sample.world draw_rectangle Sample.idle Sample.noSelection Sample.threeUsed in
  spec_free_slot (zones (state w)) = Some 3%nat
  /\ getNextAvailableZoneSlot w = Ok None
  /\ handleRectangleMouseDown (mkPoint 0 0) w = Ok (emit (OnError capacity_message) w).
Proof. cbv zeta. split; [| split]; reflexivity. Qed.

(** C1, amended. Zone creation scans the slots 0..2 for the first slot
    with [enabled] false (the registry holding at least three slots); when
    none of these three is free, starting a rectangle draw reports the
    capacity error and changes neither the registry nor the editor state;
    in particular this is so when all zones are enabled. *)
Theorem getNextAvailableZoneSlot_scans_three (w : World) (p : Point) :
  (3 <= List.length (zones (state w)))%nat ->
  getNextAvailableZoneSlot w = Ok (firstDisabled (firstn 3 (zones (state w))) 0)
  /\ (firstDisabled (firstn 3 (zones (state w))) 0 = None ->
      capacity_reported w (handleRectangleMouseDown p w))
  /\ (forallb Zone.enabled (zones (state w)) = true ->
      capacity_reported w (handleRectangleMouseDown p w)).
Proof.
  intros Hlen.
  assert (Hscan : getNextAvailableZoneSlot w
                  = Ok (firstDisabled (firstn 3 (zones (state w))) 0)).
  { unfold getNextAvailableZoneSlot.
    destruct (zones (state w)) as [| z0 [| z1 [| z2 rest]]]; cbn in Hlen; try lia.
    apply scan_three. }
  assert (Hrep : firstDisabled (firstn 3 (zones (state w))) 0 = None ->
                 capacity_reported w (handleRectangleMouseDown p w)).
  { intros Hnone. unfold handleRectangleMouseDown. rewrite Hscan, Hnone. cbn [bind].
    eexists. split; [reflexivity |]. cbn. auto. }
  split; [exact Hscan | split; [exact Hrep |]].
  intros H. apply Hrep.
  destruct (zones (state w)) as [| z0 [| z1 [| z2 rest]]]; cbn in Hlen; try lia.
  cbn [forallb] in H. cbn [firstn firstDisabled].
  apply andb_prop in H as [H0 H]. apply andb_prop in H as [H1 H].
  apply andb_prop in H as [H2 _]. rewrite H0, H1, H2. reflexivity.
Qed.

Lemma getNextAvailableZoneSlot_scans_three_witness :
  let w := Sample.world draw_rectangle Sample.idle Sample.noSelection Sample.fiveUsed in
  (3 <= List.length (zones (state w)))%nat
  /\ getNextAvailableZoneSlot w = Ok None
  /\ capacity_reported w (handleRectangleMouseDown (mkPoint 0 0) w).
Proof.
  cbv zeta.
  assert (H : (3 <= List.length (zones (state
            (Sample.world draw_rectangle Sample.idle Sample.noSelection Sample.fiveUsed))))%nat)
    by (cbn; lia).
  destruct (getNextAvailableZoneSlot_scans_three _ (mkPoint 0 0) H) as [H1 [_ H3]].
  split; [exact H | split; [exact H1 |]].
  apply H3. reflexivity.
Defined.

End RegistryFacts.

(** ** Drawing a rectangle *)

Module DrawFacts.
Import Assign DrawingManager Observe JsMath JsMathFacts RegistryFacts.

Lemma snap100_0 : snap 100 0 = 0.
Proof. rewrite (snap_eq 100 0 0); lra. Qed.

Lemma snap100_50 : snap 100 50 = 100.
Proof. rewrite (snap_eq 100 50 1); lra. Qed.

Lemma snap100_300 : snap 100 300 = 300.
Proof. rewrite (snap_eq 100 300 3); lra. Qed.

(** The two branches of [finishRectangle] after the slot search. *)
Lemma finishRectangle_rejects w start p slot :
  startPoint (ges w) = Some start ->
  getNextAvailableZoneSlot w = Ok (Some slot) ->
  Rabs (snap 100 (pt_x p) - snap 100 (pt_x start)) < 200
  \/ Rabs (snap 100 (pt_y p) - snap 100 (pt_y start)) < 200 ->
  finishRectangle p w = Ok (resetDrawingState (emit (OnError too_small_message) w)).
Proof.
  intros Hs Hslot Hsmall. unfold finishRectangle. rewrite Hslot. cbn [bind].
  rewrite Hs. cbn [bind deref].
  destruct Hsmall as [H | H].
  - rewrite (ltb_true _ _ H). reflexivity.
  - rewrite (ltb_true _ _ H), orb_true_r. reflexivity.
Qed.

Lemma finishRectangle_commits w start p slot zone :
  startPoint (ges w) = Some start ->
  getNextAvailableZoneSlot w = Ok (Some slot) ->
  nth_error (zones (state w)) slot = Some zone ->
  200 <= Rabs (snap 100 (pt_x p) - snap 100 (pt_x start)) ->
  200 <= Rabs (snap 100 (pt_y p) - snap 100 (pt_y start)) ->
  finishRectangle p w
  = Ok (emit (OnZoneCreated slot (committed_rectangle start p zone))
         (setMode select
           (set_selectedZoneIndex (Some slot)
             (resetDrawingState
               (set_zones (store slot (committed_rectangle start p zone) (zones (state w))) w))))).
Proof.
  intros Hs Hslot Hz Hx Hy. unfold finishRectangle. rewrite Hslot. cbn [bind].
  rewrite Hs. cbn [bind deref].
  rewrite (ltb_false _ _ Hx), (ltb_false _ _ Hy). cbn [orb].
  rewrite Hz. reflexivity.
Qed.

(** The snap to the 100mm grid is the multiple of 100 whose cell, from 50
    below to 50 above, holds the value; that multiple is unique. *)
Lemma snap100_index v :
  exists k : Z, snap 100 v = IZR k * 100 /\ IZR k * 100 - 50 <= v < IZR k * 100 + 50.
Proof.
  exists (round (v / 100)). split; [reflexivity |].
  destruct (round_bounds (v / 100)) as [H1 H2].
  assert (E : v = v / 100 * 100) by field. lra.
Qed.

Lemma grid_index_unique (k j : Z) v :
  IZR k * 100 - 50 <= v < IZR k * 100 + 50 ->
  IZR j * 100 - 50 <= v < IZR j * 100 + 50 -> k = j.
Proof.
  intros [A B] [C D].
  assert (H1 : IZR k < IZR (j + 1)) by (rewrite plus_IZR; lra).
  assert (H2 : IZR j < IZR (k + 1)) by (rewrite plus_IZR; lra).
  apply lt_IZR in H1, H2. lia.
Qed.

(** C5. Completing a rectangle draw snaps both recorded corners to the
    100mm grid and then tests the snapped dimensions.  With [a], [b] the
    grid indices of the start corner and [c], [d] those of the release
    point (the multiples of 100 nearest to the coordinates, a half going
    up): when the snapped width |c - a| * 100 or the snapped height
    |d - b| * 100 is below 200mm the gesture is rejected with the too-small
    error, the registry is left as it was and the gesture state is
    cleared; otherwise the rectangle is committed into the free slot with
    corners on the grid, the smaller index first, [shapeType] rectangle and
    a [zoneType] that defaults to detection when the slot had none. *)
Theorem finishRectangle_snaps_then_checks (w : World) (start p : Point) (slot : nat) :
  startPoint (ges w) = Some start ->
  getNextAvailableZoneSlot w = Ok (Some slot) ->
  exists (a b c d : Z) (w' : World),
    IZR a * 100 - 50 <= pt_x start < IZR a * 100 + 50
    /\ IZR b * 100 - 50 <= pt_y start < IZR b * 100 + 50
    /\ IZR c * 100 - 50 <= pt_x p < IZR c * 100 + 50
    /\ IZR d * 100 - 50 <= pt_y p < IZR d * 100 + 50
    /\ finishRectangle p w = Ok w'
    /\ ((Z.abs (c - a) < 2 \/ Z.abs (d - b) < 2)%Z ->
        state w' = state w
        /\ events w' = (events w ++ [OnError too_small_message; OnPreviewUpdate None])%list
        /\ gesture (this w') = mkGesture false false false None None None None [] None [] None
        /\ selection (this w') = selection (this w))
    /\ ((2 <= Z.abs (c - a) /\ 2 <= Z.abs (d - b))%Z ->
        exists zone z',
          nth_error (zones (state w)) slot = Some zone
          /\ Zone.enabled zone = false
          /\ nth_error (zones (state w')) slot = Some z'
          /\ Zone.enabled z' = true
          /\ Zone.shapeType z' = rectangle
          /\ Zone.x1 z' = IZR (Z.min a c) * 100 /\ Zone.y1 z' = IZR (Z.min b d) * 100
          /\ Zone.x2 z' = IZR (Z.max a c) * 100 /\ Zone.y2 z' = IZR (Z.max b d) * 100
          /\ Zone.vertices z' = None
          /\ Zone.zoneType z'
             = Some (match Zone.zoneType zone with Some ty => ty | None => detection end)
          /\ (forall j, j <> slot ->
              nth_error (zones (state w')) j = nth_error (zones (state w)) j)
          /\ mode (this w') = select
          /\ events w'
             = (events w ++ [OnPreviewUpdate None; OnPreviewUpdate None; OnModeChange select;
                             OnZoneCreated slot z'])%list).
Proof.
  intros Hs Hslot.
  destruct (snap100_index (pt_x start)) as [a [Ea Ba]].
  destruct (snap100_index (pt_y start)) as [b [Eb Bb]].
  destruct (snap100_index (pt_x p)) as [c [Ec Bc]].
  destruct (snap100_index (pt_y p)) as [d [Ed Bd]].
  exists a, b, c, d.
  assert (Dx : Rabs (snap 100 (pt_x p) - snap 100 (pt_x start)) = IZR (Z.abs (c - a)) * 100).
  { rewrite Ea, Ec, abs_IZR, minus_IZR.
    replace (IZR c * 100 - IZR a * 100) with ((IZR c - IZR a) * 100) by ring.
    rewrite Rabs_mult, (Rabs_right 100) by lra. reflexivity. }
  assert (Dy : Rabs (snap 100 (pt_y p) - snap 100 (pt_y start)) = IZR (Z.abs (d - b)) * 100).
  { rewrite Eb, Ed, abs_IZR, minus_IZR.
    replace (IZR d * 100 - IZR b * 100) with ((IZR d - IZR b) * 100) by ring.
    rewrite Rabs_mult, (Rabs_right 100) by lra. reflexivity. }
  destruct (scanSlots_found _ _ _ _ Hslot) as [zone [Hz Hfree]].
  destruct (Z_lt_dec (Z.abs (c - a)) 2) as [Hx | Hx];
    [| destruct (Z_lt_dec (Z.abs (d - b)) 2) as [Hy | Hy]].
  - eexists. do 4 (split; [assumption |]).
    split; [apply (finishRectangle_rejects w start p slot Hs Hslot); left;
            rewrite Dx; apply IZR_lt in Hx; lra |].
    split; [intros _; cbn; repeat split; rewrite <- app_assoc; reflexivity |].
    intros [H _]. lia.
  - eexists. do 4 (split; [assumption |]).
    split; [apply (finishRectangle_rejects w start p slot Hs Hslot); right;
            rewrite Dy; apply IZR_lt in Hy; lra |].
    split; [intros _; cbn; repeat split; rewrite <- app_assoc; reflexivity |].
    intros [_ H]. lia.
  - assert (Hx' : 200 <= Rabs (snap 100 (pt_x p) - snap 100 (pt_x start))).
    { rewrite Dx. assert (H : (2 <= Z.abs (c - a))%Z) by lia. apply IZR_le in H. lra. }
    assert (Hy' : 200 <= Rabs (snap 100 (pt_y p) - snap 100 (pt_y start))).
    { rewrite Dy. assert (H : (2 <= Z.abs (d - b))%Z) by lia. apply IZR_le in H. lra. }
    eexists. do 4 (split; [assumption |]).
    split; [apply (finishRectangle_commits w start p slot zone Hs Hslot Hz Hx' Hy') |].
    split; [intros [H | H]; lia |]. intros _.
    exists zone, (committed_rectangle start p zone).
    cbn [state zones emit setMode set_mode updateCursor resetDrawingState set_selectedZoneIndex
         set_zones with_this with_state this mode events].
    assert (Hlt : (slot < List.length (zones (state w)))%nat)
      by (apply nth_error_Some; rewrite Hz; discriminate).
    assert (Mn : forall u v : Z, Rmin (IZR u * 100) (IZR v * 100) = IZR (Z.min u v) * 100).
    { intros u v. destruct (Z_le_gt_dec u v) as [L | L].
      - rewrite Z.min_l by lia. apply Rmin_left. apply IZR_le in L. lra.
      - rewrite Z.min_r by lia. apply Rmin_right.
        assert (L' : (v <= u)%Z) by lia. apply IZR_le in L'. lra. }
    assert (Mx : forall u v : Z, Rmax (IZR u * 100) (IZR v * 100) = IZR (Z.max u v) * 100).
    { intros u v. destruct (Z_le_gt_dec u v) as [L | L].
      - rewrite Z.max_r by lia. apply Rmax_right. apply IZR_le in L. lra.
      - rewrite Z.max_l by lia. apply Rmax_left.
        assert (L' : (v <= u)%Z) by lia. apply IZR_le in L'. lra. }
    split; [assumption |]. split; [assumption |].
    split; [apply nth_error_store_same; assumption |].
    unfold committed_rectangle.
    cbn [Zone.enabled Zone.shapeType Zone.x1 Zone.x2 Zone.y1 Zone.y2 Zone.vertices Zone.zoneType].
    rewrite Ea, Eb, Ec, Ed, !Mn, !Mx.
    split; [reflexivity |]. split; [reflexivity |].
    do 4 (split; [reflexivity |]). split; [reflexivity |].
    split; [destruct (Zone.zoneType zone); reflexivity |].
    split; [intros j Hj; apply nth_error_store_other; congruence |].
    split; [reflexivity |].
    cbn. rewrite <- !app_assoc. reflexivity.
Qed.

(** From (0,0): a release at (50,50) is rejected, one at (300,300) is
    committed, and one at (160,-340), 160mm wide before the snap, is
    committed as the box (0,-300)-(200,0). *)
Lemma finishRectangle_snaps_then_checks_witness :
  let w := Sample.world draw_rectangle Sample.drawingFromOrigin Sample.noSelection
                        Sample.fiveFree in
  startPoint (ges w) = Some (mkPoint 0 0)
  /\ getNextAvailableZoneSlot w = Ok (Some 0%nat)
  /\ (exists w', finishRectangle (mkPoint 50 50) w = Ok w'
                 /\ state w' = state w
                 /\ events w' = [OnError too_small_message; OnPreviewUpdate None])
  /\ (exists w', finishRectangle (mkPoint 300 300) w = Ok w'
                 /\ nth_error (zones (state w')) 0
                    = Some (Zone.mk true rectangle 0 0 300 300 None (Some detection)))
  /\ (exists w', finishRectangle (mkPoint 160 (-340)) w = Ok w'
                 /\ nth_error (zones (state w')) 0
                    = Some (Zone.mk true rectangle 0 (-300) 200 0 None (Some detection))).
Proof.
  cbv zeta.
  set (w := Sample.world draw_rectangle Sample.drawingFromOrigin Sample.noSelection
                         Sample.fiveFree).
  assert (Hs : startPoint (ges w) = Some (mkPoint 0 0)) by reflexivity.
  assert (Hslot : getNextAvailableZoneSlot w = Ok (Some 0%nat)) by reflexivity.
  split; [exact Hs | split; [exact Hslot | split; [| split]]].
  - destruct (finishRectangle_snaps_then_checks w (mkPoint 0 0) (mkPoint 50 50) 0 Hs Hslot)
      as [a [b [c [d [w' [Ba [Bb [Bc [Bd [Hrun [Hrej _]]]]]]]]]]].
    cbn [pt_x pt_y] in Ba, Bc.
    assert (Ea : a = 0%Z) by (apply (grid_index_unique a 0 0 Ba); lra).
    assert (Ec : c = 1%Z) by (apply (grid_index_unique c 1 50 Bc); lra).
    exists w'. split; [exact Hrun |].
    destruct Hrej as [Hst [Hev _]]; [left; subst a c; reflexivity |].
    split; [exact Hst | exact Hev].
  - destruct (finishRectangle_snaps_then_checks w (mkPoint 0 0) (mkPoint 300 300) 0 Hs Hslot)
      as [a [b [c [d [w' [Ba [Bb [Bc [Bd [Hrun [_ Hacc]]]]]]]]]]].
    cbn [pt_x pt_y] in Ba, Bb, Bc, Bd.
    assert (Ea : a = 0%Z) by (apply (grid_index_unique a 0 0 Ba); lra).
    assert (Eb : b = 0%Z) by (apply (grid_index_unique b 0 0 Bb); lra).
    assert (Ec : c = 3%Z) by (apply (grid_index_unique c 3 300 Bc); lra).
    assert (Ed : d = 3%Z) by (apply (grid_index_unique d 3 300 Bd); lra).
    subst a b c d.
    exists w'. split; [exact Hrun |].
    destruct Hacc as [zone [z' [Hz [_ [Hnew [H1 [H2 [H3 [H4 [H5 [H6 [H7 [H8 _]]]]]]]]]]]]];
      [split; cbn; lia |].
    rewrite Hnew. f_equal. injection Hz as <-.
    destruct z' as [en sh x1 y1 x2 y2 vs zt]. cbn in H1, H2, H3, H4, H5, H6, H7, H8.
    subst. f_equal; lra.
  - destruct (finishRectangle_snaps_then_checks w (mkPoint 0 0) (mkPoint 160 (-340)) 0 Hs Hslot)
      as [a [b [c [d [w' [Ba [Bb [Bc [Bd [Hrun [_ Hacc]]]]]]]]]]].
    cbn [pt_x pt_y] in Ba, Bb, Bc, Bd.
    assert (Ea : a = 0%Z) by (apply (grid_index_unique a 0 0 Ba); lra).
    assert (Eb : b = 0%Z) by (apply (grid_index_unique b 0 0 Bb); lra).
    assert (Ec : c = 2%Z) by (apply (grid_index_unique c 2 160 Bc); lra).
    assert (Ed : d = (-3)%Z) by (apply (grid_index_unique d (-3) (-340) Bd); lra).
    subst a b c d.
    exists w'. split; [exact Hrun |].
    destruct Hacc as [zone [z' [Hz [_ [Hnew [H1 [H2 [H3 [H4 [H5 [H6 [H7 [H8 _]]]]]]]]]]]]];
      [split; cbn; lia |].
    rewrite Hnew. f_equal. injection Hz as <-.
    destruct z' as [en sh x1 y1 x2 y2 vs zt]. cbn in H1, H2, H3, H4, H5, H6, H7, H8.
    subst. f_equal; lra.
Defined.

End DrawFacts.

(** ** Bounding boxes on write *)

Module BoxFacts.
Import Assign DrawingManager Observe JsMath JsMathFacts RegistryFacts.

Lemma Rmin_le_Rmax a b : Rmin a b <= Rmax a b.
Proof.
  apply Rle_trans with a; [apply Rmin_l | apply Rmax_l].
Qed.


Lemma fold_min_le vs : forall v, fold_left Rmin vs v <= v.
Proof.
  induction vs as [| v0 vs IH]; intros v; cbn; [lra |].
  apply Rle_trans with (Rmin v v0); [apply IH | apply Rmin_l].
Qed.

Lemma fold_max_ge vs : forall v, v <= fold_left Rmax vs v.
Proof.
  induction vs as [| v0 vs IH]; intros v; cbn; [lra |].
  apply Rle_trans with (Rmax v v0); [apply Rmax_l | apply IH].
Qed.

Lemma minOf_le_maxOf vs : minOf vs <= maxOf vs.
Proof.
  destruct vs as [| v vs]; cbn; [lra |].
  apply Rle_trans with v; [apply fold_min_le | apply fold_max_ge].
Qed.

Lemma item_at_length {A} (a : list A) i v :
  item_at a i = Some v -> exists k, i = Some k /\ (k < List.length a)%nat.
Proof.
  destruct i as [k |]; cbn; [| discriminate]. intros H. exists k. split; [reflexivity |].
  apply nth_error_Some. rewrite H. discriminate.
Qed.

Lemma Forall_put_at {A} (P : A -> Prop) (a : list A) i v :
  Forall P a -> P v -> Forall P (put_at a i v).
Proof.
  intros H Hv. destruct i; cbn; [apply Forall_store |]; assumption.
Qed.

(** The state after the mode switch that ends a creation. *)
Lemma state_setMode m w : state (setMode m w) = state w.
Proof. unfold setMode, updateCursor. cbn. destruct m; reflexivity. Qed.

Lemma finishRectangle_normalized p w w' :
  registry_normalized (state w) -> finishRectangle p w = Ok w' ->
  registry_normalized (state w').
Proof.
  intros [Hz He] H. unfold finishRectangle in H.
  destruct (getNextAvailableZoneSlot w) as [[slot |] |]; cbn [bind] in H;
    [| injection H as <-; split; assumption | discriminate].
  destruct (startPoint (ges w)) as [start |]; cbn [bind deref] in H; [| discriminate].
  destruct (_ || _).
  - injection H as <-. split; assumption.
  - destruct (nth_error (zones (state w)) slot) as [zone |]; cbn [bind deref] in H;
      [| discriminate].
    injection H as <-. cbn [state emit]. rewrite state_setMode. cbn. split; [| assumption].
    apply Forall_store; [assumption |]. intros _. split; apply Rmin_le_Rmax.
Qed.

Lemma finishPolygon_normalized w w' :
  registry_normalized (state w) -> finishPolygon w = Ok w' ->
  registry_normalized (state w').
Proof.
  intros [Hz He] H. unfold finishPolygon in H.
  destruct (getNextAvailableZoneSlot w) as [[slot |] |]; cbn [bind] in H;
    [| injection H as <-; split; assumption | discriminate].
  destruct (_ <? _)%nat.
  - injection H as <-. split; assumption.
  - destruct (nth_error (zones (state w)) slot) as [zone |]; cbn [bind deref] in H;
      [| discriminate].
    injection H as <-. cbn [state emit]. rewrite state_setMode. cbn. split; [| assumption].
    apply Forall_store; [assumption |]. intros _. split; apply minOf_le_maxOf.
Qed.

Lemma completeEdgeDrawing_normalized now w :
  registry_normalized (state w) ->
  registry_normalized (state (completeEdgeDrawing now w)).
Proof.
  intros [Hz He]. unfold completeEdgeDrawing.
  destruct (startPoint (ges w)) as [start |]; [| split; assumption].
  destruct (currentPoint (ges w)) as [current |]; [| split; assumption].
  destruct (_ || _).
  - split; assumption.
  - cbn [state emit]. rewrite state_setMode. cbn. split; [assumption |].
    apply Forall_app. split; [assumption |]. constructor; [| constructor].
    split; apply Rmin_le_Rmax.
Qed.

Lemma moveZone_normalized p w w' :
  registry_normalized (state w) -> moveZone p w = Ok w' ->
  registry_normalized (state w').
Proof.
  intros [Hz He] H. unfold moveZone, getZoneCorners in H.
  destruct (item_at (zones (state w)) (selectedZoneIndex (sel w))) as [z |];
    cbn [bind deref r_x1 r_x2 r_y1 r_y2] in H; [| discriminate].
  pose proof (Rmin_le_Rmax (Zone.x1 z) (Zone.x2 z)) as Hw.
  pose proof (Rmin_le_Rmax (Zone.y1 z) (Zone.y2 z)) as Hh.
  set (a := Rmin (Zone.x1 z) (Zone.x2 z)) in *. set (b := Rmax (Zone.x1 z) (Zone.x2 z)) in *.
  set (c := Rmin (Zone.y1 z) (Zone.y2 z)) in *. set (d := Rmax (Zone.y1 z) (Zone.y2 z)) in *.
  set (cx := pt_x p - pt_x (dragOffset (this w))) in *.
  set (cy := pt_y p - pt_y (dragOffset (this w))) in *.
  unfold ltb in H.
  destruct (Rlt_dec (cx - (b - a) / 2) (-3000));
  destruct (Rlt_dec _ _) in H; destruct (Rlt_dec _ _) in H; destruct (Rlt_dec _ _) in H.
  all: injection H as <-; cbn; split; [| assumption].
  all: apply Forall_put_at; [assumption |]; intros _; split; cbn;
    apply snap_mono; lra.
Qed.

Lemma moveZoneToPosition_normalized p w :
  registry_normalized (state w) ->
  registry_normalized (state (moveZoneToPosition p w)).
Proof.
  intros [Hz He]. unfold moveZoneToPosition.
  destruct (item_at (zones (state w)) (movingItemIndex (ges w))) as [z |];
    [| split; assumption].
  destruct (Zone.enabled z); cbn [negb]; [| split; assumption].
  cbn. split; [| assumption].
  apply Forall_put_at; [assumption |]. intros _. split; cbn.
  - pose proof (Rabs_pos (Zone.x2 z - Zone.x1 z)). lra.
  - pose proof (Rabs_pos (Zone.y2 z - Zone.y1 z)). lra.
Qed.

Lemma moveEdge_normalized p w w' :
  registry_normalized (state w) -> moveEdge p w = Ok w' ->
  registry_normalized (state w').
Proof.
  intros [Hz He] H. unfold moveEdge in H.
  destruct (item_at (edges (state w)) (selectedEdgeIndex (sel w))) as [ed |].
  - injection H as <-. cbn. split; [assumption |].
    apply Forall_put_at; [assumption |]. split; cbn.
    + pose proof (Rabs_pos (Edge.x2 ed - Edge.x1 ed)). lra.
    + pose proof (Rabs_pos (Edge.y2 ed - Edge.y1 ed)). lra.
  - injection H as <-. split; assumption.
Qed.

(** Values of the snap used below. *)
Lemma snap100_2000 : snap 100 2000 = 2000.
Proof. rewrite (snap_eq 100 2000 20); lra. Qed.

Lemma snap100_500 : snap 100 500 = 500.
Proof. rewrite (snap_eq 100 500 5); lra. Qed.

(** C4. A handle resize does not keep the box normalized: dragging the
    west handle of the zone (0,0)-(1000,1000) to x = 2000, past its east
    side, stores x1 = 2000 next to x2 = 1000, although the registry was
    normalized before and every other writer of a box stores min and
    max. *)
Lemma resize_past_opposite_side :
  let w := Sample.world select (Sample.resizing Sample.westHandle) Sample.zoneSelected
                        Sample.oneZone in
  registry_normalized (state w)
  /\ exists w', resizeZone (mkPoint 2000 500) w = Ok w'
                /\ nth_error (zones (state w')) 0
                   = Some (Zone.mk true rectangle 2000 0 1000 1000 None (Some detection))
                /\ ~ registry_normalized (state w').
Proof.
  cbv zeta. split.
  - split; cbn; repeat constructor; cbn; intros; try discriminate; lra.
  - eexists. split; [reflexivity |].
    cbn [state zones emit set_zones with_state put_at store Sample.world Sample.oneZone
         item_at nth_error sel selection this Sample.manager Sample.zoneSelected
         selectedZoneIndex pt_x pt_y zone_setX zone_with_box Sample.square
         Zone.enabled Zone.shapeType Zone.x1 Zone.x2 Zone.y1 Zone.y2 Zone.vertices
         Zone.zoneType].
    rewrite snap100_2000. rewrite (Rmin_right 3000 2000), (Rmax_right (-3000) 2000) by lra.
    split; [reflexivity |].
    intros [Hz _]. inversion Hz as [| z zs H0 _]; subst.
    destruct (H0 eq_refl) as [Hx _]. cbn in Hx. lra.
Qed.

(** The other writers of a box, the three creations (rectangle, polygon,
    edge) and the three moves (zone drag, zone move mode, edge drag), store
    normalized boxes: if every enabled zone and every edge has x1 <= x2 and
    y1 <= y2 before such an operation, the same holds after it. *)
Lemma creations_and_moves_keep_normalized (op : BoxWrite) (w w' : World) :
  registry_normalized (state w) -> run op w = Ok w' ->
  registry_normalized (state w').
Proof.
  intros Hn H. destruct op as [p | | now | p | p | p]; cbn [run] in H.
  - exact (finishRectangle_normalized p w w' Hn H).
  - exact (finishPolygon_normalized w w' Hn H).
  - injection H as <-. apply completeEdgeDrawing_normalized. exact Hn.
  - exact (moveZone_normalized p w w' Hn H).
  - injection H as <-. apply moveZoneToPosition_normalized. exact Hn.
  - exact (moveEdge_normalized p w w' Hn H).
Qed.

Lemma creations_and_moves_keep_normalized_witness :
  let w := Sample.world draw_polygon Sample.drawingTriangle Sample.noSelection
                        Sample.fiveFree in
  registry_normalized (state w)
  /\ exists w', run CreatePolygon w = Ok w' /\ registry_normalized (state w').
Proof.
  cbv zeta.
  set (w := Sample.world draw_polygon Sample.drawingTriangle Sample.noSelection
                         Sample.fiveFree).
  assert (Hn : registry_normalized (state w)).
  { split; cbn; repeat constructor; cbn; intros; discriminate. }
  split; [exact Hn |].
  eexists. split; [reflexivity |].
  exact (creations_and_moves_keep_normalized CreatePolygon w _ Hn eq_refl).
Defined.








End BoxFacts.

(** ** Placing furniture and entrances *)

Module PlacementFacts.
Import Assign DrawingManager Observe JsMath JsMathFacts.

Lemma snap100_140 : snap 100 140 = 100.
Proof. rewrite (snap_eq 100 140 1); lra. Qed.

Lemma snap50_140 : snap 50 140 = 150.
Proof. rewrite (snap_eq 50 140 3); lra. Qed.

(** C8, as stated, fails: an entrance placed with the pointer at x = 140
    is stored at x = 100, while the nearest multiple of 50 is 150. *)
Lemma placement_misses_50mm_grid :
  let w := Sample.world place_entrance Sample.idle Sample.noSelection Sample.fiveFree in
  exists en,
    entrances (state (handleEntrancePlacement 1 (mkPoint 140 260) w)) = [en]
    /\ Entrance.x en = 100
    /\ Entrance.x en <> snap 50 140.
Proof.
  cbv zeta. eexists. split; [reflexivity |]. cbn. rewrite snap100_140, snap50_140.
  split; [reflexivity | lra].
Qed.

(** The snap returns a multiple of the grid. *)
Lemma snap_multiple g v : exists k : Z, snap g v = IZR k * g.
Proof. exists (round (v / g)). reflexivity. Qed.

(** C8, amended. Committing an entrance placement, or a furniture
    placement while a furniture type is chosen, appends a shape whose x
    and y are the sensor-space pointer coordinates rounded to the nearest
    multiple of 100mm: a multiple of 100 that lies within 50 of the
    coordinate. *)
Theorem placement_snaps_to_100mm (now : Z) (p : Point) (w : World) :
  (exists en,
      entrances (state (handleEntrancePlacement now p w)) = (entrances (state w) ++ [en])%list
      /\ Entrance.x en = snap 100 (pt_x p) /\ Entrance.y en = snap 100 (pt_y p))
  /\ (forall type, placingFurniture (state w) = Some type -> falsy (Some type) = false ->
      exists f,
        furniture (state (handleFurniturePlacement now p w))
        = (furniture (state w) ++ [f])%list
        /\ Furniture.x f = snap 100 (pt_x p) /\ Furniture.y f = snap 100 (pt_y p))
  /\ (forall v, Rabs (snap 100 v - v) <= 50 /\ exists k : Z, snap 100 v = IZR k * 100).
Proof.
  split; [| split].
  - eexists. unfold handleEntrancePlacement, setMode, updateCursor.
    split; [cbn; reflexivity | split; reflexivity].
  - intros type Ht Hf. unfold handleFurniturePlacement. rewrite Ht, Hf.
    eexists. split; [reflexivity | split; reflexivity].
  - intros v. split; [| apply snap_multiple].
    pose proof (snap_nearest 100 v) as H. lra.
Qed.

Lemma placement_snaps_to_100mm_witness :
  let w := Sample.world place_furniture Sample.idle Sample.noSelection Sample.placingSofa in
  placingFurniture (state w) = Some "sofa"%string
  /\ falsy (Some "sofa"%string) = false
  /\ exists f,
       furniture (state (handleFurniturePlacement 1 (mkPoint 140 260) w)) = [f]
       /\ Furniture.x f = snap 100 140 /\ Furniture.y f = snap 100 260.
Proof.
  cbv zeta.
  set (w := Sample.world place_furniture Sample.idle Sample.noSelection Sample.placingSofa).
  assert (Ht : placingFurniture (state w) = Some "sofa"%string) by reflexivity.
  assert (Hf : falsy (Some "sofa"%string) = false) by reflexivity.
  split; [exact Ht | split; [exact Hf |]].
  destruct (placement_snaps_to_100mm 1 (mkPoint 140 260) w) as [_ [H _]].
  exact (H "sofa"%string Ht Hf).
Defined.

End PlacementFacts.

(** ** Selection, deletion and stale indices *)

Module SelectionFacts.
Import Assign DrawingManager Observe JsMath JsMathFacts.

(** What [clearOtherSelections] leaves of the selection. *)
Lemma sel_clearOtherSelections keep w :
  sel (clearOtherSelections keep w)
  = match keep with
    | Some item_zone => mkSelection (selectedZoneIndex (sel w)) None None None
    | Some item_furniture => mkSelection None (selectedFurnitureIndex (sel w)) None None
    | Some item_entrance => mkSelection None None (selectedEntranceIndex (sel w)) None
    | Some item_edge => mkSelection None None None (selectedEdgeIndex (sel w))
    | None => mkSelection None None None None
    end.
Proof.
  destruct w as [[m g [[a |] [b |] [c |] [d |]] off org rc de cu] st can evs];
    destruct keep as [[| | |] |]; reflexivity.
Qed.

Lemma sel_set_selectedZoneIndex v w :
  sel (set_selectedZoneIndex v w)
  = mkSelection v (selectedFurnitureIndex (sel w)) (selectedEntranceIndex (sel w))
                (selectedEdgeIndex (sel w)).
Proof. reflexivity. Qed.

Lemma sel_set_selectedFurnitureIndex v w :
  sel (set_selectedFurnitureIndex v w)
  = mkSelection (selectedZoneIndex (sel w)) v (selectedEntranceIndex (sel w))
                (selectedEdgeIndex (sel w)).
Proof. reflexivity. Qed.

Lemma sel_set_selectedEntranceIndex v w :
  sel (set_selectedEntranceIndex v w)
  = mkSelection (selectedZoneIndex (sel w)) (selectedFurnitureIndex (sel w)) v
                (selectedEdgeIndex (sel w)).
Proof. reflexivity. Qed.

Lemma sel_set_selectedEdgeIndex v w :
  sel (set_selectedEdgeIndex v w)
  = mkSelection (selectedZoneIndex (sel w)) (selectedFurnitureIndex (sel w))
                (selectedEntranceIndex (sel w)) v.
Proof. reflexivity. Qed.

Lemma sel_emit ev w : sel (emit ev w) = sel w.
Proof. reflexivity. Qed.

(** A pointer-down that reaches the search loops ends with at most one
    selection, whatever was selected before. *)
Lemma selectDown_pick_single p w w' :
  selectDown_pick p w = Ok w' -> at_most_one_selected (sel w').
Proof.
  destruct w as [[m g [a b c d] off org rc de cu] st can evs].
  unfold selectDown_pick. intros H.
  destruct (findLast _ (entrances (state _)) 0) as [[[i en] |] |]; cbn [bind] in H;
    [injection H as <-; destruct a, b, c, d; cbv; lia | | discriminate].
  destruct (findLast _ (furniture (state _)) 0) as [[[i f] |] |]; cbn [bind] in H;
    [injection H as <-; destruct a, b, c, d; cbv; lia | | discriminate].
  destruct (findFirst _ (zones (state _)) 0) as [[[i z] |] |]; cbn [bind] in H;
    [injection H as <-; destruct a, b, c, d; cbv; lia | | discriminate].
  destruct (findLast _ (edges (state _)) 0) as [[[i ed] |] |]; cbn [bind] in H;
    [injection H as <-; destruct a, b, c, d; cbv; lia | | discriminate].
  injection H as <-. destruct a, b, c, d; cbv; lia.
Qed.

(** The blocks of [handleSelectMouseDown] that start a drag or a resize
    leave the selection as it was. *)
Lemma selectDown_furniture_sel c p w w' :
  selectDown_furniture c p w = Ok (Some w') -> sel w' = sel w.
Proof.
  unfold selectDown_furniture. intros H.
  destruct (selectedFurnitureIndex (sel w)); [| discriminate].
  destruct (getFurnitureHandleAtPoint _ _ _ _); [injection H as <-; reflexivity |].
  destruct (isPointInFurniture _ _ _) as [[|] |]; cbn [bind] in H; try discriminate.
  destruct (item_at _ _); cbn [bind deref] in H; [| discriminate].
  injection H as <-. reflexivity.
Qed.

Lemma selectDown_zone_sel c p w w' :
  selectDown_zone c p w = Ok (Some w') -> sel w' = sel w.
Proof.
  unfold selectDown_zone. intros H.
  destruct (selectedZoneIndex (sel w)); [| discriminate].
  destruct (getHandleAtPoint _ _ _ _ _) as [[h |] |]; cbn [bind] in H;
    [injection H as <-; reflexivity | | discriminate].
  destruct (item_at _ _) as [z |] eqn:Ez; cbn [bind deref] in H; [| discriminate].
  destruct (if Zone.enabled z then _ else _) as [[|] |]; cbn [bind] in H; try discriminate.
  unfold getZoneCorners in H. cbn [bind deref] in H.
  injection H as <-. reflexivity.
Qed.

Lemma selectDown_entrance_sel p w w' :
  selectDown_entrance p w = Ok (Some w') -> sel w' = sel w.
Proof.
  unfold selectDown_entrance. intros H.
  destruct (selectedEntranceIndex (sel w)); [| discriminate].
  destruct (and_then _ _) as [[|] |]; cbn [bind] in H; try discriminate.
  destruct (item_at _ _); cbn [bind deref] in H; [| discriminate].
  injection H as <-. reflexivity.
Qed.

Lemma selectDown_edge_sel c p w w' :
  selectDown_edge c p w = Ok (Some w') -> sel w' = sel w.
Proof.
  unfold selectDown_edge. intros H.
  destruct (selectedEdgeIndex (sel w)); [| discriminate].
  destruct (getEdgeHandleAtPoint _ _ _ _); [injection H as <-; reflexivity |].
  destruct (and_then _ _) as [[|] |]; cbn [bind] in H; try discriminate.
  destruct (item_at _ _); cbn [bind deref] in H; [| discriminate].
  injection H as <-. reflexivity.
Qed.

(** The pointer-down part of C10 holds: a pointer-down in select mode
    that returns keeps the number of selected shapes at most one. *)
Lemma handleSelectMouseDown_single c p w w' :
  at_most_one_selected (sel w) ->
  handleSelectMouseDown c p w = Ok w' -> at_most_one_selected (sel w').
Proof.
  intros H1 H. unfold handleSelectMouseDown, or_else in H.
  destruct (selectDown_furniture c p w) as [[w1 |] |] eqn:E1; cbn [bind] in H;
    [injection H as <-; rewrite (selectDown_furniture_sel _ _ _ _ E1); exact H1 | | discriminate].
  destruct (selectDown_zone c p w) as [[w2 |] |] eqn:E2; cbn [bind] in H;
    [injection H as <-; rewrite (selectDown_zone_sel _ _ _ _ E2); exact H1 | | discriminate].
  destruct (selectDown_entrance p w) as [[w3 |] |] eqn:E3; cbn [bind] in H;
    [injection H as <-; rewrite (selectDown_entrance_sel _ _ _ E3); exact H1 | | discriminate].
  destruct (selectDown_edge c p w) as [[w4 |] |] eqn:E4; cbn [bind] in H;
    [injection H as <-; rewrite (selectDown_edge_sel _ _ _ _ E4); exact H1 | | discriminate].
  exact (selectDown_pick_single p w w' H).
Qed.

(** C10 fails on the commit of a draw gesture. The sofa is selected, the
    user switches to rectangle drawing (which keeps the selection) and
    draws from (0,0) to (300,300): the commit selects the new zone in slot
    0 without clearing the furniture selection, so two selection indices
    are non-null afterwards. *)
Theorem rectangle_commit_keeps_other_selection :
  let w := Sample.world draw_rectangle Sample.drawingFromOrigin Sample.furnitureSelected
                        Sample.oneSofa in
  at_most_one_selected (sel w)
  /\ exists w', finishRectangle (mkPoint 300 300) w = Ok w'
                /\ sel w' = mkSelection (Some 0%nat) (Some 0%nat) None None
                /\ ~ at_most_one_selected (sel w').
Proof.
  cbv zeta. split; [cbv; lia |].
  eexists. split.
  - apply (DrawFacts.finishRectangle_commits _ (mkPoint 0 0) (mkPoint 300 300) 0
             Sample.emptySlot); try reflexivity;
      cbn [pt_x pt_y]; rewrite DrawFacts.snap100_300, DrawFacts.snap100_0;
      rewrite Rabs_right; lra.
  - split; [reflexivity |]. cbv. lia.
Qed.

(** C9 fails for a selected edge. With one edge in the list and selected,
    pressing Delete or Backspace in select mode changes nothing: the key
    handler has no case for edges, although [deleteSelectedEdge] would
    splice the edge out and clear the index. *)
Theorem delete_key_skips_selected_edge :
  let w := Sample.world select Sample.idle Sample.edgeSelected Sample.oneWall in
  handleKeyDown "Delete" w = Ok w
  /\ handleKeyDown "Backspace" w = Ok w
  /\ edges (state (deleteSelectedEdge w)) = []
  /\ selectedEdgeIndex (sel (deleteSelectedEdge w)) = None.
Proof. cbv zeta. repeat split; reflexivity. Qed.

(** The other three cases of the key: the selected entrance or furniture
    is spliced out, the selected zone is disabled in its slot, and the
    index is cleared. *)
Lemma delete_key_removes_entrance key w i :
  key = "Delete"%string \/ key = "Backspace"%string ->
  mode (this w) = select -> selectedEntranceIndex (sel w) = Some i ->
  exists w', handleKeyDown key w = Ok w'
             /\ entrances (state w') = splice1 i (entrances (state w))
             /\ selectedEntranceIndex (sel w') = None.
Proof.
  intros Hk Hm Hs. unfold handleKeyDown.
  destruct w as [[m g [a b c d] off org rc de cu] st can evs].
  cbn in Hm, Hs. subst m c. destruct a, b.
  all: destruct Hk as [-> | ->]; cbn; eexists; (split; [reflexivity |]); cbn; auto.
Qed.

Lemma delete_key_removes_furniture key w i :
  key = "Delete"%string \/ key = "Backspace"%string ->
  mode (this w) = select ->
  selectedEntranceIndex (sel w) = None -> selectedFurnitureIndex (sel w) = Some i ->
  exists w', handleKeyDown key w = Ok w'
             /\ furniture (state w') = splice1 i (furniture (state w))
             /\ selectedFurnitureIndex (sel w') = None.
Proof.
  intros Hk Hm He Hs. unfold handleKeyDown.
  destruct w as [[m g [a b c d] off org rc de cu] st can evs].
  cbn in Hm, He, Hs. subst m b c. destruct a.
  all: destruct Hk as [-> | ->]; cbn; eexists; (split; [reflexivity |]); cbn; auto.
Qed.

Lemma delete_key_disables_zone key w i zone :
  key = "Delete"%string \/ key = "Backspace"%string ->
  mode (this w) = select ->
  selectedEntranceIndex (sel w) = None -> selectedFurnitureIndex (sel w) = None ->
  selectedZoneIndex (sel w) = Some i -> nth_error (zones (state w)) i = Some zone ->
  exists w' zone', handleKeyDown key w = Ok w'
             /\ nth_error (zones (state w')) i = Some zone'
             /\ Zone.enabled zone' = false
             /\ List.length (zones (state w')) = List.length (zones (state w))
             /\ selectedZoneIndex (sel w') = None.
Proof.
  intros Hk Hm He Hf Hs Hz. unfold handleKeyDown.
  destruct w as [[m g [a b c d] off org rc de cu] st can evs].
  cbn in Hm, He, Hf, Hs, Hz. subst m a b c.
  assert (Hlt : (i < List.length (zones st))%nat)
    by (apply nth_error_Some; rewrite Hz; discriminate).
  assert (Hlen : forall (v : Zone.t) l k, List.length (store k v l) = List.length l).
  { intros v l. induction l as [| a l IH]; intros [| k]; cbn; auto. }
  destruct Hk as [-> | ->]; cbn; unfold deleteSelectedZone; cbn; rewrite Hz; cbn;
    eexists; eexists; (split; [reflexivity |]); cbn;
    (split; [apply RegistryFacts.nth_error_store_same; exact Hlt |]);
    (split; [reflexivity |]); (split; [apply Hlen | reflexivity]).
Qed.

(** C7 fails for a stale furniture index. The furniture list is empty
    while [selectedFurnitureIndex] is still 0: a pointer-down in select
    mode, a hover, a drag-move and a resize all throw, wherever the
    pointer is, because the furniture object is read without the test
    that guards the entrance and the edge in the same handlers (a stale
    entrance or edge index falls through, as the last two lines show). *)
Theorem stale_furniture_index_throws (canvasCoords sensorCoords : Point) :
  let w := Sample.world select Sample.idle Sample.furnitureSelected Sample.fiveFree in
  item_at (furniture (state w)) (selectedFurnitureIndex (sel w)) = None
  /\ handleSelectMouseDown canvasCoords sensorCoords w = TypeError
  /\ handleSelectMouseMove canvasCoords sensorCoords w = TypeError
  /\ moveFurniture sensorCoords w = TypeError
  /\ resizeFurniture sensorCoords w = TypeError
  /\ selectDown_entrance sensorCoords
       (Sample.world select Sample.idle (mkSelection None None (Some 0%nat) None)
                     Sample.fiveFree) = Ok None
  /\ selectDown_edge canvasCoords sensorCoords
       (Sample.world select Sample.idle Sample.edgeSelected Sample.fiveFree) = Ok None.
Proof. cbv zeta. repeat split; reflexivity. Qed.

End SelectionFacts.

(** ** Resizing by a handle *)

Module ResizeFacts.
Import Assign DrawingManager Observe JsMath JsMathFacts.

(** A zone resize writes the field or the two fields named by the handle
    and no other field of the zone. *)
Lemma resizeZone_writes_named_fields p w i zone h :
  selectedZoneIndex (sel w) = Some i ->
  nth_error (zones (state w)) i = Some zone ->
  selectedHandle (ges w) = Some h ->
  exists w', resizeZone p w = Ok w'
    /\ nth_error (zones (state w')) i
       = Some (let z1 := match updateX h with
                         | Some fld => zone_setX fld (storedX p) zone
                         | None => zone
                         end in
               match updateY h with
               | Some fld => zone_setY fld (storedY p) z1
               | None => z1
               end).
Proof.
  intros Hi Hz Hh. unfold resizeZone. rewrite Hh, Hi. cbn [item_at bind deref]. rewrite Hz.
  assert (Hlt : (i < List.length (zones (state w)))%nat)
    by (apply nth_error_Some; rewrite Hz; discriminate).
  destruct (updateX h) as [fx |], (updateY h) as [fy |]; cbn [write_through bind deref];
    eexists; (split; [reflexivity |]); cbn [state emit set_zones with_state zones put_at];
    try (apply RegistryFacts.nth_error_store_same; exact Hlt).
Qed.

(** Dragging the east handle of the zone (0,0)-(1000,1000) onto its west
    side stores a zone of width 0. *)
Lemma resize_below_minimum :
  let w := Sample.world select (Sample.resizing Sample.eastHandle) Sample.zoneSelected
                        Sample.oneZone in
  exists w', resizeZone (mkPoint 0 500) w = Ok w'
             /\ nth_error (zones (state w')) 0
                = Some (Zone.mk true rectangle 0 0 0 1000 None (Some detection)).
Proof.
  cbv zeta. eexists. split; [reflexivity |].
  cbn. rewrite DrawFacts.snap100_0.
  rewrite (Rmin_right 3000 0), (Rmax_right (-3000) 0) by lra. reflexivity.
Qed.

End ResizeFacts.

(** ** The canvas, further *)

Module CanvasExtras.
Import RadarCanvas Coords CoordsFacts Geometry.

(** One step of case analysis on the binary digits of the rotation. *)
Ltac crack_rotation :=
  match goal with
  | |- context [match ?p with xI _ => _ | xO _ => _ | xH => _ end] => destruct p
  end.

(** X1. The remap of live targets and its inverse undo one another, in both
    orders, for every value of [mapRotation]. *)
Theorem transformRoomToSensor_inverse (rc : RadarCanvas.t) (x y : R) :
  (let r := transformSensorToRoom rc x y in
   transformRoomToSensor rc (pt_x r) (pt_y r) = mkPoint x y)
  /\ (let s := transformRoomToSensor rc x y in
      transformSensorToRoom rc (pt_x s) (pt_y s) = mkPoint x y).
Proof.
  unfold transformSensorToRoom, transformRoomToSensor, Y_MAX.
  destruct (mapRotation rc) as [| p | p]; cbn [pt_x pt_y];
    [split; reflexivity | | split; reflexivity].
  split; repeat (cbn [pt_x pt_y]; try solve [f_equal; lra]; crack_rotation).
Qed.

Lemma toCanvasX_toSensorX rc c : scaleX rc <> 0 -> toCanvasX rc (toSensorX rc c) = c.
Proof. intros H. unfold toSensorX, toCanvasX. field. assumption. Qed.

Lemma toCanvasY_toSensorY rc c : scaleY rc <> 0 -> toCanvasY rc (toSensorY rc c) = c.
Proof. intros H. unfold toSensorY, toCanvasY. field. assumption. Qed.

(** X2. The round trip in the other order: a canvas pixel converted to
    sensor coordinates and back is the same pixel, for every rotation, on a
    canvas whose scale is not zero. *)
Theorem toCanvasCoords_toSensorCoords (rc : RadarCanvas.t) (canvasX canvasY : R) :
  scaleX rc <> 0 -> scaleY rc <> 0 ->
  let p := toSensorCoords rc canvasX canvasY in
  toCanvasCoords rc (pt_x p) (pt_y p) = mkPoint canvasX canvasY.
Proof.
  intros Hx Hy p. subst p. unfold toSensorCoords, toCanvasCoords. cbn [pt_x pt_y].
  rewrite toCanvasX_toSensorX, toCanvasY_toSensorY by assumption.
  set (a := IZR (mapRotation rc) * PI / 180).
  replace (- IZR (mapRotation rc) * PI / 180) with (- a) by (unfold a; field).
  rewrite cos_neg, sin_neg.
  assert (H : sin a * sin a + cos a * cos a = 1).
  { pose proof (sin2_cos2 a) as H. unfold Rsqr in H. exact H. }
  set (c := cos a) in *. set (s := sin a) in *.
  set (cx := width rc / 2). set (cy := height rc / 2).
  f_equal.
  - replace (cx + (cx + (canvasX - cx) * c - (canvasY - cy) * - s - cx) * c
             - (cy + (canvasX - cx) * - s + (canvasY - cy) * c - cy) * s)
      with (cx + (canvasX - cx) * (s * s + c * c)) by ring.
    rewrite H. ring.
  - replace (cy + (cx + (canvasX - cx) * c - (canvasY - cy) * - s - cx) * s
             + (cy + (canvasX - cx) * - s + (canvasY - cy) * c - cy) * c)
      with (cy + (canvasY - cy) * (s * s + c * c)) by ring.
    rewrite H. ring.
Qed.

Lemma toCanvasCoords_toSensorCoords_witness :
  scaleX (resize 600 270) <> 0 /\ scaleY (resize 600 270) <> 0
  /\ (let p := toSensorCoords (resize 600 270) 120 450 in
      toCanvasCoords (resize 600 270) (pt_x p) (pt_y p) = mkPoint 120 450).
Proof.
  assert (Hx : scaleX (resize 600 270) <> 0) by (apply (resize_scale 600 270); lra).
  assert (Hy : scaleY (resize 600 270) <> 0) by (apply (resize_scale 600 270); lra).
  split; [exact Hx | split; [exact Hy |]].
  exact (toCanvasCoords_toSensorCoords (resize 600 270) 120 450 Hx Hy).
Defined.

(** X3. Rotating the map from one of the four quarter turns gives one of
    the four quarter turns again, the canvas records that same value and
    keeps its size and scale, and four rotations in a row come back to the
    rotation one started from. *)
Theorem rotateMap_quarter_turns (r : Z) (rc : RadarCanvas.t) :
  In r [0; 90; 180; 270]%Z ->
  let step := fun st : Z * RadarCanvas.t => Host.rotateMap (fst st) (snd st) in
  In (fst (Host.rotateMap r rc)) [0; 90; 180; 270]%Z
  /\ mapRotation (snd (Host.rotateMap r rc)) = fst (Host.rotateMap r rc)
  /\ scaleX (snd (Host.rotateMap r rc)) = scaleX rc
  /\ scaleY (snd (Host.rotateMap r rc)) = scaleY rc
  /\ fst (step (step (step (step (r, rc))))) = r
  /\ mapRotation (snd (step (step (step (step (r, rc)))))) = r.
Proof.
  intros Hr step. subst step. cbn in Hr.
  destruct Hr as [<- | [<- | [<- | [<- | []]]]]; cbn; repeat split; auto.
Qed.

Lemma rotateMap_quarter_turns_witness :
  In 270%Z [0; 90; 180; 270]%Z
  /\ fst (Host.rotateMap 270 Sample.canvas) = 0%Z
  /\ mapRotation (snd (Host.rotateMap 270 Sample.canvas)) = 0%Z.
Proof.
  assert (H : In 270%Z [0; 90; 180; 270]%Z) by (cbn; auto).
  destruct (rotateMap_quarter_turns 270 Sample.canvas H) as [_ [H2 _]].
  split; [exact H | split; [reflexivity | exact H2]].
Defined.

Lemma toCanvasCoords_90 size x y :
  toCanvasCoords (resize size 90) x y
  = mkPoint (y * (size / 6000)) (size / 2 + x * (size / 6000)).
Proof.
  unfold toCanvasCoords, toCanvasX, toCanvasY, resize, X_MAX, X_MIN, Y_MAX, Y_MIN.
  cbn [width height centerX centerY scaleX scaleY mapRotation].
  rewrite angle_90, cos_PI2, sin_PI2. f_equal; field.
Qed.

Lemma toCanvasCoords_270 size x y :
  toCanvasCoords (resize size 270) x y
  = mkPoint (size - y * (size / 6000)) (size / 2 - x * (size / 6000)).
Proof.
  unfold toCanvasCoords, toCanvasX, toCanvasY, resize, X_MAX, X_MIN, Y_MAX, Y_MIN.
  cbn [width height centerX centerY scaleX scaleY mapRotation].
  rewrite angle_270, cos_3PI2, sin_3PI2. f_equal; field.
Qed.

Lemma toCanvasCoords_0_px size x y :
  toCanvasCoords (resize size 0) x y
  = mkPoint (size / 2 + x * (size / 6000)) (size - y * (size / 6000)).
Proof.
  rewrite toCanvasCoords_0.
  unfold toCanvasX, toCanvasY, resize, X_MAX, X_MIN, Y_MAX, Y_MIN.
  cbn [centerX centerY scaleX scaleY]. f_equal; field.
Qed.

Lemma scaled_inside size v lo hi :
  0 < size -> lo <= v <= hi ->
  lo * (size / 6000) <= v * (size / 6000) <= hi * (size / 6000).
Proof.
  intros Hs [H1 H2]. assert (0 <= size / 6000) by lra.
  split; apply Rmult_le_compat_r; assumption.
Qed.

(** X4. On the canvas that [resize] sets up, every sensor point at least
    1mm inside the border of the sensor range (x in [-2999, 2999], y in
    [1, 5999]) is drawn strictly inside the canvas by [toCanvasCoords], at
    each of the four map rotations. *)
Theorem toCanvasCoords_inside_canvas (size : R) (rotation : Z) (x y : R) :
  0 < size -> In rotation [0; 90; 180; 270]%Z ->
  X_MIN + 1 <= x <= X_MAX - 1 -> Y_MIN + 1 <= y <= Y_MAX - 1 ->
  inside_canvas size (toCanvasCoords (resize size rotation) x y).
Proof.
  unfold X_MIN, X_MAX, Y_MIN, Y_MAX, inside_canvas. intros Hs Hr Hx Hy.
  pose proof (scaled_inside size x _ _ Hs Hx) as Sx.
  pose proof (scaled_inside size y _ _ Hs Hy) as Sy.
  assert (Hk : 0 < size / 6000) by lra.
  cbn in Hr. destruct Hr as [<- | [<- | [<- | [<- | []]]]].
  - rewrite toCanvasCoords_0_px. cbn [pt_x pt_y]. lra.
  - rewrite toCanvasCoords_90. cbn [pt_x pt_y]. lra.
  - rewrite toCanvasCoords_180. cbn [pt_x pt_y]. lra.
  - rewrite toCanvasCoords_270. cbn [pt_x pt_y]. lra.
Qed.

Lemma toCanvasCoords_inside_canvas_witness :
  0 < 600 /\ In 90%Z [0; 90; 180; 270]%Z
  /\ X_MIN + 1 <= -2999 <= X_MAX - 1 /\ Y_MIN + 1 <= 5999 <= Y_MAX - 1
  /\ inside_canvas 600 (toCanvasCoords (resize 600 90) (-2999) 5999).
Proof.
  assert (Hs : 0 < 600) by lra.
  assert (Hr : In 90%Z [0; 90; 180; 270]%Z) by (cbn; auto).
  assert (Hx : X_MIN + 1 <= -2999 <= X_MAX - 1) by (unfold X_MIN, X_MAX; lra).
  assert (Hy : Y_MIN + 1 <= 5999 <= Y_MAX - 1) by (unfold Y_MIN, Y_MAX; lra).
  split; [exact Hs | split; [exact Hr | split; [exact Hx | split; [exact Hy |]]]].
  exact (toCanvasCoords_inside_canvas 600 90 (-2999) 5999 Hs Hr Hx Hy).
Defined.

(** X5. At each of the four map rotations the remap of live targets sends
    a point at least 1mm inside the border of the sensor range to such a
    point again, so the target marker is painted strictly inside the
    canvas. *)
Theorem drawTarget_position_inside_canvas (size : R) (rotation : Z) (x y : R) :
  0 < size -> In rotation [0; 90; 180; 270]%Z ->
  X_MIN + 1 <= x <= X_MAX - 1 -> Y_MIN + 1 <= y <= Y_MAX - 1 ->
  (let r := transformSensorToRoom (resize size rotation) x y in
   X_MIN + 1 <= pt_x r <= X_MAX - 1 /\ Y_MIN + 1 <= pt_y r <= Y_MAX - 1)
  /\ inside_canvas size (drawTarget_position (resize size rotation) x y).
Proof.
  unfold X_MIN, X_MAX, Y_MIN, Y_MAX, inside_canvas. intros Hs Hr Hx Hy.
  assert (Hk : 0 < size / 6000) by lra.
  cbn in Hr. destruct Hr as [<- | [<- | [<- | [<- | []]]]];
    unfold drawTarget_position, transformSensorToRoom, toCanvasX, toCanvasY, resize,
      X_MAX, X_MIN, Y_MAX, Y_MIN;
    cbn [width height centerX centerY scaleX scaleY mapRotation pt_x pt_y];
    replace (size / (3000 - -3000)) with (size / 6000) by field;
    replace (size / (6000 - 0)) with (size / 6000) by field.
  - pose proof (scaled_inside size x _ _ Hs Hx). pose proof (scaled_inside size y _ _ Hs Hy).
    lra.
  - assert (A : -3000 + 1 <= y - 3000 <= 3000 - 1) by lra.
    assert (B : 0 + 1 <= x + 3000 <= 6000 - 1) by lra.
    pose proof (scaled_inside size _ _ _ Hs A). pose proof (scaled_inside size _ _ _ Hs B). lra.
  - assert (B : 0 + 1 <= 6000 - y <= 6000 - 1) by lra.
    pose proof (scaled_inside size x _ _ Hs Hx). pose proof (scaled_inside size _ _ _ Hs B). lra.
  - assert (A : -3000 + 1 <= - (y - 3000) <= 3000 - 1) by lra.
    assert (B : 0 + 1 <= - x + 3000 <= 6000 - 1) by lra.
    pose proof (scaled_inside size _ _ _ Hs A). pose proof (scaled_inside size _ _ _ Hs B). lra.
Qed.

Lemma drawTarget_position_inside_canvas_witness :
  0 < 600 /\ In 270%Z [0; 90; 180; 270]%Z
  /\ X_MIN + 1 <= 1000 <= X_MAX - 1 /\ Y_MIN + 1 <= 2000 <= Y_MAX - 1
  /\ inside_canvas 600 (drawTarget_position (resize 600 270) 1000 2000).
Proof.
  assert (Hs : 0 < 600) by lra.
  assert (Hr : In 270%Z [0; 90; 180; 270]%Z) by (cbn; auto).
  assert (Hx : X_MIN + 1 <= 1000 <= X_MAX - 1) by (unfold X_MIN, X_MAX; lra).
  assert (Hy : Y_MIN + 1 <= 2000 <= Y_MAX - 1) by (unfold Y_MIN, Y_MAX; lra).
  split; [exact Hs | split; [exact Hr | split; [exact Hx | split; [exact Hy |]]]].
  exact (proj2 (drawTarget_position_inside_canvas 600 270 1000 2000 Hs Hr Hx Hy)).
Defined.

End CanvasExtras.

(** ** Hit tests *)

Module HitTestExtras.
Import Assign DrawingManager Observe JsMath JsMathFacts Geometry.

(** X6. The rectangle hit test reads the box through min and max: it gives
    the same answer when the stored corners are exchanged, it includes the
    border, and a disabled zone is never hit. *)
Theorem isPointInZone_reads_normalized (x y : R) (z : Zone.t) :
  Zone.shapeType z = rectangle \/ Zone.vertices z = None ->
  isPointInZone x y (Some (swap_corners z)) = isPointInZone x y (Some z)
  /\ (Zone.enabled z = false -> isPointInZone x y (Some z) = Ok false)
  /\ (Zone.enabled z = true ->
      (isPointInZone x y (Some z) = Ok true
       <-> Rmin (Zone.x1 z) (Zone.x2 z) <= x <= Rmax (Zone.x1 z) (Zone.x2 z)
           /\ Rmin (Zone.y1 z) (Zone.y2 z) <= y <= Rmax (Zone.y1 z) (Zone.y2 z))).
Proof.
  intros Hrect. unfold isPointInZone, swap_corners. cbn [bind deref].
  cbn [Zone.enabled Zone.shapeType Zone.vertices Zone.x1 Zone.x2 Zone.y1 Zone.y2].
  rewrite (Rmin_comm (Zone.x2 z)), (Rmax_comm (Zone.x2 z)),
          (Rmin_comm (Zone.y2 z)), (Rmax_comm (Zone.y2 z)).
  split; [reflexivity |]. split.
  - intros ->. reflexivity.
  - intros ->. cbn [negb].
    assert (E : match Zone.shapeType z, Zone.vertices z with
                | polygon, Some vs => Ok (isPointInPolygon x y vs)
                | _, _ =>
                    Ok (leb (Rmin (Zone.x1 z) (Zone.x2 z)) x
                        && leb x (Rmax (Zone.x1 z) (Zone.x2 z))
                        && leb (Rmin (Zone.y1 z) (Zone.y2 z)) y
                        && leb y (Rmax (Zone.y1 z) (Zone.y2 z)))
                end
                = Ok (leb (Rmin (Zone.x1 z) (Zone.x2 z)) x
                      && leb x (Rmax (Zone.x1 z) (Zone.x2 z))
                      && leb (Rmin (Zone.y1 z) (Zone.y2 z)) y
                      && leb y (Rmax (Zone.y1 z) (Zone.y2 z)))).
    { destruct Hrect as [-> | ->]; [reflexivity |]. destruct (Zone.shapeType z); reflexivity. }
    rewrite E. split.
    + intros H. injection H as H.
      apply andb_prop in H as [H H4]. apply andb_prop in H as [H H3].
      apply andb_prop in H as [H1 H2].
      apply leb_spec in H1, H2, H3, H4. lra.
    + intros [[H1 H2] [H3 H4]].
      rewrite (leb_true _ _ H1), (leb_true _ _ H2), (leb_true _ _ H3), (leb_true _ _ H4).
      reflexivity.
Qed.

Lemma isPointInZone_reads_normalized_witness :
  (Zone.shapeType Sample.square = rectangle \/ Zone.vertices Sample.square = None)
  /\ isPointInZone 1000 0 (Some (swap_corners Sample.square))
     = isPointInZone 1000 0 (Some Sample.square).
Proof.
  assert (H : Zone.shapeType Sample.square = rectangle \/ Zone.vertices Sample.square = None)
    by (left; reflexivity).
  split; [exact H |].
  exact (proj1 (isPointInZone_reads_normalized 1000 0 Sample.square H)).
Defined.

(** X7. The ray-casting test never reports a point as inside when it lies
    at or above every vertex, or strictly below every vertex, of the
    polygon; in particular an empty vertex list contains no point. *)
Theorem isPointInPolygon_outside_extent (x y : R) (vertices : list Point) :
  (forall v, In v vertices -> pt_y v <= y) \/ (forall v, In v vertices -> y < pt_y v) ->
  isPointInPolygon x y vertices = false.
Proof.
  intros H. unfold isPointInPolygon.
  destruct vertices as [| v0 vs]; [reflexivity |].
  assert (Hlast : In (last (v0 :: vs) (mkPoint 0 0)) (v0 :: vs)).
  { destruct (exists_last (l := v0 :: vs)) as [l' [a E]]; [discriminate |].
    rewrite E, last_last. apply in_or_app. right. left. reflexivity. }
  set (vl := last (v0 :: vs) (mkPoint 0 0)) in *.
  assert (G : forall rest vj inside,
             In vj (v0 :: vs) -> incl rest (v0 :: vs) ->
             rayCast x y vj rest inside = inside).
  { induction rest as [| vi rest IH]; intros vj inside Hj Hincl; cbn; [reflexivity |].
    assert (Hi : In vi (v0 :: vs)) by (apply Hincl; left; reflexivity).
    assert (Hc : crosses x y vi vj = false).
    { unfold crosses. destruct H as [H | H].
      - rewrite (ltb_false y (pt_y vi)), (ltb_false y (pt_y vj)) by (apply H; assumption).
        reflexivity.
      - rewrite (ltb_true y (pt_y vi)), (ltb_true y (pt_y vj)) by (apply H; assumption).
        reflexivity. }
    rewrite Hc. apply IH; [exact Hi |].
    intros v Hv. apply Hincl. right. exact Hv. }
  apply G; [exact Hlast | apply incl_refl].
Qed.

Lemma isPointInPolygon_outside_extent_witness :
  (forall v, In v Sample.smallTriangle -> pt_y v <= 100)
  /\ isPointInPolygon 50 100 Sample.smallTriangle = false.
Proof.
  assert (H : forall v, In v Sample.smallTriangle -> pt_y v <= 100).
  { intros v [<- | [<- | [<- | []]]]; cbn; lra. }
  split; [exact H |].
  exact (isPointInPolygon_outside_extent 50 100 Sample.smallTriangle (or_introl H)).
Defined.

Lemma sqrt_le_iff a r : 0 <= a -> 0 <= r -> (sqrt a <= r <-> a <= r * r).
Proof.
  intros Ha Hr. split; intros H.
  - apply sqrt_le_0; [assumption | nra |]. rewrite sqrt_square by assumption. exact H.
  - rewrite <- (sqrt_square r) by assumption. apply sqrt_le_1_alt. exact H.
Qed.

(** X8. An entrance is hit exactly by the points within 300mm of its
    position, the circle's border included; the position itself is always
    hit. *)
Theorem isPointInEntrance_circle (x y : R) (en : Entrance.t) :
  (isPointInEntrance x y (Some en) = Ok true
   <-> (x - Entrance.x en) * (x - Entrance.x en) + (y - Entrance.y en) * (y - Entrance.y en)
       <= 300 * 300)
  /\ isPointInEntrance (Entrance.x en) (Entrance.y en) (Some en) = Ok true.
Proof.
  unfold isPointInEntrance. cbn [bind deref].
  assert (Hsq : forall a b, 0 <= a * a + b * b) by (intros; nra).
  split.
  - split; intros H.
    + injection H as H. apply leb_spec in H. apply sqrt_le_iff in H; [exact H | apply Hsq | lra].
    + f_equal. apply leb_true. apply sqrt_le_iff; [apply Hsq | lra | exact H].
  - f_equal. apply leb_true. apply sqrt_le_iff; [apply Hsq | lra | nra].
Qed.

Lemma furniture_angle_0 : 0 * PI / 180 = 0.
Proof. field. Qed.

Lemma rotation_keeps_norm dx dy a :
  (dx * cos a - dy * sin a) * (dx * cos a - dy * sin a)
  + (dx * sin a + dy * cos a) * (dx * sin a + dy * cos a)
  = dx * dx + dy * dy.
Proof.
  pose proof (sin2_cos2 a) as H. unfold Rsqr in H.
  replace ((dx * cos a - dy * sin a) * (dx * cos a - dy * sin a)
           + (dx * sin a + dy * cos a) * (dx * sin a + dy * cos a))
    with ((dx * dx + dy * dy) * (sin a * sin a + cos a * cos a)) by ring.
  rewrite H. ring.
Qed.

Lemma Rabs_le_square u h : Rabs u <= h -> u * u <= h * h.
Proof.
  intros H. pose proof (Rabs_pos u) as P.
  replace (u * u) with (Rabs u * Rabs u).
  - apply Rmult_le_compat; lra.
  - unfold Rabs. destruct (Rcase_abs u); ring.
Qed.

(** X9. For furniture that is not rotated the hit test is the axis-aligned
    test with half the width and half the height around the centre.  At
    every rotation the centre of a furniture item is hit, and a point
    farther from the centre than half the diagonal is missed. *)
Theorem isPointInFurniture_upright_centre_reach (x y : R) (f : Furniture.t) :
  (Furniture.rotation f = 0 ->
   isPointInFurniture x y (Some f)
   = Ok (leb (Rabs (x - Furniture.x f)) (Furniture.width f / 2)
         && leb (Rabs (y - Furniture.y f)) (Furniture.height f / 2)))
  /\ (0 <= Furniture.width f -> 0 <= Furniture.height f ->
      isPointInFurniture (Furniture.x f) (Furniture.y f) (Some f) = Ok true)
  /\ (Furniture.width f / 2 * (Furniture.width f / 2)
      + Furniture.height f / 2 * (Furniture.height f / 2)
      < (x - Furniture.x f) * (x - Furniture.x f) + (y - Furniture.y f) * (y - Furniture.y f) ->
      isPointInFurniture x y (Some f) = Ok false).
Proof.
  unfold isPointInFurniture. cbn [bind deref]. split; [| split].
  - intros ->.
    rewrite furniture_angle_0, Ropp_0, cos_0, sin_0. do 2 f_equal; f_equal; f_equal; ring.
  - intros Hw Hh. f_equal.
    replace (Furniture.x f - Furniture.x f) with 0 by ring.
    replace (Furniture.y f - Furniture.y f) with 0 by ring.
    rewrite !Rmult_0_l, Rminus_0_r, Rplus_0_r, Rabs_R0.
    rewrite !leb_true by lra. reflexivity.
  - intros Hfar. f_equal.
    set (a := - (Furniture.rotation f * PI / 180)) in *.
    set (dx := x - Furniture.x f) in *. set (dy := y - Furniture.y f) in *.
    destruct (leb (Rabs (dx * cos a - dy * sin a)) (Furniture.width f / 2)) eqn:E1;
      [| reflexivity].
    destruct (leb (Rabs (dx * sin a + dy * cos a)) (Furniture.height f / 2)) eqn:E2;
      [| reflexivity].
    exfalso. apply leb_spec in E1. apply leb_spec in E2.
    apply Rabs_le_square in E1. apply Rabs_le_square in E2.
    pose proof (rotation_keeps_norm dx dy a). lra.
Qed.

Lemma isPointInFurniture_upright_centre_reach_witness :
  Furniture.rotation Sample.sofa = 0
  /\ 0 <= Furniture.width Sample.sofa /\ 0 <= Furniture.height Sample.sofa
  /\ isPointInFurniture 900 2400 (Some Sample.sofa)
     = Ok (leb (Rabs (900 - 0)) (1800 / 2) && leb (Rabs (2400 - 2000)) (800 / 2))
  /\ isPointInFurniture 0 2000 (Some Sample.sofa) = Ok true
  /\ isPointInFurniture 900 2500 (Some Sample.sofa) = Ok false.
Proof.
  assert (H : Furniture.rotation Sample.sofa = 0) by reflexivity.
  assert (Hw : 0 <= Furniture.width Sample.sofa) by (cbn; lra).
  assert (Hh : 0 <= Furniture.height Sample.sofa) by (cbn; lra).
  destruct (isPointInFurniture_upright_centre_reach 900 2400 Sample.sofa) as [A _].
  destruct (isPointInFurniture_upright_centre_reach 0 2000 Sample.sofa) as [_ [B _]].
  destruct (isPointInFurniture_upright_centre_reach 900 2500 Sample.sofa) as [_ [_ C]].
  split; [exact H | split; [exact Hw | split; [exact Hh |]]].
  split; [exact (A H) | split; [exact (B Hw Hh) |]].
  apply C. cbn. lra.
Defined.

Lemma furnitureHandle_corner cx cy c s canvasX canvasY ty lx ly h :
  furnitureHandle cx cy c s canvasX canvasY ty lx ly = Some h ->
  h_type h = ty /\ updateX h = None /\ updateY h = None
  /\ sqrt ((canvasX - h_x h) * (canvasX - h_x h) + (canvasY - h_y h) * (canvasY - h_y h)) <= 13.
Proof.
  unfold furnitureHandle, furnitureHandleSize. intros H.
  destruct (leb _ _) eqn:E in H; [| discriminate].
  injection H as <-. cbn. repeat split. apply leb_spec in E. lra.
Qed.

(** X10. A furniture handle is found only for an existing furniture item;
    it is one of the four corner handles, it names no bounding-box field,
    and it lies within 13 canvas pixels of the pointer. *)
Theorem getFurnitureHandleAtPoint_corner (w : World) (canvasX canvasY : R)
    (furniture : option Furniture.t) (h : Handle) :
  getFurnitureHandleAtPoint w canvasX canvasY furniture = Some h ->
  furniture <> None
  /\ In (h_type h) [h_nw; h_ne; h_sw; h_se]
  /\ updateX h = None /\ updateY h = None
  /\ sqrt ((canvasX - h_x h) * (canvasX - h_x h) + (canvasY - h_y h) * (canvasY - h_y h)) <= 13.
Proof.
  unfold getFurnitureHandleAtPoint, first_some. intros H.
  destruct furniture as [f |]; [| discriminate]. split; [discriminate |].
  repeat match type of H with
  | match ?o with Some _ => _ | None => _ end = Some _ =>
      let E := fresh "E" in destruct o eqn:E
  end.
  - injection H as <-. destruct (furnitureHandle_corner _ _ _ _ _ _ _ _ _ _ E) as [-> R].
    split; [cbn; auto | exact R].
  - injection H as <-. destruct (furnitureHandle_corner _ _ _ _ _ _ _ _ _ _ E0) as [-> R].
    split; [cbn; auto | exact R].
  - injection H as <-. destruct (furnitureHandle_corner _ _ _ _ _ _ _ _ _ _ E1) as [-> R].
    split; [cbn; auto | exact R].
  - destruct (furnitureHandle_corner _ _ _ _ _ _ _ _ _ _ H) as [-> R].
    split; [cbn; auto 6 | exact R].
Qed.

Lemma sqrt_zero_le r : 0 <= r -> forall a, a = 0 -> sqrt a <= r.
Proof. intros Hr a ->. rewrite sqrt_0. exact Hr. Qed.

Lemma getFurnitureHandleAtPoint_corner_witness :
  let w := Sample.world select Sample.idle Sample.furnitureSelected Sample.oneSofa in
  exists h, getFurnitureHandleAtPoint w 210 360 (Some Sample.sofa) = Some h
            /\ In (h_type h) [h_nw; h_ne; h_sw; h_se].
Proof.
  cbv zeta.
  set (w := Sample.world select Sample.idle Sample.furnitureSelected Sample.oneSofa).
  assert (E : exists h, getFurnitureHandleAtPoint w 210 360 (Some Sample.sofa) = Some h).
  { unfold getFurnitureHandleAtPoint, first_some, furnitureHandle, furnitureHandleSize.
    unfold w, Sample.world, Sample.canvas. cbn [radarCanvas].
    rewrite CanvasExtras.toCanvasCoords_0_px.
    cbn [pt_x pt_y Sample.sofa Furniture.x Furniture.y Furniture.width Furniture.height
         Furniture.rotation RadarCanvas.resize RadarCanvas.scaleX RadarCanvas.scaleY
         RadarCanvas.mapRotation].
    replace (0 * PI / 180 + 0 * PI / 180) with 0 by field. rewrite cos_0, sin_0.
    rewrite leb_true; [eexists; reflexivity |].
    apply sqrt_zero_le; [lra |]. unfold RadarCanvas.X_MAX, RadarCanvas.X_MIN,
      RadarCanvas.Y_MAX, RadarCanvas.Y_MIN. field. }
  destruct E as [h E]. exists h. split; [exact E |].
  exact (proj1 (proj2 (getFurnitureHandleAtPoint_corner w 210 360 (Some Sample.sofa) h E))).
Defined.

(** X11. For every type name, known or not, other than the member names
    an object literal inherits, the default size has both dimensions
    between 200mm and 2000mm, and a name that is not in the table gets
    500mm by 500mm. *)
Theorem getFurnitureDefaultSize_bounds (type : string) :
  ~ In type JsObject.prototype_keys ->
  200 <= fst (getFurnitureDefaultSize type) <= 2000
  /\ 200 <= snd (getFurnitureDefaultSize type) <= 2000
  /\ (~ In type ["chair"; "dining-chair"; "sofa"; "bed"; "table"; "desk"; "bedside-table";
                  "cabinet"; "drawers"; "wardrobe"; "tv"; "speaker"; "fridge"; "radiator";
                  "fan"; "window"; "lamp"; "plant"]%string ->
      getFurnitureDefaultSize type = (500, 500)).
Proof.
  intros _.
  unfold getFurnitureDefaultSize.
  repeat match goal with
  | |- context [String.eqb type ?s] =>
      let E := fresh "E" in
      destruct (String.eqb type s) eqn:E;
      [apply String.eqb_eq in E; cbn [fst snd];
       (split; [lra | split; [lra |]]); intros Hn; exfalso; apply Hn; rewrite E; cbn; tauto |]
  end.
  cbn [fst snd]. split; [lra | split; [lra | reflexivity]].
Qed.

Lemma getFurnitureDefaultSize_bounds_witness :
  ~ In "stool"%string JsObject.prototype_keys
  /\ ~ In "stool"%string
       ["chair"; "dining-chair"; "sofa"; "bed"; "table"; "desk"; "bedside-table";
        "cabinet"; "drawers"; "wardrobe"; "tv"; "speaker"; "fridge"; "radiator";
        "fan"; "window"; "lamp"; "plant"]%string
  /\ getFurnitureDefaultSize "stool" = (500, 500).
Proof.
  assert (Hp : ~ In "stool"%string JsObject.prototype_keys).
  { cbn. intros H. repeat (destruct H as [H | H]; [discriminate H |]). exact H. }
  assert (Hn : ~ In "stool"%string
       ["chair"; "dining-chair"; "sofa"; "bed"; "table"; "desk"; "bedside-table";
        "cabinet"; "drawers"; "wardrobe"; "tv"; "speaker"; "fridge"; "radiator";
        "fan"; "window"; "lamp"; "plant"]%string).
  { cbn. intros H. repeat (destruct H as [H | H]; [discriminate H |]). exact H. }
  split; [exact Hp | split; [exact Hn |]].
  destruct (getFurnitureDefaultSize_bounds "stool" Hp) as [_ [_ H]].
  exact (H Hn).
Defined.

End HitTestExtras.

(** ** Moves and resizes *)

Module MoveExtras.
Import Assign DrawingManager Observe JsMath JsMathFacts RegistryFacts.






Lemma clamp_range lo hi v : lo <= hi -> lo <= Rmax lo (Rmin hi v) <= hi.
Proof.
  intros H. unfold Rmax, Rmin.
  destruct (Rle_dec hi v); destruct (Rle_dec lo _); lra.
Qed.

(** X12. Dragging or move-mode placement of an entrance stores a position
    inside the sensor range whatever the pointer position, and changes
    nothing else of the entrance. *)
Theorem moveEntrance_in_range (p : Point) (w : World) (i : nat) (en : Entrance.t) :
  nth_error (entrances (state w)) i = Some en ->
  (selectedEntranceIndex (sel w) = Some i ->
   exists w' en', moveEntrance p w = Ok w'
     /\ nth_error (entrances (state w')) i = Some en'
     /\ -3000 <= Entrance.x en' <= 3000 /\ 0 <= Entrance.y en' <= 6000
     /\ Entrance.direction en' = Entrance.direction en
     /\ Entrance.label en' = Entrance.label en /\ Entrance.id en' = Entrance.id en)
  /\ (movingItemIndex (ges w) = Some i ->
      exists en', nth_error (entrances (state (moveEntranceToPosition p w))) i = Some en'
        /\ -3000 <= Entrance.x en' <= 3000 /\ 0 <= Entrance.y en' <= 6000
        /\ Entrance.direction en' = Entrance.direction en
        /\ Entrance.label en' = Entrance.label en /\ Entrance.id en' = Entrance.id en).
Proof.
  intros Hen.
  assert (Hlt : (i < List.length (entrances (state w)))%nat)
    by (apply nth_error_Some; rewrite Hen; discriminate).
  split; intros Hi.
  - unfold moveEntrance. rewrite Hi. cbn [item_at]. rewrite Hen. cbn [bind deref].
    eexists. eexists. split; [reflexivity |].
    cbn [state emit set_entrances with_state entrances put_at].
    split; [apply nth_error_store_same; exact Hlt |].
    cbn. repeat split; try apply clamp_range; lra.
  - unfold moveEntranceToPosition. rewrite Hi. cbn [item_at]. rewrite Hen.
    eexists.
    cbn [state emit set_entrances with_state entrances put_at].
    split; [apply nth_error_store_same; exact Hlt |].
    cbn. repeat split; try apply clamp_range; lra.
Qed.

Lemma moveEntrance_in_range_witness :
  let w := Sample.world select Fixture.dragging Fixture.entranceSelected Fixture.oneDoor in
  nth_error (entrances (state w)) 0 = Some Fixture.door
  /\ selectedEntranceIndex (sel w) = Some 0%nat
  /\ exists w' en', moveEntrance (mkPoint 9000 (-500)) w = Ok w'
       /\ nth_error (entrances (state w')) 0 = Some en'
       /\ -3000 <= Entrance.x en' <= 3000 /\ 0 <= Entrance.y en' <= 6000.
Proof.
  cbv zeta.
  set (w := Sample.world select Fixture.dragging Fixture.entranceSelected Fixture.oneDoor).
  assert (Hen : nth_error (entrances (state w)) 0 = Some Fixture.door) by reflexivity.
  assert (Hi : selectedEntranceIndex (sel w) = Some 0%nat) by reflexivity.
  split; [exact Hen | split; [exact Hi |]].
  destruct (proj1 (moveEntrance_in_range (mkPoint 9000 (-500)) w 0 Fixture.door Hen) Hi)
    as [w' [en' [H1 [H2 [H3 [H4 _]]]]]].
  exists w', en'. repeat split; assumption || apply H3 || apply H4.
Defined.

(** X13. Dragging or move-mode placement of a furniture item whose width
    and height do not exceed the sensor range keeps its whole unrotated
    footprint inside the sensor range and changes neither its size, its
    rotation nor its type. *)
Theorem moveFurniture_in_range (p : Point) (w : World) (i : nat) (f : Furniture.t) :
  nth_error (furniture (state w)) i = Some f ->
  0 <= Furniture.width f <= 6000 -> 0 <= Furniture.height f <= 6000 ->
  let inside := fun f' : Furniture.t =>
    -3000 <= Furniture.x f' - Furniture.width f' / 2
    /\ Furniture.x f' + Furniture.width f' / 2 <= 3000
    /\ 0 <= Furniture.y f' - Furniture.height f' / 2
    /\ Furniture.y f' + Furniture.height f' / 2 <= 6000
    /\ Furniture.width f' = Furniture.width f /\ Furniture.height f' = Furniture.height f
    /\ Furniture.rotation f' = Furniture.rotation f /\ Furniture.type f' = Furniture.type f in
  (selectedFurnitureIndex (sel w) = Some i ->
   exists w' f', moveFurniture p w = Ok w'
     /\ nth_error (furniture (state w')) i = Some f' /\ inside f')
  /\ (movingItemIndex (ges w) = Some i ->
      exists f', nth_error (furniture (state (moveFurnitureToPosition p w))) i = Some f'
        /\ inside f').
Proof.
  intros Hf Hw Hh inside.
  assert (Hlt : (i < List.length (furniture (state w)))%nat)
    by (apply nth_error_Some; rewrite Hf; discriminate).
  assert (Hin : forall sx sy,
    inside (Furniture.mk (Furniture.id f) (Furniture.type f)
              (Rmax (-3000 + Furniture.width f / 2) (Rmin (3000 - Furniture.width f / 2) sx))
              (Rmax (Furniture.height f / 2) (Rmin (6000 - Furniture.height f / 2) sy))
              (Furniture.rotation f) (Furniture.width f) (Furniture.height f))).
  { intros sx sy. unfold inside. cbn.
    pose proof (clamp_range (-3000 + Furniture.width f / 2) (3000 - Furniture.width f / 2) sx).
    pose proof (clamp_range (Furniture.height f / 2) (6000 - Furniture.height f / 2) sy).
    repeat split; lra. }
  split; intros Hi.
  - unfold moveFurniture. rewrite Hi. cbn [item_at]. rewrite Hf. cbn [bind deref].
    eexists. eexists. split; [reflexivity |].
    cbn [state emit set_furniture with_state furniture put_at].
    split; [apply nth_error_store_same; exact Hlt | apply Hin].
  - unfold moveFurnitureToPosition. rewrite Hi. cbn [item_at]. rewrite Hf.
    eexists.
    cbn [state emit set_furniture with_state furniture put_at].
    split; [apply nth_error_store_same; exact Hlt | apply Hin].
Qed.

Lemma moveFurniture_in_range_witness :
  let w := Sample.world select Fixture.dragging Sample.furnitureSelected Sample.oneSofa in
  nth_error (furniture (state w)) 0 = Some Sample.sofa
  /\ 0 <= Furniture.width Sample.sofa <= 6000 /\ 0 <= Furniture.height Sample.sofa <= 6000
  /\ selectedFurnitureIndex (sel w) = Some 0%nat
  /\ exists w' f', moveFurniture (mkPoint 9000 9000) w = Ok w'
       /\ nth_error (furniture (state w')) 0 = Some f'
       /\ Furniture.x f' + Furniture.width f' / 2 <= 3000.
Proof.
  cbv zeta.
  set (w := Sample.world select Fixture.dragging Sample.furnitureSelected Sample.oneSofa).
  assert (Hf : nth_error (furniture (state w)) 0 = Some Sample.sofa) by reflexivity.
  assert (Hw : 0 <= Furniture.width Sample.sofa <= 6000) by (cbn; lra).
  assert (Hh : 0 <= Furniture.height Sample.sofa <= 6000) by (cbn; lra).
  assert (Hi : selectedFurnitureIndex (sel w) = Some 0%nat) by reflexivity.
  split; [exact Hf | split; [exact Hw | split; [exact Hh | split; [exact Hi |]]]].
  destruct (proj1 (moveFurniture_in_range (mkPoint 9000 9000) w 0 Sample.sofa Hf Hw Hh) Hi)
    as [w' [f' [H1 [H2 [_ [H3 _]]]]]].
  exists w', f'. repeat split; assumption.
Defined.

(** X14. Move-mode placement of an enabled zone keeps its width and height
    exactly, stores a normalized box, and, for a zone no larger than the
    sensor range, a box inside the sensor range; the other properties of the
    zone are kept. *)
Theorem moveZoneToPosition_keeps_size (p : Point) (w : World) (i : nat) (z : Zone.t) :
  movingItemIndex (ges w) = Some i ->
  nth_error (zones (state w)) i = Some z ->
  Zone.enabled z = true ->
  exists z', nth_error (zones (state (moveZoneToPosition p w))) i = Some z'
    /\ Zone.x2 z' - Zone.x1 z' = Rabs (Zone.x2 z - Zone.x1 z)
    /\ Zone.y2 z' - Zone.y1 z' = Rabs (Zone.y2 z - Zone.y1 z)
    /\ zone_normalized z'
    /\ (Rabs (Zone.x2 z - Zone.x1 z) <= 6000 -> -3000 <= Zone.x1 z' /\ Zone.x2 z' <= 3000)
    /\ (Rabs (Zone.y2 z - Zone.y1 z) <= 6000 -> 0 <= Zone.y1 z' /\ Zone.y2 z' <= 6000)
    /\ Zone.enabled z' = true /\ Zone.shapeType z' = Zone.shapeType z
    /\ Zone.vertices z' = Zone.vertices z /\ Zone.zoneType z' = Zone.zoneType z.
Proof.
  intros Hi Hz He.
  assert (Hlt : (i < List.length (zones (state w)))%nat)
    by (apply nth_error_Some; rewrite Hz; discriminate).
  unfold moveZoneToPosition. rewrite Hi. cbn [item_at]. rewrite Hz, He. cbn [negb].
  eexists. cbn [state emit set_zones with_state zones put_at].
  split; [apply nth_error_store_same; exact Hlt |].
  pose proof (Rabs_pos (Zone.x2 z - Zone.x1 z)) as Px.
  pose proof (Rabs_pos (Zone.y2 z - Zone.y1 z)) as Py.
  unfold zone_normalized. cbn.
  set (W := Rabs (Zone.x2 z - Zone.x1 z)) in *. set (H := Rabs (Zone.y2 z - Zone.y1 z)) in *.
  pose proof (clamp_range (-3000) (3000 - W) (snap 100 (pt_x p) - W / 2)).
  pose proof (clamp_range 0 (6000 - H) (snap 100 (pt_y p) - H / 2)).
  repeat split; try assumption; lra.
Qed.

Lemma moveZoneToPosition_keeps_size_witness :
  let w := Sample.world select (Fixture.movingItem item_zone 0) Sample.zoneSelected
                        Sample.oneZone in
  movingItemIndex (ges w) = Some 0%nat
  /\ nth_error (zones (state w)) 0 = Some Sample.square
  /\ Zone.enabled Sample.square = true
  /\ exists z', nth_error (zones (state (moveZoneToPosition (mkPoint 9000 9000) w))) 0
                = Some z'
       /\ Zone.x2 z' - Zone.x1 z' = Rabs (1000 - 0).
Proof.
  cbv zeta.
  set (w := Sample.world select (Fixture.movingItem item_zone 0) Sample.zoneSelected
                         Sample.oneZone).
  assert (Hi : movingItemIndex (ges w) = Some 0%nat) by reflexivity.
  assert (Hz : nth_error (zones (state w)) 0 = Some Sample.square) by reflexivity.
  assert (He : Zone.enabled Sample.square = true) by reflexivity.
  split; [exact Hi | split; [exact Hz | split; [exact He |]]].
  destruct (moveZoneToPosition_keeps_size (mkPoint 9000 9000) w 0 Sample.square Hi Hz He)
    as [z' [H1 [H2 _]]].
  exists z'. split; [exact H1 | exact H2].
Defined.

(** X15. Dragging an edge keeps its width and height exactly, stores a
    normalized box, and, for an edge no larger than the sensor range, a box
    inside the sensor range. *)
Theorem moveEdge_keeps_size (p : Point) (w : World) (i : nat) (ed : Edge.t) :
  selectedEdgeIndex (sel w) = Some i ->
  nth_error (edges (state w)) i = Some ed ->
  exists w' ed', moveEdge p w = Ok w'
    /\ nth_error (edges (state w')) i = Some ed'
    /\ Edge.x2 ed' - Edge.x1 ed' = Rabs (Edge.x2 ed - Edge.x1 ed)
    /\ Edge.y2 ed' - Edge.y1 ed' = Rabs (Edge.y2 ed - Edge.y1 ed)
    /\ edge_normalized ed'
    /\ (Rabs (Edge.x2 ed - Edge.x1 ed) <= 6000 -> -3000 <= Edge.x1 ed' /\ Edge.x2 ed' <= 3000)
    /\ (Rabs (Edge.y2 ed - Edge.y1 ed) <= 6000 -> 0 <= Edge.y1 ed' /\ Edge.y2 ed' <= 6000)
    /\ Edge.id ed' = Edge.id ed.
Proof.
  intros Hi He.
  assert (Hlt : (i < List.length (edges (state w)))%nat)
    by (apply nth_error_Some; rewrite He; discriminate).
  unfold moveEdge. rewrite Hi. cbn [item_at]. rewrite He.
  eexists. eexists. split; [reflexivity |].
  cbn [state emit set_edges with_state edges put_at].
  split; [apply nth_error_store_same; exact Hlt |].
  pose proof (Rabs_pos (Edge.x2 ed - Edge.x1 ed)) as Px.
  pose proof (Rabs_pos (Edge.y2 ed - Edge.y1 ed)) as Py.
  unfold edge_normalized. cbn.
  set (W := Rabs (Edge.x2 ed - Edge.x1 ed)) in *. set (H := Rabs (Edge.y2 ed - Edge.y1 ed)) in *.
  pose proof (clamp_range (-3000) (3000 - W)
                (snap 100 (pt_x p - pt_x (dragOffset (this w)) - W / 2))).
  pose proof (clamp_range 0 (6000 - H)
                (snap 100 (pt_y p - pt_y (dragOffset (this w)) - H / 2))).
  repeat split; try assumption; lra.
Qed.

Lemma moveEdge_keeps_size_witness :
  let w := Sample.world select Fixture.dragging Sample.edgeSelected Sample.oneWall in
  selectedEdgeIndex (sel w) = Some 0%nat
  /\ nth_error (edges (state w)) 0 = Some Sample.wall
  /\ exists w' ed', moveEdge (mkPoint 9000 9000) w = Ok w'
       /\ nth_error (edges (state w')) 0 = Some ed'
       /\ Edge.x2 ed' - Edge.x1 ed' = Rabs (-2000 - -3000).
Proof.
  cbv zeta.
  set (w := Sample.world select Fixture.dragging Sample.edgeSelected Sample.oneWall).
  assert (Hi : selectedEdgeIndex (sel w) = Some 0%nat) by reflexivity.
  assert (He : nth_error (edges (state w)) 0 = Some Sample.wall) by reflexivity.
  split; [exact Hi | split; [exact He |]].
  destruct (moveEdge_keeps_size (mkPoint 9000 9000) w 0 Sample.wall Hi He)
    as [w' [ed' [H1 [H2 [H3 _]]]]].
  exists w', ed'. repeat split; assumption.
Defined.




Lemma snap50_200 : snap 50 200 = 200.
Proof. rewrite (snap_eq 50 200 4); lra. Qed.

(** X17. Resizing furniture by one of its corner handles never stores a
    width or height below 200mm, stores multiples of 50mm, and leaves the
    centre, the rotation and the type of the furniture as they were. *)
Theorem resizeFurniture_floor (p : Point) (w : World) (i : nat) (f : Furniture.t)
    (h : Handle) :
  selectedFurnitureIndex (sel w) = Some i ->
  nth_error (furniture (state w)) i = Some f ->
  selectedHandle (ges w) = Some h ->
  In (h_type h) [h_nw; h_ne; h_sw; h_se] ->
  exists w' f', resizeFurniture p w = Ok w'
    /\ nth_error (furniture (state w')) i = Some f'
    /\ 200 <= Furniture.width f' /\ 200 <= Furniture.height f'
    /\ (exists a b : Z, Furniture.width f' = IZR a * 50 /\ Furniture.height f' = IZR b * 50)
    /\ Furniture.x f' = Furniture.x f /\ Furniture.y f' = Furniture.y f
    /\ Furniture.rotation f' = Furniture.rotation f /\ Furniture.type f' = Furniture.type f.
Proof.
  intros Hi Hf Hh Hty.
  assert (Hlt : (i < List.length (furniture (state w)))%nat)
    by (apply nth_error_Some; rewrite Hf; discriminate).
  unfold resizeFurniture. rewrite Hi, Hh. cbn [item_at]. rewrite Hf. cbn [bind deref].
  assert (Hfloor : forall v, 200 <= snap 50 (Rmax 200 v)).
  { intros v. rewrite <- snap50_200 at 1. apply snap_mono; [lra | apply Rmax_l]. }
  cbn in Hty.
  destruct Hty as [E | [E | [E | [E | []]]]]; rewrite <- E;
    eexists; eexists; (split; [reflexivity |]);
    cbn [state emit set_furniture with_state furniture put_at];
    (split; [apply nth_error_store_same; exact Hlt |]); cbn;
    (split; [apply Hfloor |]); (split; [apply Hfloor |]);
    (split; [eexists; eexists; split; reflexivity |]); repeat split.
Qed.

Lemma resizeFurniture_floor_witness :
  let w := Sample.world select (Sample.resizing Fixture.sofaHandle) Sample.furnitureSelected
                        Sample.oneSofa in
  selectedFurnitureIndex (sel w) = Some 0%nat
  /\ nth_error (furniture (state w)) 0 = Some Sample.sofa
  /\ selectedHandle (ges w) = Some Fixture.sofaHandle
  /\ In (h_type Fixture.sofaHandle) [h_nw; h_ne; h_sw; h_se]
  /\ exists w' f', resizeFurniture (mkPoint 0 2000) w = Ok w'
       /\ nth_error (furniture (state w')) 0 = Some f'
       /\ 200 <= Furniture.width f' /\ 200 <= Furniture.height f'.
Proof.
  cbv zeta.
  set (w := Sample.world select (Sample.resizing Fixture.sofaHandle) Sample.furnitureSelected
                         Sample.oneSofa).
  assert (Hi : selectedFurnitureIndex (sel w) = Some 0%nat) by reflexivity.
  assert (Hf : nth_error (furniture (state w)) 0 = Some Sample.sofa) by reflexivity.
  assert (Hh : selectedHandle (ges w) = Some Fixture.sofaHandle) by reflexivity.
  assert (Hty : In (h_type Fixture.sofaHandle) [h_nw; h_ne; h_sw; h_se]) by (cbn; auto 6).
  split; [exact Hi | split; [exact Hf | split; [exact Hh | split; [exact Hty |]]]].
  destruct (resizeFurniture_floor (mkPoint 0 2000) w 0 Sample.sofa Fixture.sofaHandle
              Hi Hf Hh Hty) as [w' [f' [H1 [H2 [H3 [H4 _]]]]]].
  exists w', f'. repeat split; assumption.
Defined.

(** The coordinate a handle resize stores is on the 100mm grid and inside
    the sensor range. *)
Lemma stored_on_grid_in_range p :
  (-3000 <= storedX p <= 3000 /\ exists k : Z, storedX p = IZR k * 100)
  /\ (0 <= storedY p <= 6000 /\ exists k : Z, storedY p = IZR k * 100).
Proof.
  unfold storedX, storedY. split; (split; [apply clamp_range; lra |]).
  - unfold Rmax, Rmin. destruct (Rle_dec 3000 _); destruct (Rle_dec (-3000) _).
    + exists 30%Z. lra.
    + exists (-30)%Z. lra.
    + exists (round (pt_x p / 100)). reflexivity.
    + exists (-30)%Z. lra.
  - unfold Rmax, Rmin. destruct (Rle_dec 6000 _); destruct (Rle_dec 0 _).
    + exists 60%Z. lra.
    + exists 0%Z. lra.
    + exists (round (pt_y p / 100)). reflexivity.
    + exists 0%Z. lra.
Qed.

(** X18. A handle resize of an edge writes exactly the bounding-box fields
    its handle names, each with the pointer coordinate snapped to the 100mm
    grid and clamped to the sensor range; the fields it does not name keep
    their values. *)
Theorem resizeEdge_writes_named_fields (p : Point) (w : World) (i : nat) (ed : Edge.t)
    (h : Handle) :
  selectedEdgeIndex (sel w) = Some i ->
  nth_error (edges (state w)) i = Some ed ->
  selectedHandle (ges w) = Some h ->
  exists w' ed', resizeEdge p w = Ok w'
    /\ nth_error (edges (state w')) i = Some ed'
    /\ Edge.x1 ed' = match updateX h with Some X1 => storedX p | _ => Edge.x1 ed end
    /\ Edge.x2 ed' = match updateX h with Some X2 => storedX p | _ => Edge.x2 ed end
    /\ Edge.y1 ed' = match updateY h with Some Y1 => storedY p | _ => Edge.y1 ed end
    /\ Edge.y2 ed' = match updateY h with Some Y2 => storedY p | _ => Edge.y2 ed end
    /\ Edge.id ed' = Edge.id ed
    /\ -3000 <= storedX p <= 3000 /\ 0 <= storedY p <= 6000
    /\ (exists a b : Z, storedX p = IZR a * 100 /\ storedY p = IZR b * 100).
Proof.
  intros Hi He Hh.
  assert (Hlt : (i < List.length (edges (state w)))%nat)
    by (apply nth_error_Some; rewrite He; discriminate).
  destruct (stored_on_grid_in_range p) as [[Rx [a Ga]] [Ry [b Gb]]].
  unfold resizeEdge. rewrite Hi, Hh. cbn [item_at]. rewrite He. cbn [bind deref].
  eexists. eexists. split; [reflexivity |].
  cbn [state emit set_edges with_state edges put_at].
  split; [apply nth_error_store_same; exact Hlt |].
  fold (storedX p). fold (storedY p).
  destruct (updateX h) as [[|] |], (updateY h) as [[|] |]; cbn;
    repeat split; try apply Rx; try apply Ry; try reflexivity;
    exists a, b; split; assumption.
Qed.

Lemma resizeEdge_writes_named_fields_witness :
  let w := Sample.world select (Sample.resizing Fixture.wallHandle) Sample.edgeSelected
                        Sample.oneWall in
  selectedEdgeIndex (sel w) = Some 0%nat
  /\ nth_error (edges (state w)) 0 = Some Sample.wall
  /\ selectedHandle (ges w) = Some Fixture.wallHandle
  /\ exists w' ed', resizeEdge (mkPoint (-2500) 3000) w = Ok w'
       /\ nth_error (edges (state w')) 0 = Some ed'
       /\ Edge.x1 ed' = storedX (mkPoint (-2500) 3000) /\ Edge.x2 ed' = -2000.
Proof.
  cbv zeta.
  set (w := Sample.world select (Sample.resizing Fixture.wallHandle) Sample.edgeSelected
                         Sample.oneWall).
  assert (Hi : selectedEdgeIndex (sel w) = Some 0%nat) by reflexivity.
  assert (He : nth_error (edges (state w)) 0 = Some Sample.wall) by reflexivity.
  assert (Hh : selectedHandle (ges w) = Some Fixture.wallHandle) by reflexivity.
  split; [exact Hi | split; [exact He | split; [exact Hh |]]].
  destruct (resizeEdge_writes_named_fields (mkPoint (-2500) 3000) w 0 Sample.wall
              Fixture.wallHandle Hi He Hh) as [w' [ed' [H1 [H2 [H3 [H4 _]]]]]].
  exists w', ed'. repeat split; assumption.
Defined.

End MoveExtras.

(** ** A press without a move *)

Module DragExtras.
Import Assign DrawingManager Observe JsMath JsMathFacts RegistryFacts Geometry.

(** X19. A press on the body of the selected zone followed by a pointer
    move to the very same position leaves the zone exactly as it was: the
    offset captured at the press cancels in the drag (for a zone that is
    normalized, on the 100mm grid and inside the sensor range). *)
Theorem press_without_move_keeps_zone (c p : Point) (w w' : World) (i : nat) (z : Zone.t) :
  selectedZoneIndex (sel w) = Some i ->
  nth_error (zones (state w)) i = Some z ->
  zone_well_placed z ->
  selectDown_zone c p w = Ok (Some w') ->
  selectedHandle (ges w') = None ->
  exists w'', moveZone p w' = Ok w''
    /\ zones (state w'') = zones (state w)
    /\ isDragging (ges w'') = true.
Proof.
  intros Hi Hz [[Nx Ny] [Bx1 [Bx2 [By1 [By2 [a [b [c' [d [Ga [Gb [Gc Gd]]]]]]]]]]]] Hdown Hnone.
  unfold selectDown_zone in Hdown. rewrite Hi in Hdown. cbn [item_at] in Hdown.
  rewrite Hz in Hdown.
  destruct (getHandleAtPoint _ _ _ _ _) as [[hd |] |]; cbn [bind] in Hdown;
    [injection Hdown as <-; cbn in Hnone; discriminate | | discriminate].
  cbn [bind deref] in Hdown.
  destruct (if Zone.enabled z then _ else _) as [[|] |]; cbn [bind] in Hdown; try discriminate.
  unfold getZoneCorners in Hdown. cbn [bind deref r_x1 r_x2 r_y1 r_y2] in Hdown.
  injection Hdown as <-.
  rewrite (Rmin_left (Zone.x1 z) (Zone.x2 z)), (Rmax_right (Zone.x1 z) (Zone.x2 z)),
          (Rmin_left (Zone.y1 z) (Zone.y2 z)), (Rmax_right (Zone.y1 z) (Zone.y2 z)) by assumption.
  unfold moveZone, getZoneCorners, startDrag.
  cbn [sel selection this set_cursor set_dragOffset set_isDragging with_this with_gesture
       state zones dragOffset pt_x pt_y].
  change (selectedZoneIndex (selection (this w))) with (selectedZoneIndex (sel w)).
  rewrite Hi. cbn [item_at]. rewrite Hz. cbn [bind deref r_x1 r_x2 r_y1 r_y2].
  rewrite (Rmin_left (Zone.x1 z) (Zone.x2 z)), (Rmax_right (Zone.x1 z) (Zone.x2 z)),
          (Rmin_left (Zone.y1 z) (Zone.y2 z)), (Rmax_right (Zone.y1 z) (Zone.y2 z)) by assumption.
  rewrite !ltb_false by lra.
  replace (pt_x p - (pt_x p - (Zone.x1 z + Zone.x2 z) / 2) - (Zone.x2 z - Zone.x1 z) / 2)
    with (IZR a * 100) by lra.
  replace (pt_x p - (pt_x p - (Zone.x1 z + Zone.x2 z) / 2) + (Zone.x2 z - Zone.x1 z) / 2)
    with (IZR c' * 100) by lra.
  replace (pt_y p - (pt_y p - (Zone.y1 z + Zone.y2 z) / 2) - (Zone.y2 z - Zone.y1 z) / 2)
    with (IZR b * 100) by lra.
  replace (pt_y p - (pt_y p - (Zone.y1 z + Zone.y2 z) / 2) + (Zone.y2 z - Zone.y1 z) / 2)
    with (IZR d * 100) by lra.
  rewrite !snap_on_grid by lra. rewrite <- Ga, <- Gb, <- Gc, <- Gd.
  eexists. split; [reflexivity |].
  cbn [state emit set_zones with_state zones put_at ges gesture this isDragging].
  split; [| reflexivity].
  assert (E : zone_with_box (Zone.x1 z) (Zone.y1 z) (Zone.x2 z) (Zone.y2 z) z = z)
    by (destruct z; reflexivity).
  rewrite E. clear - Hz.
  revert i Hz. induction (zones (state w)) as [| z0 zs IH]; intros [| i] Hz; cbn in *;
    try discriminate; [injection Hz as ->; reflexivity | f_equal; apply IH; exact Hz].
Qed.

Lemma handleHit_far (canvasX canvasY : R) (h : Handle) :
  100 < (canvasX - (600 / 2 + h_x h * (600 / 6000))) * (canvasX - (600 / 2 + h_x h * (600 / 6000)))
        + (canvasY - (600 - h_y h * (600 / 6000))) * (canvasY - (600 - h_y h * (600 / 6000))) ->
  handleHit Sample.canvas canvasX canvasY h = false.
Proof.
  intros H. unfold handleHit, handleSize, Sample.canvas.
  rewrite CanvasExtras.toCanvasCoords_0_px. cbn [pt_x pt_y].
  apply leb_false. rewrite <- (sqrt_square 10) at 1 by lra.
  apply sqrt_lt_1_alt. lra.
Qed.

Lemma press_without_move_keeps_zone_witness :
  let w := Sample.world select Sample.idle Sample.zoneSelected Sample.oneZone in
  selectedZoneIndex (sel w) = Some 0%nat
  /\ nth_error (zones (state w)) 0 = Some Sample.square
  /\ zone_well_placed Sample.square
  /\ exists w', selectDown_zone (mkPoint 350 550) (mkPoint 500 500) w = Ok (Some w')
       /\ selectedHandle (ges w') = None
       /\ exists w'', moveZone (mkPoint 500 500) w' = Ok w''
            /\ zones (state w'') = zones (state w).
Proof.
  cbv zeta.
  set (w := Sample.world select Sample.idle Sample.zoneSelected Sample.oneZone).
  assert (Hi : selectedZoneIndex (sel w) = Some 0%nat) by reflexivity.
  assert (Hz : nth_error (zones (state w)) 0 = Some Sample.square) by reflexivity.
  assert (Hp : zone_well_placed Sample.square).
  { unfold zone_well_placed, zone_normalized. cbn.
    repeat split; try lra. exists 0%Z, 0%Z, 10%Z, 10%Z. repeat split; lra. }
  assert (Hdown : exists w', selectDown_zone (mkPoint 350 550) (mkPoint 500 500) w = Ok (Some w')
                             /\ selectedHandle (ges w') = None).
  { unfold selectDown_zone, getHandleAtPoint, getZoneCorners, isPointInZone.
    cbn [sel selection this w Sample.world Sample.manager Sample.zoneSelected
         selectedZoneIndex item_at state zones Sample.oneZone nth_error bind deref
         Sample.square Zone.enabled Zone.shapeType Zone.x1 Zone.x2 Zone.y1 Zone.y2
         Zone.vertices negb pt_x pt_y radarCanvas].
    rewrite (Rmin_left 0 1000), (Rmax_right 0 1000) by lra.
    unfold boxHandles. cbn [find r_x1 r_x2 r_y1 r_y2].
    rewrite !handleHit_far by (cbn [h_x h_y]; lra).
    cbn [option_map bind].
    rewrite !leb_true by lra. cbn [andb bind r_x1 r_x2 r_y1 r_y2].
    eexists. split; reflexivity. }
  split; [exact Hi | split; [exact Hz | split; [exact Hp |]]].
  destruct Hdown as [w' [Hdown Hnone]].
  exists w'. split; [exact Hdown | split; [exact Hnone |]].
  destruct (press_without_move_keeps_zone (mkPoint 350 550) (mkPoint 500 500) w w' 0
              Sample.square Hi Hz Hp Hdown Hnone) as [w'' [H1 [H2 _]]].
  exists w''. split; assumption.
Defined.

End DragExtras.

(** ** Deleting, aborting and closing a polygon *)

Module StateExtras.
Import Assign DrawingManager Observe JsMath JsMathFacts RegistryFacts.

Lemma splice1_out_of_range {A} (a : list A) : forall i,
  (List.length a <= i)%nat -> splice1 i a = a.
Proof.
  induction a as [| a0 a IH]; intros [| i] H; cbn in *; try reflexivity; try lia.
  f_equal. apply IH. lia.
Qed.

Lemma splice1_in_range {A} (a : list A) : forall i,
  (i < List.length a)%nat ->
  S (List.length (splice1 i a)) = List.length a
  /\ (forall j, (j < i)%nat -> nth_error (splice1 i a) j = nth_error a j)
  /\ (forall j, (i <= j)%nat -> nth_error (splice1 i a) j = nth_error a (S j)).
Proof.
  induction a as [| a0 a IH]; intros [| i] H; cbn in *; try lia.
  - split; [reflexivity | split; intros j Hj; [lia | reflexivity]].
  - destruct (IH i) as [H1 [H2 H3]]; [lia |].
    split; [lia | split; intros [| j] Hj; cbn; try reflexivity; try lia].
    + apply H2. lia.
    + apply H3. lia.
Qed.

(** X20. Deleting the selected furniture clears the selection index and
    touches no other list. When the index is inside the list, the item at
    that index is removed, the items before it stay and those after it
    move down by one; when the index is stale, the list is left as it is
    and nothing throws. *)
Theorem deleteSelectedFurniture_splices (w : World) (i : nat) :
  selectedFurnitureIndex (sel w) = Some i ->
  let w' := deleteSelectedFurniture w in
  let before := furniture (state w) in
  let after := furniture (state w') in
  selectedFurnitureIndex (sel w') = None
  /\ zones (state w') = zones (state w) /\ entrances (state w') = entrances (state w)
  /\ edges (state w') = edges (state w)
  /\ events w' = (events w ++ [OnFurnitureDeleted i])%list
  /\ ((i < List.length before)%nat ->
      S (List.length after) = List.length before
      /\ (forall j, (j < i)%nat -> nth_error after j = nth_error before j)
      /\ (forall j, (i <= j)%nat -> nth_error after j = nth_error before (S j)))
  /\ ((List.length before <= i)%nat -> after = before).
Proof.
  intros Hi. unfold deleteSelectedFurniture. rewrite Hi. cbn.
  repeat split; try reflexivity.
  - apply splice1_in_range. assumption.
  - apply (splice1_in_range (furniture (state w)) i H).
  - apply (splice1_in_range (furniture (state w)) i H).
  - apply splice1_out_of_range.
Qed.

Lemma deleteSelectedFurniture_splices_witness :
  let w := Sample.world select Sample.idle Sample.furnitureSelected Sample.oneSofa in
  selectedFurnitureIndex (sel w) = Some 0%nat
  /\ furniture (state (deleteSelectedFurniture w)) = []
  /\ selectedFurnitureIndex (sel (deleteSelectedFurniture w)) = None.
Proof.
  cbv zeta.
  set (w := Sample.world select Sample.idle Sample.furnitureSelected Sample.oneSofa).
  assert (Hi : selectedFurnitureIndex (sel w) = Some 0%nat) by reflexivity.
  split; [exact Hi | split; [reflexivity |]].
  exact (proj1 (deleteSelectedFurniture_splices w 0 Hi)).
Defined.

(** X21. The delete button of the host page removes the selected shape of
    every type, edges included, when its own record of the selection agrees
    with the manager's: the entrance, furniture or edge is spliced out of
    its list and the index cleared. *)
Theorem deleteSelectedShape_removes (ty : ItemType) (k : nat) (w : World) (i : nat) :
  ty <> item_zone ->
  (match ty with
   | item_zone => selectedZoneIndex (sel w)
   | item_furniture => selectedFurnitureIndex (sel w)
   | item_entrance => selectedEntranceIndex (sel w)
   | item_edge => selectedEdgeIndex (sel w)
   end) = Some i ->
  exists w', Host.deleteSelectedShape (Some ty) (Some k) w = Ok w'
    /\ zones (state w') = zones (state w)
    /\ furniture (state w')
       = (match ty with
          | item_furniture => splice1 i (furniture (state w))
          | _ => furniture (state w)
          end)
    /\ entrances (state w')
       = (match ty with
          | item_entrance => splice1 i (entrances (state w))
          | _ => entrances (state w)
          end)
    /\ edges (state w')
       = (match ty with
          | item_edge => splice1 i (edges (state w))
          | _ => edges (state w)
          end)
    /\ (match ty with
        | item_zone => selectedZoneIndex (sel w')
        | item_furniture => selectedFurnitureIndex (sel w')
        | item_entrance => selectedEntranceIndex (sel w')
        | item_edge => selectedEdgeIndex (sel w')
        end) = None.
Proof.
  intros Hty Hi. unfold Host.deleteSelectedShape.
  destruct ty; [congruence | | |];
    unfold deleteSelectedFurniture, deleteSelectedEntrance, deleteSelectedEdge;
    rewrite Hi; eexists; (split; [reflexivity |]); cbn; repeat split.
Qed.

Lemma deleteSelectedShape_removes_witness :
  let w := Sample.world select Sample.idle Sample.edgeSelected Sample.oneWall in
  item_edge <> item_zone
  /\ selectedEdgeIndex (sel w) = Some 0%nat
  /\ exists w', Host.deleteSelectedShape (Some item_edge) (Some 0%nat) w = Ok w'
       /\ edges (state w') = [] /\ selectedEdgeIndex (sel w') = None.
Proof.
  cbv zeta.
  set (w := Sample.world select Sample.idle Sample.edgeSelected Sample.oneWall).
  assert (Hty : item_edge <> item_zone) by discriminate.
  assert (Hi : selectedEdgeIndex (sel w) = Some 0%nat) by reflexivity.
  split; [exact Hty | split; [exact Hi |]].
  destruct (deleteSelectedShape_removes item_edge 0 w 0 Hty Hi)
    as [w' [H1 [_ [_ [_ [H2 H3]]]]]].
  exists w'. split; [exact H1 | split; [exact H2 | exact H3]].
Defined.

(** X22. Escape ends in select mode with the eleven properties that
    [resetDrawingState] lists cleared; the selection, the registry and the
    properties outside that list ([dragOffset], [moveOrigin],
    [isRightClickDragging], [drawingEdge]) keep their values.  A pointer-up
    that follows, with any button, commits nothing: the registry is still
    the one before Escape, and the drag flags are off. *)
Theorem escape_keeps_offsets_commits_nothing (now : Z) (event : MouseEvent) (w : World) :
  exists w', handleKeyDown "Escape" w = Ok w'
    /\ mode (this w') = select
    /\ gesture (this w') = mkGesture false false false None None None None [] None [] None
    /\ selection (this w') = selection (this w)
    /\ dragOffset (this w') = dragOffset (this w)
    /\ moveOrigin (this w') = moveOrigin (this w)
    /\ isRightClickDragging (this w') = isRightClickDragging (this w)
    /\ drawingEdge (this w') = drawingEdge (this w)
    /\ state w' = state w
    /\ events w' = (events w ++ [OnPreviewUpdate None; OnPreviewUpdate None;
                                  OnModeChange select])%list
    /\ exists w'', handleMouseUp now event w' = Ok w''
         /\ state w'' = state w
         /\ mode (this w'') = select
         /\ isDragging (ges w'') = false
         /\ isRightClickDragging (this w'') = false
         /\ drawingEdge (this w'') = drawingEdge (this w).
Proof.
  unfold handleKeyDown. cbn [String.eqb Ascii.eqb Bool.eqb orb].
  eexists. split; [reflexivity |].
  do 8 (split; [reflexivity |]).
  split; [cbn; rewrite <- !app_assoc; reflexivity |].
  destruct w as [[m g [a b c d] off org rc de cur] st cv ev].
  unfold handleMouseUp.
  destruct (button event =? 2)%Z, rc; cbn; try destruct d; cbn;
    eexists; (split; [reflexivity |]); repeat split.
Qed.

Lemma fold_min_le_init vs : forall v, fold_left Rmin vs v <= v.
Proof.
  induction vs as [| v0 vs IH]; intros v; cbn; [lra |].
  apply Rle_trans with (Rmin v v0); [apply IH | apply Rmin_l].
Qed.

Lemma fold_min_le_each vs : forall v u, In u vs -> fold_left Rmin vs v <= u.
Proof.
  induction vs as [| v0 vs IH]; intros v u Hin; [destruct Hin |].
  destruct Hin as [-> | Hin]; cbn.
  - apply Rle_trans with (Rmin v u); [apply fold_min_le_init | apply Rmin_r].
  - apply IH. exact Hin.
Qed.

Lemma fold_max_ge_init vs : forall v, v <= fold_left Rmax vs v.
Proof.
  induction vs as [| v0 vs IH]; intros v; cbn; [lra |].
  apply Rle_trans with (Rmax v v0); [apply Rmax_l | apply IH].
Qed.

Lemma fold_max_ge_each vs : forall v u, In u vs -> u <= fold_left Rmax vs v.
Proof.
  induction vs as [| v0 vs IH]; intros v u Hin; [destruct Hin |].
  destruct Hin as [-> | Hin]; cbn.
  - apply Rle_trans with (Rmax v u); [apply Rmax_r | apply fold_max_ge_init].
  - apply IH. exact Hin.
Qed.

Lemma fold_min_in vs : forall v, In (fold_left Rmin vs v) (v :: vs).
Proof.
  induction vs as [| v0 vs IH]; intros v; cbn; [left; reflexivity |].
  destruct (IH (Rmin v v0)) as [E | Hin]; [| right; right; exact Hin].
  rewrite <- E. unfold Rmin. destruct (Rle_dec v v0); [left | right; left]; reflexivity.
Qed.

Lemma fold_max_in vs : forall v, In (fold_left Rmax vs v) (v :: vs).
Proof.
  induction vs as [| v0 vs IH]; intros v; cbn; [left; reflexivity |].
  destruct (IH (Rmax v v0)) as [E | Hin]; [| right; right; exact Hin].
  rewrite <- E. unfold Rmax. destruct (Rle_dec v v0); [right; left | left]; reflexivity.
Qed.

Lemma minOf_spec vs : vs <> [] ->
  In (minOf vs) vs /\ forall u, In u vs -> minOf vs <= u.
Proof.
  destruct vs as [| v vs]; [congruence |]. intros _. split; [apply fold_min_in |].
  intros u [<- | Hin]; [apply fold_min_le_init | apply fold_min_le_each; exact Hin].
Qed.

Lemma maxOf_spec vs : vs <> [] ->
  In (maxOf vs) vs /\ forall u, In u vs -> u <= maxOf vs.
Proof.
  destruct vs as [| v vs]; [congruence |]. intros _. split; [apply fold_max_in |].
  intros u [<- | Hin]; [apply fold_max_ge_init | apply fold_max_ge_each; exact Hin].
Qed.

(** X23. Completing a polygon of at least three vertices into a free slot
    stores the clicked vertices and the tight bounding box of them: every
    vertex lies inside the stored box and each side of the box passes
    through a vertex. *)
Theorem finishPolygon_bounding_box (w : World) (slot : nat) :
  getNextAvailableZoneSlot w = Ok (Some slot) ->
  (3 <= List.length (polygonVertices (ges w)))%nat ->
  exists w' z, finishPolygon w = Ok w'
    /\ nth_error (zones (state w')) slot = Some z
    /\ Zone.enabled z = true /\ Zone.shapeType z = polygon
    /\ Zone.vertices z = Some (polygonVertices (ges w))
    /\ (forall v, In v (polygonVertices (ges w)) ->
        Zone.x1 z <= pt_x v <= Zone.x2 z /\ Zone.y1 z <= pt_y v <= Zone.y2 z)
    /\ (exists a b c d, In a (polygonVertices (ges w)) /\ In b (polygonVertices (ges w))
                        /\ In c (polygonVertices (ges w)) /\ In d (polygonVertices (ges w))
                        /\ pt_x a = Zone.x1 z /\ pt_y b = Zone.y1 z
                        /\ pt_x c = Zone.x2 z /\ pt_y d = Zone.y2 z)
    /\ polygonVertices (ges w') = [] /\ mode (this w') = select.
Proof.
  intros Hslot Hlen.
  destruct (scanSlots_found _ _ _ _ Hslot) as [zone [Hz Hfree]].
  assert (Hlt : (slot < List.length (zones (state w)))%nat)
    by (apply nth_error_Some; rewrite Hz; discriminate).
  unfold finishPolygon. rewrite Hslot. cbn [bind].
  destruct (Nat.ltb_spec (List.length (polygonVertices (ges w))) 3) as [Hc | _]; [lia |].
  rewrite Hz. cbn [bind deref].
  eexists. eexists. split; [reflexivity |].
  cbn [state emit]. rewrite BoxFacts.state_setMode.
  cbn [state set_selectedZoneIndex resetDrawingState emit with_this set_zones with_state zones].
  split; [apply nth_error_store_same; exact Hlt |].
  set (vs := polygonVertices (ges w)) in *.
  assert (Hne : vs <> []) by (intros E; rewrite E in Hlen; cbn in Hlen; lia).
  assert (Hnx : map pt_x vs <> []) by (destruct vs; [congruence | discriminate]).
  assert (Hny : map pt_y vs <> []) by (destruct vs; [congruence | discriminate]).
  destruct (minOf_spec _ Hnx) as [Ix1 Lx1]. destruct (maxOf_spec _ Hnx) as [Ix2 Lx2].
  destruct (minOf_spec _ Hny) as [Iy1 Ly1]. destruct (maxOf_spec _ Hny) as [Iy2 Ly2].
  cbn [Zone.enabled Zone.shapeType Zone.vertices Zone.x1 Zone.x2 Zone.y1 Zone.y2].
  repeat split.
  - apply Lx1. apply in_map. assumption.
  - apply Lx2. apply in_map. assumption.
  - apply Ly1. apply in_map. assumption.
  - apply Ly2. apply in_map. assumption.
  - apply in_map_iff in Ix1 as [a [Ea Ia]]. apply in_map_iff in Iy1 as [b [Eb Ib]].
    apply in_map_iff in Ix2 as [c [Ec Ic]]. apply in_map_iff in Iy2 as [d [Ed Id]].
    exists a, b, c, d. repeat split; assumption.
Qed.

Lemma finishPolygon_bounding_box_witness :
  let w := Sample.world draw_polygon Sample.drawingTriangle Sample.noSelection
                        Sample.fiveFree in
  getNextAvailableZoneSlot w = Ok (Some 0%nat)
  /\ (3 <= List.length (polygonVertices (ges w)))%nat
  /\ exists w' z, finishPolygon w = Ok w'
       /\ nth_error (zones (state w')) 0 = Some z
       /\ Zone.vertices z = Some Sample.smallTriangle.
Proof.
  cbv zeta.
  set (w := Sample.world draw_polygon Sample.drawingTriangle Sample.noSelection
                         Sample.fiveFree).
  assert (Hs : getNextAvailableZoneSlot w = Ok (Some 0%nat)) by reflexivity.
  assert (Hl : (3 <= List.length (polygonVertices (ges w)))%nat) by (cbn; lia).
  split; [exact Hs | split; [exact Hl |]].
  destruct (finishPolygon_bounding_box w 0 Hs Hl) as [w' [z [H1 [H2 [_ [_ [H3 _]]]]]]].
  exists w', z. repeat split; assumption.
Defined.

End StateExtras.

(** ** Rotating shapes *)

Module RotateExtras.
Import Assign DrawingManager Observe JsMath JsMathFacts RegistryFacts Geometry.

Lemma rem_small a b : 0 <= a < b -> rem a b = a.
Proof.
  intros [H0 Hb]. unfold rem, trunc.
  assert (Hq : 0 <= a / b < 1).
  { split.
    - apply Rmult_le_pos; [assumption | left; apply Rinv_0_lt_compat; lra].
    - apply Rmult_lt_reg_r with b; [lra |]. replace (a / b * b) with a by (field; lra). lra. }
  destruct (Rle_dec 0 (a / b)) as [_ | N]; [| lra].
  rewrite <- (Int_part_spec (a / b) 0) by (cbn; lra). cbn. ring.
Qed.

Lemma rem_wrap a b : 0 < b -> b <= a < 2 * b -> rem a b = a - b.
Proof.
  intros Hb [H1 H2]. unfold rem, trunc.
  assert (Hq : 1 <= a / b < 2).
  { split.
    - apply Rmult_le_reg_r with b; [lra |]. replace (a / b * b) with a by (field; lra). lra.
    - apply Rmult_lt_reg_r with b; [lra |]. replace (a / b * b) with a by (field; lra). lra. }
  destruct (Rle_dec 0 (a / b)) as [_ | N]; [| lra].
  rewrite <- (Int_part_spec (a / b) 1) by (cbn; lra). cbn. ring.
Qed.

(** One 45 degree step on a direction in [0, 360). *)
Lemma step45 d : 0 <= d < 360 ->
  rem (d + 45) 360 = (if Rlt_dec (d + 45) 360 then d + 45 else d - 315)
  /\ 0 <= rem (d + 45) 360 < 360.
Proof.
  intros H. destruct (Rlt_dec (d + 45) 360).
  - rewrite rem_small by lra. lra.
  - rewrite rem_wrap by lra. lra.
Qed.

Lemma iter_step45 (k : nat) d : (k <= 8)%nat -> 0 <= d < 360 ->
  let v := Nat.iter k (fun r => rem (r + 45) 360) d in
  0 <= v < 360 /\ (v = d + 45 * INR k \/ v = d + 45 * INR k - 360).
Proof.
  induction k as [| k IH]; intros Hk Hd; cbv zeta;
    try change (Nat.iter (S k) (fun r => rem (r + 45) 360) d)
          with (rem (Nat.iter k (fun r => rem (r + 45) 360) d + 45) 360).
  - cbn. lra.
  - cbv zeta in IH. destruct IH as [Hv Hc]; [lia | assumption |].
    set (v := Nat.iter k (fun r => rem (r + 45) 360) d) in *.
    destruct (step45 v Hv) as [E R]. split; [exact R |].
    rewrite E, S_INR.
    assert (Hle : INR k <= 7) by (replace 7 with (INR 7) by (cbn; lra); apply le_INR; lia).
    pose proof (pos_INR k).
    destruct (Rlt_dec (v + 45) 360); destruct Hc as [-> | ->]; lra.
Qed.

Lemma eight_steps d : 0 <= d < 360 -> Nat.iter 8 (fun r => rem (r + 45) 360) d = d.
Proof.
  intros Hd. destruct (iter_step45 8 d (le_n 8) Hd) as [Hv [E | E]].
  - exfalso. rewrite E in Hv. cbn in Hv. lra.
  - cbv zeta in E. rewrite E. cbn. lra.
Qed.

(** X24. Rotating a furniture item from the host page adds 45 degrees
    modulo 360: a rotation in [0, 360) stays in [0, 360), nothing else of
    the item changes, and eight rotations in a row restore the item. *)
Theorem rotateFurniture_eight_steps (f : Furniture.t) :
  0 <= Furniture.rotation f < 360 ->
  0 <= Furniture.rotation (Host.rotateFurniture f) < 360
  /\ Furniture.rotation (Host.rotateFurniture f)
     = (if Rlt_dec (Furniture.rotation f + 45) 360
        then Furniture.rotation f + 45 else Furniture.rotation f - 315)
  /\ Furniture.x (Host.rotateFurniture f) = Furniture.x f
  /\ Furniture.y (Host.rotateFurniture f) = Furniture.y f
  /\ Furniture.width (Host.rotateFurniture f) = Furniture.width f
  /\ Furniture.height (Host.rotateFurniture f) = Furniture.height f
  /\ Nat.iter 8 Host.rotateFurniture f = f.
Proof.
  intros H. destruct (step45 _ H) as [E R]. unfold Host.rotateFurniture at 1 2 3 4 5 6.
  cbn [Furniture.rotation Furniture.x Furniture.y Furniture.width Furniture.height].
  repeat split; try apply R; try exact E.
  assert (G : forall k, Nat.iter k Host.rotateFurniture f
                        = Furniture.mk (Furniture.id f) (Furniture.type f) (Furniture.x f)
                            (Furniture.y f)
                            (Nat.iter k (fun r => rem (r + 45) 360) (Furniture.rotation f))
                            (Furniture.width f) (Furniture.height f)).
  { induction k as [| k IH]; [destruct f; reflexivity |].
    change (Nat.iter (S k) Host.rotateFurniture f)
      with (Host.rotateFurniture (Nat.iter k Host.rotateFurniture f)).
    rewrite IH. reflexivity. }
  rewrite G, eight_steps by assumption. destruct f; reflexivity.
Qed.

Lemma rotateFurniture_eight_steps_witness :
  0 <= Furniture.rotation Sample.sofa < 360
  /\ Nat.iter 8 Host.rotateFurniture Sample.sofa = Sample.sofa.
Proof.
  assert (H : 0 <= Furniture.rotation Sample.sofa < 360) by (cbn; lra).
  split; [exact H |].
  exact (proj2 (proj2 (proj2 (proj2 (proj2 (proj2
           (rotateFurniture_eight_steps Sample.sofa H))))))).
Defined.

Lemma store_store {A} (a : list A) : forall i u v, store i u (store i v a) = store i u a.
Proof.
  induction a as [| a0 a IH]; intros [| i] u v; cbn; try reflexivity. f_equal. apply IH.
Qed.

Lemma store_same {A} (a : list A) : forall i v, nth_error a i = Some v -> store i v a = a.
Proof.
  induction a as [| a0 a IH]; intros [| i] v H; cbn in *; try discriminate.
  - injection H as ->. reflexivity.
  - f_equal. apply IH. exact H.
Qed.

Lemma rotate_entrance_run (k : nat) : forall w i en,
  selectedEntranceIndex (sel w) = Some i ->
  nth_error (entrances (state w)) i = Some en ->
  exists wk, Repeat.times k rotateSelectedEntrance w = Ok wk
    /\ sel wk = sel w
    /\ state wk
       = mkState (zones (state w)) (furniture (state w))
           (store i (turned (Nat.iter k (fun r => rem (r + 45) 360) (Entrance.direction en)) en)
                    (entrances (state w)))
           (edges (state w)) (placingFurniture (state w)).
Proof.
  induction k as [| k IH]; intros w i en Hi Hen.
  - exists w. cbn [Repeat.times]. split; [reflexivity | split; [reflexivity |]].
    change (Nat.iter 0 (fun r => rem (r + 45) 360) (Entrance.direction en))
      with (Entrance.direction en).
    rewrite store_same by (rewrite Hen; destruct en; reflexivity).
    destruct (state w); reflexivity.
  - cbn [Repeat.times]. unfold rotateSelectedEntrance at 1. rewrite Hi, Hen. cbn [bind deref].
    set (en1 := Entrance.mk _ _ _ _ _).
    set (w1 := emit _ _).
    assert (Hlt : (i < List.length (entrances (state w)))%nat)
      by (apply nth_error_Some; rewrite Hen; discriminate).
    destruct (IH w1 i en1) as [wk [Hrun [Hs Hst]]].
    + exact Hi.
    + unfold w1. cbn [state emit set_entrances with_state entrances].
      apply nth_error_store_same. exact Hlt.
    + exists wk. split; [exact Hrun |]. split; [rewrite Hs; reflexivity |].
      rewrite Hst. unfold w1.
      cbn [state emit set_entrances with_state entrances zones furniture edges placingFurniture].
      rewrite store_store. rewrite Nat.iter_succ_r. reflexivity.
Qed.

(** X25. Rotating the selected entrance adds 45 degrees modulo 360 to its
    direction and changes nothing else; a direction in [0, 360) stays in
    [0, 360), and eight rotations in a row leave the registry as it was. *)
Theorem rotateSelectedEntrance_eight_steps (w : World) (i : nat) (en : Entrance.t) :
  selectedEntranceIndex (sel w) = Some i ->
  nth_error (entrances (state w)) i = Some en ->
  0 <= Entrance.direction en < 360 ->
  (exists w' en', rotateSelectedEntrance w = Ok w'
     /\ nth_error (entrances (state w')) i = Some en'
     /\ Entrance.direction en'
        = (if Rlt_dec (Entrance.direction en + 45) 360
           then Entrance.direction en + 45 else Entrance.direction en - 315)
     /\ 0 <= Entrance.direction en' < 360
     /\ Entrance.x en' = Entrance.x en /\ Entrance.y en' = Entrance.y en
     /\ Entrance.label en' = Entrance.label en
     /\ sel w' = sel w)
  /\ (exists w8, Repeat.times 8 rotateSelectedEntrance w = Ok w8
        /\ state w8 = state w /\ sel w8 = sel w).
Proof.
  intros Hi Hen Hd.
  assert (Hlt : (i < List.length (entrances (state w)))%nat)
    by (apply nth_error_Some; rewrite Hen; discriminate).
  destruct (step45 _ Hd) as [E R]. split.
  - unfold rotateSelectedEntrance. rewrite Hi, Hen. cbn [bind deref].
    eexists. eexists. split; [reflexivity |].
    cbn [state emit set_entrances with_state entrances].
    split; [apply nth_error_store_same; exact Hlt |]. cbn.
    repeat split; try apply R; exact E.
  - destruct (rotate_entrance_run 8 w i en Hi Hen) as [w8 [Hrun [Hs Hst]]].
    exists w8. split; [exact Hrun |]. split; [| exact Hs].
    rewrite Hst, eight_steps by assumption.
    rewrite store_same by (rewrite Hen; destruct en; reflexivity).
    destruct (state w); reflexivity.
Qed.

Lemma rotateSelectedEntrance_eight_steps_witness :
  let w := Sample.world select Sample.idle Fixture.entranceSelected Fixture.oneDoor in
  selectedEntranceIndex (sel w) = Some 0%nat
  /\ nth_error (entrances (state w)) 0 = Some Fixture.door
  /\ 0 <= Entrance.direction Fixture.door < 360
  /\ exists w8, Repeat.times 8 rotateSelectedEntrance w = Ok w8 /\ state w8 = state w.
Proof.
  cbv zeta.
  set (w := Sample.world select Sample.idle Fixture.entranceSelected Fixture.oneDoor).
  assert (Hi : selectedEntranceIndex (sel w) = Some 0%nat) by reflexivity.
  assert (Hen : nth_error (entrances (state w)) 0 = Some Fixture.door) by reflexivity.
  assert (Hd : 0 <= Entrance.direction Fixture.door < 360) by (cbn; lra).
  split; [exact Hi | split; [exact Hen | split; [exact Hd |]]].
  destruct (proj2 (rotateSelectedEntrance_eight_steps w 0 Fixture.door Hi Hen Hd))
    as [w8 [H1 [H2 _]]].
  exists w8. split; assumption.
Defined.

End RotateExtras.

(** ** The host page and the right button *)

Module HostExtras.
Import Assign DrawingManager Observe JsMath JsMathFacts RegistryFacts.

Lemma clamp_bounds lo hi v : lo <= hi -> lo <= Rmax lo (Rmin hi v) <= hi.
Proof.
  intros H. unfold Rmax, Rmin.
  destruct (Rle_dec hi v); destruct (Rle_dec lo _); lra.
Qed.

Lemma clamp_integer (lo hi k : Z) :
  exists m : Z, Rmax (IZR lo) (Rmin (IZR hi) (IZR k)) = IZR m.
Proof.
  unfold Rmax, Rmin.
  destruct (Rle_dec (IZR hi) (IZR k)); destruct (Rle_dec (IZR lo) _);
    eexists; reflexivity.
Qed.

Lemma clamp_mono lo hi u v : u <= v -> Rmax lo (Rmin hi u) <= Rmax lo (Rmin hi v).
Proof.
  intros H. unfold Rmax, Rmin.
  destruct (Rle_dec hi u), (Rle_dec hi v);
    repeat match goal with |- context [Rle_dec ?a ?b] => destruct (Rle_dec a b) end; lra.
Qed.

(** X26. The resize buttons of the host page store a furniture width and
    height that are whole numbers between 200 and 4000, whatever the scale
    factor, and change nothing else of the item; at scale factor 1 a
    whole-number size inside that range is kept. *)
Theorem resizeFurnitureBy_clamped (scaleFactor : R) (f : Furniture.t) :
  let f' := Host.resizeFurnitureBy scaleFactor f in
  200 <= Furniture.width f' <= 4000 /\ 200 <= Furniture.height f' <= 4000
  /\ (exists a b : Z, Furniture.width f' = IZR a /\ Furniture.height f' = IZR b)
  /\ Furniture.x f' = Furniture.x f /\ Furniture.y f' = Furniture.y f
  /\ Furniture.rotation f' = Furniture.rotation f /\ Furniture.type f' = Furniture.type f
  /\ (forall a b : Z, Furniture.width f = IZR a -> Furniture.height f = IZR b ->
      200 <= IZR a <= 4000 -> 200 <= IZR b <= 4000 ->
      Host.resizeFurnitureBy 1 f = f).
Proof.
  unfold Host.resizeFurnitureBy, Host.MIN_SIZE, Host.MAX_SIZE. cbn.
  split; [apply clamp_bounds; lra |]. split; [apply clamp_bounds; lra |].
  split.
  - destruct (clamp_integer 200 4000 (round (Furniture.width f * scaleFactor))) as [a Ha].
    destruct (clamp_integer 200 4000 (round (Furniture.height f * scaleFactor))) as [b Hb].
    exists a, b. split; assumption.
  - repeat split. intros a b Ha Hb Ra Rb.
    rewrite Ha, Hb, !Rmult_1_r, !round_IZR.
    rewrite (Rmin_right 4000 (IZR a)), (Rmax_right 200 (IZR a)) by lra.
    rewrite (Rmin_right 4000 (IZR b)), (Rmax_right 200 (IZR b)) by lra.
    rewrite <- Ha, <- Hb. destruct f; reflexivity.
Qed.

(** X27. The resize buttons of the host page, applied to an edge with a
    scale factor that is not negative, store a normalized box with
    whole-number coordinates inside the sensor range, even when the edge
    was stored with its corners exchanged. *)
Theorem resizeEdgeBy_normalized (scaleFactor : R) (ed : Edge.t) :
  0 <= scaleFactor ->
  let ed' := Host.resizeEdgeBy scaleFactor ed in
  edge_normalized ed'
  /\ -3000 <= Edge.x1 ed' /\ Edge.x2 ed' <= 3000 /\ 0 <= Edge.y1 ed' /\ Edge.y2 ed' <= 6000
  /\ (exists a b c d : Z, Edge.x1 ed' = IZR a /\ Edge.y1 ed' = IZR b
                          /\ Edge.x2 ed' = IZR c /\ Edge.y2 ed' = IZR d)
  /\ Edge.id ed' = Edge.id ed.
Proof.
  intros Hs. unfold Host.resizeEdgeBy, edge_normalized. cbn.
  pose proof (Rabs_pos (Edge.x2 ed - Edge.x1 ed)) as Px.
  pose proof (Rabs_pos (Edge.y2 ed - Edge.y1 ed)) as Py.
  set (cx := (Edge.x1 ed + Edge.x2 ed) / 2). set (cy := (Edge.y1 ed + Edge.y2 ed) / 2).
  set (hw := Rabs (Edge.x2 ed - Edge.x1 ed) / 2 * scaleFactor).
  set (hh := Rabs (Edge.y2 ed - Edge.y1 ed) / 2 * scaleFactor).
  assert (Hw : 0 <= hw) by (unfold hw; apply Rmult_le_pos; lra).
  assert (Hh : 0 <= hh) by (unfold hh; apply Rmult_le_pos; lra).
  split; [split; apply clamp_mono, IZR_le, round_mono; lra |].
  split; [apply clamp_bounds; lra |]. split; [apply clamp_bounds; lra |].
  split; [apply clamp_bounds; lra |]. split; [apply clamp_bounds; lra |].
  split; [| reflexivity].
  destruct (clamp_integer (-3000) 3000 (round (cx - hw))) as [a Ha].
  destruct (clamp_integer 0 6000 (round (cy - hh))) as [b Hb].
  destruct (clamp_integer (-3000) 3000 (round (cx + hw))) as [c Hc].
  destruct (clamp_integer 0 6000 (round (cy + hh))) as [d Hd].
  exists a, b, c, d. repeat split; assumption.
Qed.

Lemma resizeEdgeBy_normalized_witness :
  0 <= 11 / 10
  /\ edge_normalized (Host.resizeEdgeBy (11 / 10) Sample.wall).
Proof.
  assert (H : 0 <= 11 / 10) by lra.
  split; [exact H |].
  exact (proj1 (resizeEdgeBy_normalized (11 / 10) Sample.wall H)).
Defined.

(** X28. A right-button pointer-down never throws, whatever the selection
    indices point at: it returns, and it changes neither the registry, nor
    the selection, nor the event log. *)
Theorem handleRightClickDrag_safe (canvasCoords sensorCoords : Point) (w : World) :
  exists w', handleRightClickDrag canvasCoords sensorCoords w = Ok w'
    /\ state w' = state w /\ sel w' = sel w /\ events w' = events w
    /\ mode (this w') = mode (this w).
Proof.
  unfold handleRightClickDrag, or_else, and_then, isPointInZone, isPointInFurniture,
    isPointInEntrance, isPointInEdge, getZoneCorners, startRightDrag.
  repeat (cbn [bind deref item_at];
          match goal with
          | |- context [match selectedZoneIndex ?s with Some _ => _ | None => _ end] =>
              destruct (selectedZoneIndex s)
          | |- context [match selectedFurnitureIndex ?s with Some _ => _ | None => _ end] =>
              destruct (selectedFurnitureIndex s)
          | |- context [match selectedEntranceIndex ?s with Some _ => _ | None => _ end] =>
              destruct (selectedEntranceIndex s)
          | |- context [match selectedEdgeIndex ?s with Some _ => _ | None => _ end] =>
              destruct (selectedEdgeIndex s)
          | |- context [nth_error ?l ?i] => destruct (nth_error l i)
          | |- context [Zone.enabled ?z] => destruct (Zone.enabled z)
          | |- context [match Zone.shapeType ?z with rectangle => _ | polygon => _ end] =>
              destruct (Zone.shapeType z)
          | |- context [match Zone.vertices ?z with Some _ => _ | None => _ end] =>
              destruct (Zone.vertices z)
          | |- context [if ?b then _ else _] => destruct b
          end).
  all: cbn [bind deref item_at negb]; eexists; (split; [reflexivity |]); cbn; auto.
Qed.

Lemma resizeFurnitureBy_clamped_witness :
  Furniture.width Sample.sofa = IZR 1800 /\ Furniture.height Sample.sofa = IZR 800
  /\ 200 <= IZR 1800 <= 4000 /\ 200 <= IZR 800 <= 4000
  /\ Host.resizeFurnitureBy 1 Sample.sofa = Sample.sofa.
Proof.
  assert (Ha : Furniture.width Sample.sofa = IZR 1800) by reflexivity.
  assert (Hb : Furniture.height Sample.sofa = IZR 800) by reflexivity.
  assert (Ra : 200 <= IZR 1800 <= 4000) by lra.
  assert (Rb : 200 <= IZR 800 <= 4000) by lra.
  split; [exact Ha | split; [exact Hb | split; [exact Ra | split; [exact Rb |]]]].
  destruct (resizeFurnitureBy_clamped 1 Sample.sofa) as [_ [_ [_ [_ [_ [_ [_ H]]]]]]].
  exact (H 1800%Z 800%Z Ha Hb Ra Rb).
Defined.

End HostExtras.

(** ** Selecting by pointer and polygon clicks *)

Module PickExtras.
Import Assign DrawingManager Observe JsMath JsMathFacts RegistryFacts.

(** The descending search returns the hit with the largest index. *)
Lemma findLast_spec {A} (p : A -> outcome bool) (total : forall a, exists b, p a = Ok b)
    (l : list A) : forall i,
  (findLast p l i = Ok None /\ forall a, In a l -> p a = Ok false)
  \/ (exists k a, findLast p l i = Ok (Some ((i + k)%nat, a))
        /\ nth_error l k = Some a /\ p a = Ok true
        /\ forall j b, (k < j)%nat -> nth_error l j = Some b -> p b = Ok false).
Proof.
  induction l as [| a0 l IH]; intros i; cbn [findLast].
  - left. split; [reflexivity | intros a []].
  - destruct (IH (S i)) as [[E Hnone] | [k [a [E [Hn [Hp Hlater]]]]]]; rewrite E; cbn [bind].
    + destruct (total a0) as [[|] Eb]; rewrite Eb; cbn [bind].
      * right. exists 0%nat, a0. rewrite Nat.add_0_r. repeat split; try assumption.
        intros [| j] b Hj Hb; [lia |]. cbn in Hb. apply Hnone. eapply nth_error_In. exact Hb.
      * left. split; [reflexivity |]. intros a [<- | Hin]; [exact Eb | apply Hnone; exact Hin].
    + right. exists (S k), a. replace (i + S k)%nat with (S i + k)%nat by lia.
      repeat split; try assumption.
      intros [| j] b Hj Hb; [lia |]. cbn in Hb. apply (Hlater j b); [lia | exact Hb].
Qed.

Lemma findFirst_total {A} (p : A -> outcome bool) (total : forall a, exists b, p a = Ok b)
    (l : list A) : forall i, exists r, findFirst p l i = Ok r.
Proof.
  induction l as [| a0 l IH]; intros i; cbn [findFirst]; [eexists; reflexivity |].
  destruct (total a0) as [[|] Eb]; rewrite Eb; cbn [bind]; [eexists; reflexivity | apply IH].
Qed.

Lemma isPointInEntrance_total x y en : exists b, isPointInEntrance x y (Some en) = Ok b.
Proof. eexists. reflexivity. Qed.

Lemma isPointInFurniture_total x y f : exists b, isPointInFurniture x y (Some f) = Ok b.
Proof. eexists. reflexivity. Qed.

Lemma isPointInEdge_total x y ed : exists b, isPointInEdge x y (Some ed) = Ok b.
Proof. eexists. reflexivity. Qed.

Lemma isPointInZone_total x y z : exists b, isPointInZone x y (Some z) = Ok b.
Proof.
  unfold isPointInZone. cbn [bind deref].
  destruct (Zone.enabled z); cbn [negb]; [| eexists; reflexivity].
  destruct (Zone.shapeType z), (Zone.vertices z); eexists; reflexivity.
Qed.

Lemma selectDown_pick_total p w :
  exists w', selectDown_pick p w = Ok w'
    /\ state w' = state w /\ gesture (this w') = gesture (this w)
    /\ mode (this w') = mode (this w).
Proof.
  unfold selectDown_pick.
  destruct (findLast_spec _ (isPointInEntrance_total (pt_x p) (pt_y p)) (entrances (state w)) 0)
    as [[E _] | [k [a [E _]]]]; rewrite E; cbn [bind].
  2: { eexists. split; [reflexivity |].
       destruct w as [[m g [[?|] [?|] [?|] [?|]] ? ? ? ? ?] ? ? ?]; cbn; auto. }
  destruct (findLast_spec _ (isPointInFurniture_total (pt_x p) (pt_y p)) (furniture (state w)) 0)
    as [[E2 _] | [k [a [E2 _]]]]; rewrite E2; cbn [bind].
  2: { eexists. split; [reflexivity |].
       destruct w as [[m g [[?|] [?|] [?|] [?|]] ? ? ? ? ?] ? ? ?]; cbn; auto. }
  destruct (findFirst_total _ (isPointInZone_total (pt_x p) (pt_y p)) (zones (state w)) 0)
    as [[[k a] |] E3]; rewrite E3; cbn [bind].
  { eexists. split; [reflexivity |].
    destruct w as [[m g [[?|] [?|] [?|] [?|]] ? ? ? ? ?] ? ? ?]; cbn; auto. }
  destruct (findLast_spec _ (isPointInEdge_total (pt_x p) (pt_y p)) (edges (state w)) 0)
    as [[E4 _] | [k [a [E4 _]]]]; rewrite E4; cbn [bind].
  all: eexists; (split; [reflexivity |]);
    destruct w as [[m g [[?|] [?|] [?|] [?|]] ? ? ? ? ?] ? ? ?]; cbn; auto.
Qed.

(** X29. With nothing selected, a pointer-down in select mode never throws
    and starts no gesture: it leaves the registry and the gesture state as
    they are and ends with at most one shape selected.  Entrances win over
    every other shape: when the pointer is on an entrance, the entrance
    selected is the last one in the list that the pointer hits, and the
    selection is reported once. *)
Theorem pointer_down_on_fresh_selection (canvasCoords p : Point) (w : World) :
  sel w = mkSelection None None None None ->
  exists w', handleSelectMouseDown canvasCoords p w = Ok w'
    /\ state w' = state w /\ gesture (this w') = gesture (this w)
    /\ at_most_one_selected (sel w')
    /\ ((exists en, In en (entrances (state w))
                    /\ isPointInEntrance (pt_x p) (pt_y p) (Some en) = Ok true) ->
        exists k en,
          sel w' = mkSelection None None (Some k) None
          /\ nth_error (entrances (state w)) k = Some en
          /\ isPointInEntrance (pt_x p) (pt_y p) (Some en) = Ok true
          /\ (forall j later, (k < j)%nat -> nth_error (entrances (state w)) j = Some later ->
              isPointInEntrance (pt_x p) (pt_y p) (Some later) = Ok false)
          /\ events w' = (events w ++ [OnEntranceSelect (Some k) (Some en)])%list).
Proof.
  intros Hsel.
  assert (Hdown : handleSelectMouseDown canvasCoords p w = selectDown_pick p w).
  { unfold handleSelectMouseDown, selectDown_furniture, selectDown_zone, selectDown_entrance,
      selectDown_edge, or_else. rewrite Hsel. reflexivity. }
  rewrite Hdown.
  destruct (selectDown_pick_total p w) as [w' [Hrun [Hst [Hg _]]]].
  exists w'. split; [exact Hrun |]. split; [exact Hst |]. split; [exact Hg |].
  split; [exact (SelectionFacts.selectDown_pick_single p w w' Hrun) |].
  intros [en [Hin Hhit]].
  unfold selectDown_pick in Hrun.
  destruct (findLast_spec _ (isPointInEntrance_total (pt_x p) (pt_y p)) (entrances (state w)) 0)
    as [[E Hnone] | [k [a [E [Hn [Hp Hlater]]]]]].
  - rewrite (Hnone en Hin) in Hhit. discriminate.
  - rewrite E in Hrun. cbn [bind Nat.add] in Hrun. injection Hrun as <-.
    exists k, a. split.
    + unfold sel in *. destruct w as [[m g s ? ? ? ? ?] ? ? ?]. cbn in Hsel. subst s.
      reflexivity.
    + repeat split; try assumption.
      unfold sel in *. destruct w as [[m g s ? ? ? ? ?] ? ? ?]. cbn in Hsel. subst s.
      reflexivity.
Qed.

Lemma pointer_down_on_fresh_selection_witness :
  let w := Sample.world select Sample.idle Sample.noSelection Fixture.oneDoor in
  sel w = mkSelection None None None None
  /\ (exists en, In en (entrances (state w))
                 /\ isPointInEntrance 1000 100 (Some en) = Ok true)
  /\ exists w', handleSelectMouseDown (mkPoint 400 590) (mkPoint 1000 100) w = Ok w'
       /\ sel w' = mkSelection None None (Some 0%nat) None.
Proof.
  cbv zeta.
  set (w := Sample.world select Sample.idle Sample.noSelection Fixture.oneDoor).
  assert (Hsel : sel w = mkSelection None None None None) by reflexivity.
  assert (Hhit : exists en, In en (entrances (state w))
                            /\ isPointInEntrance 1000 100 (Some en) = Ok true).
  { exists Fixture.door. split; [left; reflexivity |].
    unfold isPointInEntrance. cbn [bind deref Fixture.door Entrance.x Entrance.y].
    f_equal. apply leb_true.
    replace ((1000 - 1000) * (1000 - 1000) + (100 - 0) * (100 - 0)) with (100 * 100) by ring.
    rewrite sqrt_square; lra. }
  split; [exact Hsel | split; [exact Hhit |]].
  destruct (pointer_down_on_fresh_selection (mkPoint 400 590) (mkPoint 1000 100) w Hsel)
    as [w' [Hrun [_ [_ [_ Hent]]]]].
  exists w'. split; [exact Hrun |].
  destruct (Hent Hhit) as [k [en [Hs [Hn _]]]].
  rewrite Hs. destruct k as [| k]; [reflexivity |].
  cbn in Hn. destruct k; discriminate.
Defined.

Lemma sqrt_lt_300 a : 0 <= a < 300 * 300 -> sqrt a < 300.
Proof.
  intros H. rewrite <- (sqrt_square 300) at 1 by lra. apply sqrt_lt_1_alt. exact H.
Qed.

(** X30. While a free zone slot exists, each of the first three polygon
    clicks appends its 100mm-snapped position as a vertex, however close to
    the earlier vertices it is, and touches neither the registry nor the
    selection.  From the fourth click on, a click whose snapped position is
    closer than 300mm to the first vertex closes the polygon instead of
    adding a vertex.  A double click with fewer than three vertices changes
    nothing and reports nothing. *)
Theorem polygon_clicks (p : Point) (w : World) (slot : nat) :
  getNextAvailableZoneSlot w = Ok (Some slot) ->
  let point := mkPoint (snap 100 (pt_x p)) (snap 100 (pt_y p)) in
  let vs := polygonVertices (ges w) in
  ((List.length vs < 3)%nat ->
   exists w', handlePolygonClick p w = Ok w'
     /\ polygonVertices (ges w') = (vs ++ [point])%list
     /\ state w' = state w /\ sel w' = sel w
     /\ events w' = (events w ++ [OnPreviewUpdate (Some (PreviewPolygon (vs ++ [point])))])%list)
  /\ (forall first rest, vs = first :: rest -> (3 <= List.length vs)%nat ->
      (pt_x point - pt_x first) * (pt_x point - pt_x first)
      + (pt_y point - pt_y first) * (pt_y point - pt_y first) < 300 * 300 ->
      handlePolygonClick p w = finishPolygon w)
  /\ ((List.length vs < 3)%nat -> handleDoubleClick w = Ok w).
Proof.
  intros Hslot point vs. split; [| split].
  - intros Hlen. unfold handlePolygonClick. rewrite Hslot. cbn [bind].
    destruct (Nat.leb_spec 3 (List.length (polygonVertices (ges w)))) as [Hc | _];
      [unfold vs in Hlen; lia |].
    eexists. split; [reflexivity |]. cbn. repeat split.
  - intros first rest Hvs Hlen Hd. unfold handlePolygonClick. rewrite Hslot. cbn [bind].
    fold vs. rewrite Hvs in *.
    destruct (Nat.leb_spec 3 (List.length (first :: rest))) as [_ | Hc]; [| lia].
    rewrite ltb_true; [reflexivity |].
    apply sqrt_lt_300. subst point. cbn [pt_x pt_y] in *. simpl pow. rewrite !Rmult_1_r.
    split; [apply Rplus_le_le_0_compat; apply Rle_0_sqr | exact Hd].
  - intros Hlen. unfold handleDoubleClick.
    destruct (mode (this w)); try reflexivity.
    destruct (Nat.leb_spec 3 (List.length (polygonVertices (ges w)))) as [Hc | _];
      [unfold vs in Hlen; lia | reflexivity].
Qed.

Lemma snap100_100 : snap 100 100 = 100.
Proof. rewrite (snap_eq 100 100 1); lra. Qed.

Lemma polygon_clicks_witness :
  let w := Sample.world draw_polygon Sample.drawingTriangle Sample.noSelection
                        Sample.fiveFree in
  getNextAvailableZoneSlot w = Ok (Some 0%nat)
  /\ handlePolygonClick (mkPoint 100 100) w = finishPolygon w.
Proof.
  cbv zeta.
  set (w := Sample.world draw_polygon Sample.drawingTriangle Sample.noSelection
                         Sample.fiveFree).
  assert (Hs : getNextAvailableZoneSlot w = Ok (Some 0%nat)) by reflexivity.
  split; [exact Hs |].
  destruct (polygon_clicks (mkPoint 100 100) w 0 Hs) as [_ [H _]].
  apply (H (mkPoint 0 0) [mkPoint 100 0; mkPoint 0 100]); [reflexivity | cbn; lia |].
  cbn [pt_x pt_y]. rewrite snap100_100. lra.
Defined.

End PickExtras.
